(** * EtherFi anomaly analysis: the persistence layer

    A shallow embedding of the database layer of the backend
    (db-connection.js, queries.js, schema.sql) and of the retry helper of
    utils/error-handler.js, with the properties their specification states.

    Conventions of the model
    - JavaScript values are the type [jsval]; numbers are integers (every
      number this code inspects is a count, a limit, a duration or a time in
      milliseconds).
    - Asynchronous code is written in a monad [M] that threads an abstract
      world, may throw, and records the observable actions in a log.
    - A table is the list of its rows; SQL statements are functions on
      tables, [NOW()] is an explicit argument, NULL is [JNull]. A statement
      completes or is rejected by the server; it is rejected, too, when it
      binds a value that the server would store in another form than the
      one given (a text it would read as a number, a number it would write
      out as text): a statement that completes has stored what it was
      given. A row read back is the row as stored; the text form in which
      the driver hands over NUMERIC and BIGINT values is not modelled.
    - The server's date arithmetic and its aggregates are parameters. *)

From Stdlib Require Import ZArith NArith List String Ascii Bool Lia.
From Stdlib Require Import Permutation Sorted.
Local Open Scope string_scope.
Import ListNotations.
Local Open Scope list_scope.
Local Open Scope Z_scope.

(** ** JavaScript values *)

Module Js.

Inductive jsval : Type :=
| JUndefined
| JNull
| JBool (b : bool)
| JNum (n : Z)
| JStr (s : string)
| JDate (ms : Z)
| JArr (items : list string).

(** What a [throw] or a rejected promise carries: an [Error] object, or
    [undefined] (a variable never assigned, a [reject()] without a reason)
    or [null]. *)
Inductive thrown : Type :=
| ThrownUndefined
| ThrownNull
| ThrownError (name message : string).

(** The TypeError of reading a property of [undefined] or [null], in the
    words of V8. *)
Definition cannot_read (of_what name : string) : thrown :=
  ThrownError "TypeError"
    ("Cannot read properties of " ++ of_what ++ " (reading '" ++ name
       ++ "')")%string.

(** [error.message]: the message of an [Error] object; on [undefined] and
    on [null] there is nothing to read from and the expression throws. *)
Definition message (e : thrown) : thrown + jsval :=
  match e with
  | ThrownUndefined => inl (cannot_read "undefined" "message")
  | ThrownNull => inl (cannot_read "null" "message")
  | ThrownError _ m => inr (JStr m)
  end.

(** The errors whose message can be read. *)
Definition has_message (e : thrown) : bool :=
  match message e with
  | inl _ => false
  | inr _ => true
  end.

(** ToBoolean *)
Definition truthy (v : jsval) : bool :=
  match v with
  | JUndefined | JNull => false
  | JBool b => b
  | JNum n => negb (n =? 0)
  | JStr s => negb (s =? "")%string
  | JDate _ | JArr _ => true
  end.

(** [a || b] *)
Definition or_else (a b : jsval) : jsval := if truthy a then a else b.

(** ** Decimal rendering of integers, for template literals *)

Definition digit_of (n : nat) : ascii :=
  ascii_of_nat (48 + n).

Fixpoint digits_pos (fuel : nat) (n : N) (acc : string) : string :=
  match fuel with
  | O => acc
  | S fuel' =>
      let acc' := String (digit_of (N.to_nat (n mod 10))) acc in
      if (n / 10 =? 0)%N then acc' else digits_pos fuel' (n / 10)%N acc'
  end.

Definition string_of_N (n : N) : string :=
  digits_pos (S (N.to_nat (N.log2 n))) n "".

Definition string_of_Z (z : Z) : string :=
  match z with
  | Z0 => "0"
  | Zpos p => string_of_N (Npos p)
  | Zneg p => ("-" ++ string_of_N (Npos p))%string
  end.

Fixpoint join (sep : string) (l : list string) : string :=
  match l with
  | [] => ""
  | [x] => x
  | x :: rest => (x ++ sep ++ join sep rest)%string
  end.

(** ToString, as a template literal applies it, for numbers below 10^21 in
    size (larger ones print with an exponent). Dates print as their
    millisecond count: no function of this model interpolates one. *)
Definition to_string (v : jsval) : string :=
  match v with
  | JUndefined => "undefined"
  | JNull => "null"
  | JBool true => "true"
  | JBool false => "false"
  | JNum n => string_of_Z n
  | JStr s => s
  | JDate ms => string_of_Z ms
  | JArr items => join "," items
  end.

End Js.

(** ** Effects: world, exceptions, log *)

Module Eff.

Inductive outcome (A : Type) : Type :=
| Returned (a : A)
| Threw (e : Js.thrown).
Arguments Returned {A} a.
Arguments Threw {A} e.

Section Monad.
Context {W E : Type}.

(** A computation from a world to an outcome, the next world and the
    actions it performed, oldest first. *)
Definition M (A : Type) : Type := W -> outcome A * W * list E.

Definition ret {A} (a : A) : M A := fun w => (Returned a, w, []).

Definition throw {A} (e : Js.thrown) : M A := fun w => (Threw e, w, []).

Definition bind {A B} (m : M A) (k : A -> M B) : M B :=
  fun w =>
    match m w with
    | (Returned a, w1, l1) =>
        let '(r, w2, l2) := k a w1 in (r, w2, l1 ++ l2)
    | (Threw e, w1, l1) => (Threw e, w1, l1)
    end.

(** [try { body } catch (error) { handler }] *)
Definition try_catch {A} (body : M A) (handler : Js.thrown -> M A) : M A :=
  fun w =>
    match body w with
    | (Returned a, w1, l1) => (Returned a, w1, l1)
    | (Threw e, w1, l1) =>
        let '(r, w2, l2) := handler e w1 in (r, w2, l1 ++ l2)
    end.

(** [try { body } finally { cleanup }]: the cleanup runs on both exits; if
    it throws, its exception replaces the outcome of the body. *)
Definition try_finally {A} (body : M A) (cleanup : M unit) : M A :=
  fun w =>
    let '(r, w1, l1) := body w in
    match cleanup w1 with
    | (Returned _, w2, l2) => (r, w2, l1 ++ l2)
    | (Threw e, w2, l2) => (Threw e, w2, l1 ++ l2)
    end.

(** One observable action. *)
Definition emit (ev : E) : M unit := fun w => (Returned tt, w, [ev]).

(** An operation of the environment, recorded in the log as [ev]. *)
Definition perform {A} (ev : E) (op : W -> outcome A * W) : M A :=
  fun w => let '(r, w1) := op w in (r, w1, [ev]).

(** Evaluating [error.message] *)
Definition message_of (error : Js.thrown) : M Js.jsval :=
  match Js.message error with
  | inl type_error => throw type_error
  | inr m => ret m
  end.

End Monad.

Arguments M : clear implicits.

Module Notations.
Declare Scope eff_scope.
Delimit Scope eff_scope with eff.
Notation "x <- m ;; k" := (bind m (fun x => k))
  (at level 61, m at next level, right associativity) : eff_scope.
Notation "m ;; k" := (bind m (fun _ => k))
  (at level 61, right associativity) : eff_scope.
End Notations.

End Eff.

(** ** db-connection.js: the pool and the transaction runner *)

Module DbConnection.
Import Eff Eff.Notations.

(** What the runner does to the outside: the pool hands out a client, the
    client is sent statements, the client goes back to the pool, the console
    receives a line. *)
Inductive event (client : Type) : Type :=
| Connect (c : client)
| Query (c : client) (text : string)
| Release (c : client)
| ConsoleError (label : string) (detail : Js.jsval).
Arguments Connect {client} c.
Arguments Query {client} c text.
Arguments Release {client} c.
Arguments ConsoleError {client} label detail.

Section Pool.
(** The driver (the pg package) is outside the repository: its pool and
    its clients are taken as they behave. *)
Context {W client rows : Type}.
Variable pool_connect : W -> outcome client * W.
Variable client_query : client -> string -> W -> outcome rows * W.
Variable client_release : client -> W -> W.

Local Abbreviation M := (Eff.M W (event client)).
Local Open Scope eff_scope.

Definition query_on (c : client) (text : string) : M rows :=
  perform (Query c text) (client_query c text).

Definition release (c : client) : M unit :=
  perform (Release c) (fun w => (Returned tt, client_release c w)).

(** [getClient]: the wrapper it installs around [release] restores the
    original method and calls it, so the client is the pool's client. *)
Definition getClient : M client :=
  fun w =>
    match pool_connect w with
    | (Returned c, w1) => (Returned c, w1, [Connect c])
    | (Threw e, w1) => (Threw e, w1, [])
    end.

(** [transaction(callback)] *)
Definition transaction {T} (callback : client -> M T) : M T :=
  client <- getClient ;;
  try_finally
    (try_catch
       (_ <- query_on client "BEGIN" ;;
        result <- callback client ;;
        _ <- query_on client "COMMIT" ;;
        ret result)
       (fun error =>
          _ <- query_on client "ROLLBACK" ;;
          text <- message_of error ;;
          emit (ConsoleError "[DB] Transaction rolled back due to error:" text) ;;
          throw error))
    (release client).

(** What the catch block leaves behind when it is entered with [error] in
    world [w'] after the actions [done] of a run started in [w]: ROLLBACK
    is sent; if it completes, the message of [error] is read, the console
    line is written and [error] is rethrown, unless [error] is [undefined]
    or [null]: then reading its message throws a TypeError, which leaves
    the function with nothing written; if ROLLBACK fails, its own exception
    leaves the function. Either way the client is released last. *)
Definition rolls_back {T} (callback : client -> M T) (w : W) (c : client)
    (error : Js.thrown) (w' : W) (done : list (event client)) : Prop :=
  match client_query c "ROLLBACK" w' with
  | (Returned _, w'') =>
      match Js.message error with
      | inr text =>
          transaction callback w =
            (Threw error, client_release c w'',
             done ++ [Query c "ROLLBACK";
                      ConsoleError "[DB] Transaction rolled back due to error:"
                        text;
                      Release c])
      | inl type_error =>
          transaction callback w =
            (Threw type_error, client_release c w'',
             done ++ [Query c "ROLLBACK"; Release c])
      end
  | (Threw rollback_error, w'') =>
      transaction callback w =
        (Threw rollback_error, client_release c w'',
         done ++ [Query c "ROLLBACK"; Release c])
  end.

End Pool.

(** A pool to run the runner against: the world counts the clients checked
    out, a client is named by the count at its checkout, and a statement
    fails when its text is in [failing]. *)
Module Scenario.
Definition world : Type := nat.

Definition pool_connect (w : world) : outcome nat * world :=
  (Returned w, S w).

Definition client_release (c : nat) (w : world) : world := Nat.pred w.

Definition server_error (text : string) : Js.thrown :=
  Js.ThrownError "error" ("server closed the connection during " ++ text)%string.

Definition client_query (failing : list string) (c : nat) (text : string)
    (w : world) : outcome unit * world :=
  if existsb (String.eqb text) failing
  then (Threw (server_error text), w)
  else (Returned tt, w).

Definition duplicate_key : Js.thrown :=
  Js.ThrownError "error" "duplicate key value violates unique constraint".

(** A body that sends one statement and returns 42. *)
Definition body_ok (failing : list string) (c : nat)
    : Eff.M world (event nat) Z :=
  bind (query_on (client_query failing) c "INSERT INTO anomalies DEFAULT VALUES")
    (fun _ => ret 42).

(** A body whose statement is refused. *)
Definition body_fails (c : nat) : Eff.M world (event nat) Z :=
  bind (emit (Query c "INSERT INTO whale_wallets (address) VALUES ($1)"))
    (fun _ => throw duplicate_key).

(** A body that awaits a promise rejected without a reason. *)
Definition body_rejects (c : nat) : Eff.M world (event nat) Z :=
  throw Js.ThrownUndefined.
End Scenario.

End DbConnection.

(** ** utils/error-handler.js: retry with exponential backoff *)

Module ErrorHandler.
Import Eff Eff.Notations.

(** What a run of [retry] does, in order: it calls [fn] (recorded with the
    attempt number and how the call settled), calls the [onRetry] hook,
    writes a warning, and sleeps. *)
Inductive event (A : Type) : Type :=
| Attempt (attempt : Z) (settled : outcome A)
| OnRetry (error : Js.thrown) (attempt : Z)
| LoggerWarn (text : string) (error_message : Js.jsval)
| Sleep (ms : Z).
Arguments Attempt {A} attempt settled.
Arguments OnRetry {A} error attempt.
Arguments LoggerWarn {A} text error_message.
Arguments Sleep {A} ms.

(** The [options] argument; a field left out is [None]. *)
Record options (W : Type) : Type := {
  maxAttempts : option Z;
  delayMs : option Z;
  backoffMultiplier : option Z;
  onRetry : option (Js.thrown -> Z -> W -> outcome unit * W)
}.
Arguments maxAttempts {W} o.
Arguments delayMs {W} o.
Arguments backoffMultiplier {W} o.
Arguments onRetry {W} o.

Definition or_default {A} (field : option A) (dflt : A) : A :=
  match field with Some v => v | None => dflt end.

Section Retry.
Context {W A : Type}.
Variable fn : W -> outcome A * W.

Local Abbreviation M := (Eff.M W (event A)).
Local Open Scope eff_scope.

Definition call_fn (attempt : Z) : M A :=
  fun w => let '(r, w1) := fn w in (r, w1, [Attempt attempt r]).

Definition warn_text (attempt delay : Z) : string :=
  ("Attempt " ++ Js.string_of_Z attempt ++ " failed, retrying in "
     ++ Js.string_of_Z delay ++ "ms...")%string.

(** The [for] loop, one iteration per unit of [fuel]; [None] is returned
    only when the fuel runs out before the loop ends. *)
Fixpoint retry_loop (max mult : Z)
    (hook : option (Js.thrown -> Z -> W -> outcome unit * W))
    (fuel : nat) (attempt delay : Z) (lastError : Js.thrown)
    : M (option A) :=
  match fuel with
  | O => ret None
  | S fuel' =>
      if attempt <=? max then
        try_catch
          (v <- call_fn attempt ;; ret (Some v))
          (fun error =>
             if attempt <? max then
               match hook with
               | Some on_retry =>
                   perform (OnRetry error attempt) (on_retry error attempt)
               | None => ret tt
               end ;;
               text <- message_of error ;;
               emit (LoggerWarn (warn_text attempt delay) text) ;;
               emit (Sleep delay) ;;
               retry_loop max mult hook fuel' (attempt + 1) (delay * mult) error
             else
               retry_loop max mult hook fuel' (attempt + 1) delay error)
      else throw lastError
  end.

(** [retry(fn, options)] with the defaults of its destructuring. *)
Definition retry (opts : options W) : M (option A) :=
  let max := or_default (maxAttempts opts) 3 in
  let delay := or_default (delayMs opts) 1000 in
  let mult := or_default (backoffMultiplier opts) 2 in
  retry_loop max mult (onRetry opts) (S (Z.to_nat max)) 1 delay
    Js.ThrownUndefined.

End Retry.

(** *** The retry policy, as a description of the permitted runs *)

Section Policy.
Context {W A : Type}.
Variable fn : W -> outcome A * W.
Variable max initialDelay mult : Z.
Variable hook : option (Js.thrown -> Z -> W -> outcome unit * W).

(** The delay slept after failing attempt [k]. *)
Definition delay_after (k : Z) : Z := initialDelay * mult ^ (k - 1).

(** The observer before a retry: with a hook, the call [onRetry(error, k)],
    which may throw; without one, nothing. *)
Definition notified (k : Z) (error : Js.thrown) (w : W)
    : outcome unit * W * list (event A) :=
  match hook with
  | Some on_retry =>
      let '(settled, w1) := on_retry error k w in (settled, w1, [OnRetry error k])
  | None => (Returned tt, w, [])
  end.

(** [retry_run k w log r w']: from attempt [k] on and world [w], the run
    performs [log], settles as [r] and leaves the world [w'].
    - An attempt within [max] that succeeds ends the run with its result.
    - The failure of attempt [max] ends the run with that failure.
    - A failure of an earlier attempt [k] is followed by the hook called
      with the error and [k], a warning with the message of the error, a
      sleep of [delay_after k], and the run from attempt [k + 1] on.
    - The run ends before the warning when the hook throws, with the
      exception of the hook, and when the error has no message to read,
      with the TypeError of reading it. *)
Inductive retry_run : Z -> W -> list (event A) -> outcome A -> W -> Prop :=
| run_success k w v w1 :
    k <= max ->
    fn w = (Returned v, w1) ->
    retry_run k w [Attempt k (Returned v)] (Returned v) w1
| run_exhausted w error w1 :
    fn w = (Threw error, w1) ->
    retry_run max w [Attempt max (Threw error)] (Threw error) w1
| run_retry k w error w1 heard w2 notice text rest r w' :
    k < max ->
    fn w = (Threw error, w1) ->
    notified k error w1 = (Returned heard, w2, notice) ->
    Js.message error = inr text ->
    retry_run (k + 1) w2 rest r w' ->
    retry_run k w
      (Attempt k (Threw error)
         :: notice ++ [LoggerWarn (warn_text k (delay_after k)) text;
                       Sleep (delay_after k)] ++ rest)
      r w'
| run_hook_threw k w error w1 hook_error w2 notice :
    k < max ->
    fn w = (Threw error, w1) ->
    notified k error w1 = (Threw hook_error, w2, notice) ->
    retry_run k w (Attempt k (Threw error) :: notice) (Threw hook_error) w2
| run_no_message k w error w1 heard w2 notice type_error :
    k < max ->
    fn w = (Threw error, w1) ->
    notified k error w1 = (Returned heard, w2, notice) ->
    Js.message error = inl type_error ->
    retry_run k w (Attempt k (Threw error) :: notice) (Threw type_error) w2.

Definition is_attempt (ev : event A) : bool :=
  match ev with
  | Attempt _ _ => true
  | _ => false
  end.

(** The number of calls of [fn] in a run. *)
Definition attempts (log : list (event A)) : Z :=
  Z.of_nat (List.length (filter is_attempt log)).

End Policy.

(** The result of the loop once it has ended. *)
Definition ended {A} (r : outcome A) : outcome (option A) :=
  match r with
  | Returned v => Returned (Some v)
  | Threw e => Threw e
  end.

Definition is_some {A} (o : option A) : bool :=
  match o with Some _ => true | None => false end.

(** An operation to retry: the world counts its calls, and the operation
    fails until it has been called [failures] times. *)
Module Scenario.
Definition refused (call : nat) : Js.thrown :=
  Js.ThrownError "Error" ("connection refused, call " ++ Js.string_of_Z (Z.of_nat call))%string.

Definition flaky (failures : nat) (w : nat) : outcome string * nat :=
  if (w <? failures)%nat then (Threw (refused (S w)), S w)
  else (Returned "connected", S w).

Definition with_attempts (n : Z) : options nat :=
  {| maxAttempts := Some n; delayMs := None; backoffMultiplier := None;
     onRetry := None |}.

(** An operation whose promise is always rejected without a reason. *)
Definition rejecting (w : nat) : outcome string * nat :=
  (Threw Js.ThrownUndefined, S w).
End Scenario.

End ErrorHandler.

(** ** schema.sql: tables, views and the maintenance routine *)

Module Schema.
Import Js.

(** A cell of a nullable column holds the bound value, NULL being [JNull].
    Instants (TIMESTAMPTZ) are milliseconds since the epoch; the columns the
    statements compare or compute on carry their SQL type. *)
Definition cell : Type := jsval.
Definition instant : Type := Z.

Record time_series_row : Type := {
  ts_id : Z;
  ts_timestamp : instant;
  tvl_usd : cell;
  tvl_eth : cell;
  tvl_change_percent : cell;
  unique_stakers : cell;
  new_stakers_24h : cell;
  deposit_count_24h : cell;
  withdrawal_count_24h : cell;
  total_volume_eth_24h : cell;
  avg_transaction_size_eth : cell;
  withdrawal_queue_size : cell;
  withdrawal_queue_eth : cell;
  avg_withdrawal_wait_time_hours : cell;
  eeth_eth_price_ratio : cell;
  peg_deviation_percent : cell;
  avg_gas_price_gwei : cell;
  median_gas_price_gwei : cell;
  ts_total_validators : cell;
  ts_active_validators : cell;
  data_source : cell;
  collection_status : cell;
  error_message : cell
}.

Record whale_wallet_row : Type := {
  ww_id : Z;
  address : string;
  first_seen : instant;
  last_updated : instant;
  current_balance_eeth : cell;
  current_balance_usd : cell;
  balance_24h_ago : cell;
  balance_7d_ago : cell;
  balance_30d_ago : cell;
  change_24h_eeth : cell;
  change_24h_percent : cell;
  change_7d_eeth : cell;
  change_7d_percent : cell;
  total_deposits : cell;
  total_withdrawals : cell;
  last_transaction_hash : cell;
  last_transaction_time : cell;
  rank_position : cell;
  label : cell;
  is_contract : cell;
  is_exchange : cell
}.

Record twitter_sentiment_row : Type := {
  tw_id : Z;
  tw_timestamp : instant;
  tweet_id : cell;
  tweet_text : cell;
  author_username : cell;
  author_followers : cell;
  sentiment_score : cell;
  sentiment_label : cell;
  tw_confidence : cell;
  retweet_count : cell;
  like_count : cell;
  reply_count : cell;
  keywords : cell;
  is_influential : cell
}.

Record validator_metrics_row : Type := {
  vm_id : Z;
  vm_timestamp : instant;
  vm_total_validators : cell;
  vm_active_validators : cell;
  exited_validators : cell;
  slashed_validators : cell;
  avg_effectiveness : cell;
  total_rewards_eth : cell;
  total_penalties_eth : cell;
  net_rewards_eth : cell;
  estimated_apr : cell;
  estimated_apy : cell;
  etherfi_apr : cell;
  network_avg_apr : cell;
  apr_vs_network : cell
}.

(** [status], [resolved_at], [view_count] and [last_viewed_at] are nullable:
    [None] is NULL. *)
Record anomaly_row : Type := {
  an_id : Z;
  detected_at : instant;
  anomaly_type : string;
  severity : string;
  confidence : cell;
  title : cell;
  description : cell;
  recommendation : cell;
  affected_metrics : cell;
  baseline_data : cell;
  recent_data : cell;
  statistical_significance : cell;
  historical_comparison : cell;
  similar_past_events : cell;
  claude_prompt : cell;
  claude_response : cell;
  analysis_duration_ms : cell;
  status : option string;
  resolved_at : option instant;
  resolution_notes : cell;
  user_acknowledged : cell;
  user_notes : cell;
  view_count : option Z;
  last_viewed_at : option instant
}.

Record database : Type := {
  time_series_data : list time_series_row;
  whale_wallets : list whale_wallet_row;
  twitter_sentiment : list twitter_sentiment_row;
  validator_metrics : list validator_metrics_row;
  anomalies : list anomaly_row
}.

(** *** Column types *)

Inductive column_type : Type :=
| INTEGER
| NUMERIC (precision scale : Z)
| VARCHAR (n : Z)
| TEXT
| TEXT_ARRAY
| BOOLEAN
| TIMESTAMPTZ
| JSONB.

(** INTEGER is 32 bits wide and does not wrap. *)
Definition int4_min : Z := -2147483648.
Definition int4_max : Z := 2147483647.

Definition in_integer (n : Z) : bool := (int4_min <=? n) && (n <=? int4_max).

(** The ids of a SERIAL column come from a sequence that counts from 1 to
    the INTEGER maximum and then fails. *)
Definition in_serial (n : Z) : bool := (1 <=? n) && (n <=? int4_max).

(** The server refuses a text with a zero byte. *)
Definition no_zero_byte (s : string) : bool :=
  forallb (fun c => negb (Ascii.eqb c zero)) (list_ascii_of_string s).

(** VARCHAR(n) *)
Definition fits_varchar (n : Z) (s : string) : bool :=
  no_zero_byte s && (Z.of_nat (String.length s) <=? n).

(** The server converts each bound value to the type of its column and
    refuses the statement when it cannot. [admits ty c]: a column of type
    [ty] stores [c] as it is. That holds for NULL, for an integer within
    INTEGER, for an integer of at most [precision - scale] digits in a
    NUMERIC column, for a text that fits, for a boolean, an instant, an
    array of texts and the text of a JSON value in a column of that kind.
    A value of another kind (a text bound to a numeric column, a number
    bound to a text column) the server either refuses or stores in a
    converted form; the model follows neither and has the statement fail.
    An instant is any Date: that TIMESTAMPTZ ends at 4713 BC is not
    modelled. *)
Definition admits (ty : column_type) (c : cell) : bool :=
  match c, ty with
  | JNull, _ => true
  | JNum n, INTEGER => in_integer n
  | JNum n, NUMERIC precision scale => Z.abs n <? 10 ^ (precision - scale)
  | JStr s, VARCHAR n => fits_varchar n s
  | JStr s, TEXT => no_zero_byte s
  | JStr s, JSONB => no_zero_byte s
  | JArr items, TEXT_ARRAY => forallb no_zero_byte items
  | JBool _, BOOLEAN => true
  | JDate _, TIMESTAMPTZ => true
  | _, _ => false
  end.

(** Each table with the types of its columns. *)
Definition time_series_fits (r : time_series_row) : bool :=
  admits (NUMERIC 20 2) (tvl_usd r)
  && admits (NUMERIC 20 8) (tvl_eth r)
  && admits (NUMERIC 10 4) (tvl_change_percent r)
  && admits INTEGER (unique_stakers r)
  && admits INTEGER (new_stakers_24h r)
  && admits INTEGER (deposit_count_24h r)
  && admits INTEGER (withdrawal_count_24h r)
  && admits (NUMERIC 20 8) (total_volume_eth_24h r)
  && admits (NUMERIC 20 8) (avg_transaction_size_eth r)
  && admits INTEGER (withdrawal_queue_size r)
  && admits (NUMERIC 20 8) (withdrawal_queue_eth r)
  && admits (NUMERIC 10 2) (avg_withdrawal_wait_time_hours r)
  && admits (NUMERIC 10 8) (eeth_eth_price_ratio r)
  && admits (NUMERIC 10 4) (peg_deviation_percent r)
  && admits (NUMERIC 10 2) (avg_gas_price_gwei r)
  && admits (NUMERIC 10 2) (median_gas_price_gwei r)
  && admits INTEGER (ts_total_validators r)
  && admits INTEGER (ts_active_validators r)
  && admits (VARCHAR 50) (data_source r)
  && admits (VARCHAR 20) (collection_status r)
  && admits TEXT (error_message r).

Definition whale_wallet_fits (r : whale_wallet_row) : bool :=
  fits_varchar 42 (address r)
  && admits (NUMERIC 20 8) (current_balance_eeth r)
  && admits (NUMERIC 20 2) (current_balance_usd r)
  && admits (NUMERIC 20 8) (balance_24h_ago r)
  && admits (NUMERIC 20 8) (balance_7d_ago r)
  && admits (NUMERIC 20 8) (balance_30d_ago r)
  && admits (NUMERIC 20 8) (change_24h_eeth r)
  && admits (NUMERIC 10 4) (change_24h_percent r)
  && admits (NUMERIC 20 8) (change_7d_eeth r)
  && admits (NUMERIC 10 4) (change_7d_percent r)
  && admits INTEGER (total_deposits r)
  && admits INTEGER (total_withdrawals r)
  && admits (VARCHAR 66) (last_transaction_hash r)
  && admits TIMESTAMPTZ (last_transaction_time r)
  && admits INTEGER (rank_position r)
  && admits (VARCHAR 100) (label r)
  && admits BOOLEAN (is_contract r)
  && admits BOOLEAN (is_exchange r).

Definition twitter_sentiment_fits (r : twitter_sentiment_row) : bool :=
  admits (VARCHAR 100) (tweet_id r)
  && admits TEXT (tweet_text r)
  && admits (VARCHAR 100) (author_username r)
  && admits INTEGER (author_followers r)
  && admits (NUMERIC 3 2) (sentiment_score r)
  && admits (VARCHAR 20) (sentiment_label r)
  && admits (NUMERIC 3 2) (tw_confidence r)
  && admits INTEGER (retweet_count r)
  && admits INTEGER (like_count r)
  && admits INTEGER (reply_count r)
  && admits TEXT_ARRAY (keywords r)
  && admits BOOLEAN (is_influential r).

Definition validator_metrics_fits (r : validator_metrics_row) : bool :=
  admits INTEGER (vm_total_validators r)
  && admits INTEGER (vm_active_validators r)
  && admits INTEGER (exited_validators r)
  && admits INTEGER (slashed_validators r)
  && admits (NUMERIC 5 4) (avg_effectiveness r)
  && admits (NUMERIC 20 8) (total_rewards_eth r)
  && admits (NUMERIC 20 8) (total_penalties_eth r)
  && admits (NUMERIC 20 8) (net_rewards_eth r)
  && admits (NUMERIC 10 4) (estimated_apr r)
  && admits (NUMERIC 10 4) (estimated_apy r)
  && admits (NUMERIC 10 4) (etherfi_apr r)
  && admits (NUMERIC 10 4) (network_avg_apr r)
  && admits (NUMERIC 10 4) (apr_vs_network r).

Definition anomaly_fits (r : anomaly_row) : bool :=
  fits_varchar 50 (anomaly_type r)
  && fits_varchar 20 (severity r)
  && admits (NUMERIC 3 2) (confidence r)
  && admits (VARCHAR 200) (title r)
  && admits TEXT (description r)
  && admits TEXT (recommendation r)
  && admits TEXT_ARRAY (affected_metrics r)
  && admits JSONB (baseline_data r)
  && admits JSONB (recent_data r)
  && admits (NUMERIC 10 6) (statistical_significance r)
  && admits TEXT (historical_comparison r)
  && admits JSONB (similar_past_events r)
  && admits TEXT (claude_prompt r)
  && admits JSONB (claude_response r)
  && admits INTEGER (analysis_duration_ms r)
  && match status r with Some s => fits_varchar 20 s | None => true end.

(** *** SQL building blocks *)

(** [col = 'text'] on a nullable text column: NULL is not equal to
    anything, so the row does not pass a WHERE. *)
Definition text_is (col : option string) (text : string) : bool :=
  match col with
  | Some s => (s =? text)%string
  | None => false
  end.

(** [col < bound] on a nullable instant: NULL does not pass. *)
Definition before (col : option instant) (bound : instant) : bool :=
  match col with
  | Some t => t <? bound
  | None => false
  end.

(** [DELETE FROM t WHERE cond] keeps the rows on which [cond] is not true. *)
Definition delete_where {R : Type} (cond : R -> bool) (t : list R) : list R :=
  filter (fun r => negb (cond r)) t.

(** [ORDER BY]: insertion into an ordered list; [leb a b] says that [a] may
    stand before [b]. The server leaves the order of ties open; this one
    keeps them in table order. *)
Fixpoint insert_sorted {R : Type} (leb : R -> R -> bool) (x : R) (l : list R)
    : list R :=
  match l with
  | [] => [x]
  | y :: rest => if leb x y then x :: l else y :: insert_sorted leb x rest
  end.

Fixpoint order_by {R : Type} (leb : R -> R -> bool) (l : list R) : list R :=
  match l with
  | [] => []
  | x :: rest => insert_sorted leb x (order_by leb rest)
  end.

(** *** View [active_anomalies] *)

Record active_anomaly : Type := {
  aa_id : Z;
  aa_detected_at : instant;
  aa_anomaly_type : string;
  aa_severity : string;
  aa_confidence : cell;
  aa_title : cell;
  aa_description : cell;
  aa_affected_metrics : cell;
  aa_recommendation : cell
}.

Definition select_active_columns (r : anomaly_row) : active_anomaly := {|
  aa_id := an_id r;
  aa_detected_at := detected_at r;
  aa_anomaly_type := anomaly_type r;
  aa_severity := severity r;
  aa_confidence := confidence r;
  aa_title := title r;
  aa_description := description r;
  aa_affected_metrics := affected_metrics r;
  aa_recommendation := recommendation r
|}.

(** [CASE severity WHEN 'CRITICAL' THEN 1 ... END]; no ELSE: NULL. *)
Definition severity_rank (sev : string) : option Z :=
  if (sev =? "CRITICAL")%string then Some 1
  else if (sev =? "HIGH")%string then Some 2
  else if (sev =? "MEDIUM")%string then Some 3
  else if (sev =? "LOW")%string then Some 4
  else None.

(** Ascending order of the first sort key, NULL after every number. *)
Definition rank_ltb (a b : option Z) : bool :=
  match a, b with
  | Some x, Some y => x <? y
  | Some _, None => true
  | None, _ => false
  end.

Definition rank_eqb (a b : option Z) : bool :=
  match a, b with
  | Some x, Some y => x =? y
  | None, None => true
  | _, _ => false
  end.

(** [ORDER BY CASE severity ... END, detected_at DESC] *)
Definition active_order (a b : active_anomaly) : bool :=
  let ra := severity_rank (aa_severity a) in
  let rb := severity_rank (aa_severity b) in
  rank_ltb ra rb || (rank_eqb ra rb && (aa_detected_at b <=? aa_detected_at a)).

Definition is_active (r : anomaly_row) : bool := text_is (status r) "active".

Definition active_anomalies (t : list anomaly_row) : list active_anomaly :=
  order_by active_order (map select_active_columns (filter is_active t)).

(** *** Function [cleanup_old_data()] *)

Section Session.
(** [ts - INTERVAL 'n days'] on a TIMESTAMPTZ steps back [n] calendar days
    in the time zone of the session, which the repository does not set:
    [days_before n ts] is the instant the server arrives at. In a zone
    without clock changes that is [n] times 24 hours before [ts]; across a
    change of the clock it is an hour more or less. *)
Variable days_before : Z -> instant -> instant.

Definition cleanup_old_data (now : instant) (db : database) : database := {|
  time_series_data :=
    delete_where (fun r => ts_timestamp r <? days_before 90 now)
      (time_series_data db);
  whale_wallets := whale_wallets db;
  twitter_sentiment :=
    delete_where (fun r => tw_timestamp r <? days_before 60 now)
      (twitter_sentiment db);
  validator_metrics :=
    delete_where (fun r => vm_timestamp r <? days_before 90 now)
      (validator_metrics db);
  anomalies :=
    delete_where
      (fun r => text_is (status r) "resolved"
                && before (resolved_at r) (days_before 90 now))
      (anomalies db)
|}.

(** [older_than days now t]: the instant [t] lies strictly more than [days]
    days before [now], by the calendar of the session. *)
Definition older_than (days : Z) (now t : instant) : Prop :=
  t < days_before days now.

End Session.

(** *** The orders and windows of the specification *)

(** [precedes a b]: [a] may stand before [b] in the active listing: its
    severity ranks earlier (CRITICAL 1, HIGH 2, MEDIUM 3, LOW 4, any other
    text after these), or the ranks agree and [a] is not older than [b]. *)
Definition precedes (a b : active_anomaly) : Prop :=
  match severity_rank (aa_severity a), severity_rank (aa_severity b) with
  | Some x, Some y => x < y \/ (x = y /\ aa_detected_at b <= aa_detected_at a)
  | Some _, None => True
  | None, Some _ => False
  | None, None => aa_detected_at b <= aa_detected_at a
  end.

(** Rows to try the statements on. *)
Module Scenario.
Definition anomaly (id : Z) (detected : instant) (sev : string)
    (st : option string) (resolved : option instant) : anomaly_row := {|
  an_id := id;
  detected_at := detected;
  anomaly_type := "tvl_change";
  severity := sev;
  confidence := JNum 1;
  title := JStr "TVL moved";
  description := JStr "TVL left its 30-day band";
  recommendation := JNull;
  affected_metrics := JArr ["tvl_usd"];
  baseline_data := JNull;
  recent_data := JNull;
  statistical_significance := JNull;
  historical_comparison := JNull;
  similar_past_events := JNull;
  claude_prompt := JNull;
  claude_response := JNull;
  analysis_duration_ms := JNull;
  status := st;
  resolved_at := resolved;
  resolution_notes := JNull;
  user_acknowledged := JBool false;
  user_notes := JNull;
  view_count := Some 0;
  last_viewed_at := None
|}.

Definition day : Z := 86400000.

(** The date arithmetic of a session in UTC, where every day has 24 hours. *)
Definition utc_days_before (n : Z) (ts : instant) : instant := ts - n * day.

(** The same arithmetic in a zone that has set its clocks back by an hour
    in between, as in a European winter: so many calendar days reach an
    hour further back. *)
Definition winter_days_before (n : Z) (ts : instant) : instant :=
  ts - n * day - 3600000.

(** 1 January 2025, 00:00 UTC *)
Definition now : instant := 1735689600000.

(** An anomaly whose view count has reached the INTEGER maximum, and one
    whose view count was set to NULL. *)
Definition viewed_to_the_limit (id : Z) : anomaly_row := {|
  an_id := id;
  detected_at := now;
  anomaly_type := "tvl_change";
  severity := "LOW";
  confidence := JNum 1;
  title := JStr "TVL moved";
  description := JStr "TVL left its 30-day band";
  recommendation := JNull;
  affected_metrics := JArr ["tvl_usd"];
  baseline_data := JNull;
  recent_data := JNull;
  statistical_significance := JNull;
  historical_comparison := JNull;
  similar_past_events := JNull;
  claude_prompt := JNull;
  claude_response := JNull;
  analysis_duration_ms := JNull;
  status := Some "active";
  resolved_at := None;
  resolution_notes := JNull;
  user_acknowledged := JBool false;
  user_notes := JNull;
  view_count := Some 2147483647;
  last_viewed_at := Some (now - day)
|}.

Definition never_counted (id : Z) : anomaly_row := {|
  an_id := id;
  detected_at := now;
  anomaly_type := "tvl_change";
  severity := "LOW";
  confidence := JNum 1;
  title := JStr "TVL moved";
  description := JStr "TVL left its 30-day band";
  recommendation := JNull;
  affected_metrics := JArr ["tvl_usd"];
  baseline_data := JNull;
  recent_data := JNull;
  statistical_significance := JNull;
  historical_comparison := JNull;
  similar_past_events := JNull;
  claude_prompt := JNull;
  claude_response := JNull;
  analysis_duration_ms := JNull;
  status := Some "active";
  resolved_at := None;
  resolution_notes := JNull;
  user_acknowledged := JBool false;
  user_notes := JNull;
  view_count := None;
  last_viewed_at := None
|}.

Definition only_anomalies (rows : list anomaly_row) : database := {|
  time_series_data := [];
  whale_wallets := [];
  twitter_sentiment := [];
  validator_metrics := [];
  anomalies := rows
|}.
End Scenario.

End Schema.

(** ** queries.js: the repository functions *)

Module Queries.
Import Js.

(** A call of [query(text, values)]: the statement text and the bound
    parameters ([[]] when [query] is called with the text alone). *)
Record statement : Type := {
  text : string;
  values : list jsval
}.

(** How the driver sends a value: [undefined] goes as NULL. *)
Definition prepare (v : jsval) : Schema.cell :=
  match v with
  | JUndefined => JNull
  | _ => v
  end.

(** A default parameter [x = dflt]: used when the argument is [undefined]. *)
Definition default_arg (arg dflt : jsval) : jsval :=
  match arg with
  | JUndefined => dflt
  | _ => arg
  end.

(** A statement either completes or is rejected by the server, in which
    case it changes nothing and [query] throws. *)
Inductive sql_result (A : Type) : Type :=
| Done (a : A)
| Rejected (message : string).
Arguments Done {A} a.
Arguments Rejected {A} message.

Definition is_rejected {A} (r : sql_result A) : bool :=
  match r with
  | Done _ => false
  | Rejected _ => true
  end.

(** [INSERT ... ON CONFLICT (key) DO UPDATE SET ...]: [excluded] is the row
    proposed for insertion; [same_key excluded r] holds when [r] conflicts
    with it, and [do_update r excluded] is the SET list applied to [r]. *)
Definition insert_on_conflict {R : Type}
    (same_key : R -> R -> bool) (do_update : R -> R -> R)
    (excluded : R) (t : list R) : list R :=
  if existsb (same_key excluded) t
  then map (fun r => if same_key excluded r then do_update r excluded else r) t
  else t ++ [excluded].

(** The same statement with the checks of the server before it: the
    sequence must have had an id to give, each value of the proposed row
    must fit the type of its column, and when no row conflicts on the key,
    the new id must not be one the primary key already holds. *)
Definition insert_checked {R : Type} (id : R -> Z) (fits : R -> bool)
    (same_key : R -> R -> bool) (do_update : R -> R -> R)
    (excluded : R) (t : list R) : sql_result (list R) :=
  if negb (Schema.in_serial (id excluded)) then
    Rejected "nextval: reached maximum value of sequence"
  else if negb (fits excluded) then
    Rejected "value out of range for the type of its column"
  else if negb (existsb (same_key excluded) t)
          && existsb (fun r => id r =? id excluded) t then
    Rejected "duplicate key value violates unique constraint"
  else Done (insert_on_conflict same_key do_update excluded t).

(** *** Time series *)

(** The [data] argument of [insertTimeSeriesData]: [timestamp] is a Date
    when given; the other properties are any value, [JUndefined] when
    absent. *)
Record MetricSnapshot : Type := {
  timestamp : option Schema.instant;
  tvl_usd : jsval;
  tvl_eth : jsval;
  tvl_change_percent : jsval;
  unique_stakers : jsval;
  new_stakers_24h : jsval;
  deposit_count_24h : jsval;
  withdrawal_count_24h : jsval;
  total_volume_eth_24h : jsval;
  avg_transaction_size_eth : jsval;
  withdrawal_queue_size : jsval;
  withdrawal_queue_eth : jsval;
  avg_withdrawal_wait_time_hours : jsval;
  eeth_eth_price_ratio : jsval;
  peg_deviation_percent : jsval;
  avg_gas_price_gwei : jsval;
  median_gas_price_gwei : jsval;
  total_validators : jsval;
  active_validators : jsval;
  data_source : jsval;
  collection_status : jsval;
  error_message : jsval
}.

(** The VALUES row: the array [values] of the function, in column order,
    with the id the sequence hands out. *)
Definition time_series_values (now : Schema.instant) (nextval : Z)
    (data : MetricSnapshot) : Schema.time_series_row := {|
  Schema.ts_id := nextval;
  Schema.ts_timestamp :=
    match timestamp data with Some t => t | None => now end;
  Schema.tvl_usd := prepare (tvl_usd data);
  Schema.tvl_eth := prepare (tvl_eth data);
  Schema.tvl_change_percent := prepare (tvl_change_percent data);
  Schema.unique_stakers := prepare (unique_stakers data);
  Schema.new_stakers_24h := prepare (new_stakers_24h data);
  Schema.deposit_count_24h := prepare (deposit_count_24h data);
  Schema.withdrawal_count_24h := prepare (withdrawal_count_24h data);
  Schema.total_volume_eth_24h := prepare (total_volume_eth_24h data);
  Schema.avg_transaction_size_eth := prepare (avg_transaction_size_eth data);
  Schema.withdrawal_queue_size := prepare (withdrawal_queue_size data);
  Schema.withdrawal_queue_eth := prepare (withdrawal_queue_eth data);
  Schema.avg_withdrawal_wait_time_hours :=
    prepare (avg_withdrawal_wait_time_hours data);
  Schema.eeth_eth_price_ratio := prepare (eeth_eth_price_ratio data);
  Schema.peg_deviation_percent := prepare (peg_deviation_percent data);
  Schema.avg_gas_price_gwei := prepare (avg_gas_price_gwei data);
  Schema.median_gas_price_gwei := prepare (median_gas_price_gwei data);
  Schema.ts_total_validators := prepare (total_validators data);
  Schema.ts_active_validators := prepare (active_validators data);
  Schema.data_source := prepare (or_else (data_source data) (JStr "blockchain"));
  Schema.collection_status :=
    prepare (or_else (collection_status data) (JStr "success"));
  Schema.error_message := prepare (or_else (error_message data) JNull)
|}.

Definition same_timestamp (excluded r : Schema.time_series_row) : bool :=
  Schema.ts_timestamp r =? Schema.ts_timestamp excluded.

(** [DO UPDATE SET tvl_usd = EXCLUDED.tvl_usd, tvl_eth = EXCLUDED.tvl_eth,
    unique_stakers = EXCLUDED.unique_stakers,
    collection_status = EXCLUDED.collection_status] *)
Definition time_series_do_update (r excluded : Schema.time_series_row)
    : Schema.time_series_row := {|
  Schema.ts_id := Schema.ts_id r;
  Schema.ts_timestamp := Schema.ts_timestamp r;
  Schema.tvl_usd := Schema.tvl_usd excluded;
  Schema.tvl_eth := Schema.tvl_eth excluded;
  Schema.tvl_change_percent := Schema.tvl_change_percent r;
  Schema.unique_stakers := Schema.unique_stakers excluded;
  Schema.new_stakers_24h := Schema.new_stakers_24h r;
  Schema.deposit_count_24h := Schema.deposit_count_24h r;
  Schema.withdrawal_count_24h := Schema.withdrawal_count_24h r;
  Schema.total_volume_eth_24h := Schema.total_volume_eth_24h r;
  Schema.avg_transaction_size_eth := Schema.avg_transaction_size_eth r;
  Schema.withdrawal_queue_size := Schema.withdrawal_queue_size r;
  Schema.withdrawal_queue_eth := Schema.withdrawal_queue_eth r;
  Schema.avg_withdrawal_wait_time_hours :=
    Schema.avg_withdrawal_wait_time_hours r;
  Schema.eeth_eth_price_ratio := Schema.eeth_eth_price_ratio r;
  Schema.peg_deviation_percent := Schema.peg_deviation_percent r;
  Schema.avg_gas_price_gwei := Schema.avg_gas_price_gwei r;
  Schema.median_gas_price_gwei := Schema.median_gas_price_gwei r;
  Schema.ts_total_validators := Schema.ts_total_validators r;
  Schema.ts_active_validators := Schema.ts_active_validators r;
  Schema.data_source := Schema.data_source r;
  Schema.collection_status := Schema.collection_status excluded;
  Schema.error_message := Schema.error_message r
|}.

(** [insertTimeSeriesData(data)]: the table after the statement, and the row
    of [RETURNING id, timestamp] the function returns. [now] is the clock
    read by [new Date()], [nextval] the id drawn from the sequence. *)
Definition insertTimeSeriesData (now : Schema.instant) (nextval : Z)
    (data : MetricSnapshot) (t : list Schema.time_series_row)
    : sql_result (list Schema.time_series_row * option (Z * Schema.instant)) :=
  let excluded := time_series_values now nextval data in
  match insert_checked Schema.ts_id Schema.time_series_fits same_timestamp
          time_series_do_update excluded t with
  | Rejected m => Rejected m
  | Done t' =>
      Done (t',
            option_map (fun r => (Schema.ts_id r, Schema.ts_timestamp r))
              (find (same_timestamp excluded) t'))
  end.

(** [getTimeSeriesData(hours = 24, limit = null)]: the statement it sends. *)
Definition getTimeSeriesData (hours limit : jsval) : statement :=
  let hours := default_arg hours (JNum 24) in
  let limit := default_arg limit JNull in
  {| text := ("
    SELECT * FROM time_series_data
    WHERE timestamp >= NOW() - INTERVAL '" ++ to_string hours ++ " hours'
    ORDER BY timestamp DESC
    " ++ (if truthy limit then "LIMIT " ++ to_string limit else "") ++ "
  ")%string;
     values := [] |}.

(** [getSentimentStats(hours = 24)]: the statement it sends. *)
Definition getSentimentStats (hours : jsval) : statement :=
  let hours := default_arg hours (JNum 24) in
  {| text := ("
    SELECT
      AVG(sentiment_score) as avg_sentiment,
      COUNT(*) FILTER (WHERE sentiment_label = 'positive') as positive_count,
      COUNT(*) FILTER (WHERE sentiment_label = 'negative') as negative_count,
      COUNT(*) FILTER (WHERE sentiment_label = 'neutral') as neutral_count,
      COUNT(*) as total_tweets,
      SUM(retweet_count) as total_retweets,
      SUM(like_count) as total_likes
    FROM twitter_sentiment
    WHERE timestamp >= NOW() - INTERVAL '" ++ to_string hours ++ " hours'
  ")%string;
     values := [] |}.

(** [getTopWhales(limit = 20)]: the statement it sends. *)
Definition getTopWhales (limit : jsval) : statement :=
  let limit := default_arg limit (JNum 20) in
  {| text := "
    SELECT * FROM whale_wallets
    ORDER BY current_balance_eeth DESC
    LIMIT $1
  ";
     values := [limit] |}.

(** The aggregate functions AVG and STDDEV belong to the server; they map
    the values of a column over the selected rows to one value.
    [data_points] is the number of rows counted. *)
Record BaselineStats : Type := {
  avg_tvl_usd : Schema.cell;
  stddev_tvl_usd : Schema.cell;
  avg_stakers : Schema.cell;
  stddev_stakers : Schema.cell;
  avg_queue_size : Schema.cell;
  stddev_queue_size : Schema.cell;
  avg_peg_deviation : Schema.cell;
  stddev_peg_deviation : Schema.cell;
  avg_volume : Schema.cell;
  stddev_volume : Schema.cell;
  period_start : option Schema.instant;
  period_end : option Schema.instant;
  data_points : Z
}.

Definition cell_is (c : Schema.cell) (s : string) : bool :=
  match c with
  | JStr x => (x =? s)%string
  | _ => false
  end.

(** MIN and MAX of a NOT NULL column: NULL over no rows. *)
Definition sql_min (l : list Z) : option Z :=
  match l with
  | [] => None
  | x :: rest => Some (fold_left Z.min rest x)
  end.

Definition sql_max (l : list Z) : option Z :=
  match l with
  | [] => None
  | x :: rest => Some (fold_left Z.max rest x)
  end.

(** [WHERE timestamp >= start AND collection_status = 'success'], [start]
    being the instant of [NOW() - INTERVAL 'days days']. *)
Definition baseline_where (start : Schema.instant)
    (r : Schema.time_series_row) : bool :=
  (start <=? Schema.ts_timestamp r)
  && cell_is (Schema.collection_status r) "success".

Section Aggregates.
Variable AVG STDDEV : list Schema.cell -> Schema.cell.
(** [NOW() - INTERVAL 'days days'] for the number written into the
    statement: the server counts calendar days in the time zone of the
    session, and refuses an interval or a boundary that is out of range
    ([None]). *)
Variable window_start : Z -> Schema.instant -> option Schema.instant.

(** [getBaselineStats(days = 30)]: the single row the query returns. The
    function writes [days] into the text of the interval; here it is the
    number of days the server reads there, [None] when the argument is left
    out. *)
Definition getBaselineStats (now : Schema.instant) (days : option Z)
    (t : list Schema.time_series_row) : sql_result BaselineStats :=
  let days := match days with Some d => d | None => 30 end in
  match window_start days now with
  | None => Rejected "timestamp out of range"
  | Some start =>
      let selected := filter (baseline_where start) t in
      Done
        {| avg_tvl_usd := AVG (map Schema.tvl_usd selected);
           stddev_tvl_usd := STDDEV (map Schema.tvl_usd selected);
           avg_stakers := AVG (map Schema.unique_stakers selected);
           stddev_stakers := STDDEV (map Schema.unique_stakers selected);
           avg_queue_size := AVG (map Schema.withdrawal_queue_size selected);
           stddev_queue_size :=
             STDDEV (map Schema.withdrawal_queue_size selected);
           avg_peg_deviation := AVG (map Schema.peg_deviation_percent selected);
           stddev_peg_deviation :=
             STDDEV (map Schema.peg_deviation_percent selected);
           avg_volume := AVG (map Schema.total_volume_eth_24h selected);
           stddev_volume := STDDEV (map Schema.total_volume_eth_24h selected);
           period_start := sql_min (map Schema.ts_timestamp selected);
           period_end := sql_max (map Schema.ts_timestamp selected);
           data_points := Z.of_nat (List.length selected) |}
  end.
End Aggregates.

(** *** Whale wallets *)

Record WhaleWallet : Type := {
  address : string;
  current_balance_eeth : jsval;
  current_balance_usd : jsval;
  balance_24h_ago : jsval;
  balance_7d_ago : jsval;
  balance_30d_ago : jsval;
  change_24h_eeth : jsval;
  change_24h_percent : jsval;
  change_7d_eeth : jsval;
  change_7d_percent : jsval;
  total_deposits : jsval;
  total_withdrawals : jsval;
  last_transaction_hash : jsval;
  last_transaction_time : jsval;
  rank_position : jsval;
  label : jsval;
  is_contract : jsval;
  is_exchange : jsval
}.

(** The VALUES row: [$1 .. $18] and [NOW()] for [last_updated];
    [first_seen] is not listed and takes its default, [NOW()]. *)
Definition whale_values (now : Schema.instant) (nextval : Z)
    (data : WhaleWallet) : Schema.whale_wallet_row := {|
  Schema.ww_id := nextval;
  Schema.address := address data;
  Schema.first_seen := now;
  Schema.last_updated := now;
  Schema.current_balance_eeth := prepare (current_balance_eeth data);
  Schema.current_balance_usd := prepare (current_balance_usd data);
  Schema.balance_24h_ago := prepare (balance_24h_ago data);
  Schema.balance_7d_ago := prepare (balance_7d_ago data);
  Schema.balance_30d_ago := prepare (balance_30d_ago data);
  Schema.change_24h_eeth := prepare (change_24h_eeth data);
  Schema.change_24h_percent := prepare (change_24h_percent data);
  Schema.change_7d_eeth := prepare (change_7d_eeth data);
  Schema.change_7d_percent := prepare (change_7d_percent data);
  Schema.total_deposits := prepare (or_else (total_deposits data) (JNum 0));
  Schema.total_withdrawals :=
    prepare (or_else (total_withdrawals data) (JNum 0));
  Schema.last_transaction_hash := prepare (last_transaction_hash data);
  Schema.last_transaction_time := prepare (last_transaction_time data);
  Schema.rank_position := prepare (rank_position data);
  Schema.label := prepare (label data);
  Schema.is_contract := prepare (or_else (is_contract data) (JBool false));
  Schema.is_exchange := prepare (or_else (is_exchange data) (JBool false))
|}.

Definition same_address (excluded r : Schema.whale_wallet_row) : bool :=
  (Schema.address r =? Schema.address excluded)%string.

(** [DO UPDATE SET current_balance_eeth = EXCLUDED.current_balance_eeth,
    current_balance_usd = EXCLUDED.current_balance_usd,
    change_24h_eeth = EXCLUDED.change_24h_eeth,
    change_24h_percent = EXCLUDED.change_24h_percent,
    rank_position = EXCLUDED.rank_position, last_updated = NOW()] *)
Definition whale_do_update (now : Schema.instant)
    (r excluded : Schema.whale_wallet_row) : Schema.whale_wallet_row := {|
  Schema.ww_id := Schema.ww_id r;
  Schema.address := Schema.address r;
  Schema.first_seen := Schema.first_seen r;
  Schema.last_updated := now;
  Schema.current_balance_eeth := Schema.current_balance_eeth excluded;
  Schema.current_balance_usd := Schema.current_balance_usd excluded;
  Schema.balance_24h_ago := Schema.balance_24h_ago r;
  Schema.balance_7d_ago := Schema.balance_7d_ago r;
  Schema.balance_30d_ago := Schema.balance_30d_ago r;
  Schema.change_24h_eeth := Schema.change_24h_eeth excluded;
  Schema.change_24h_percent := Schema.change_24h_percent excluded;
  Schema.change_7d_eeth := Schema.change_7d_eeth r;
  Schema.change_7d_percent := Schema.change_7d_percent r;
  Schema.total_deposits := Schema.total_deposits r;
  Schema.total_withdrawals := Schema.total_withdrawals r;
  Schema.last_transaction_hash := Schema.last_transaction_hash r;
  Schema.last_transaction_time := Schema.last_transaction_time r;
  Schema.rank_position := Schema.rank_position excluded;
  Schema.label := Schema.label r;
  Schema.is_contract := Schema.is_contract r;
  Schema.is_exchange := Schema.is_exchange r
|}.

(** [upsertWhaleWallet(data)]: the table after the statement and the row of
    [RETURNING id, address]. [now] is the server's [NOW()]. *)
Definition upsertWhaleWallet (now : Schema.instant) (nextval : Z)
    (data : WhaleWallet) (t : list Schema.whale_wallet_row)
    : sql_result (list Schema.whale_wallet_row * option (Z * string)) :=
  let excluded := whale_values now nextval data in
  match insert_checked Schema.ww_id Schema.whale_wallet_fits same_address
          (whale_do_update now) excluded t with
  | Rejected m => Rejected m
  | Done t' =>
      Done (t',
            option_map (fun r => (Schema.ww_id r, Schema.address r))
              (find (same_address excluded) t'))
  end.

(** A series of [upsertWhaleWallet] calls, each with the server time and the
    sequence value of its statement, oldest first; a rejected call ends the
    series. *)
Fixpoint upsertWhaleWallet_each
    (calls : list (Schema.instant * Z * WhaleWallet))
    (t : list Schema.whale_wallet_row)
    : sql_result (list Schema.whale_wallet_row) :=
  match calls with
  | [] => Done t
  | (now, nextval, data) :: later =>
      match upsertWhaleWallet now nextval data t with
      | Done (t', _) => upsertWhaleWallet_each later t'
      | Rejected m => Rejected m
      end
  end.

(** *** Anomalies *)

(** [getActiveAnomalies()]: [SELECT * FROM active_anomalies] *)
Definition getActiveAnomalies (t : list Schema.anomaly_row)
    : list Schema.active_anomaly :=
  Schema.active_anomalies t.

(** The [filters] argument of [getAnomalies]; a property that is not there
    reads as [JUndefined]. *)
Record AnomalyFilters : Type := {
  status : jsval;
  severity : jsval;
  type : jsval;
  since : jsval;
  limit : jsval
}.

(** [getAnomalies(filters = {})]: the statement it sends. *)
Definition getAnomalies (filters : AnomalyFilters) : statement :=
  let sql := "SELECT * FROM anomalies WHERE 1=1" in
  let values := @nil jsval in
  let paramCount := 1 in
  let '(sql, values, paramCount) :=
    if truthy (status filters)
    then ((sql ++ " AND status = $" ++ string_of_Z paramCount)%string,
          values ++ [status filters], paramCount + 1)
    else (sql, values, paramCount) in
  let '(sql, values, paramCount) :=
    if truthy (severity filters)
    then ((sql ++ " AND severity = $" ++ string_of_Z paramCount)%string,
          values ++ [severity filters], paramCount + 1)
    else (sql, values, paramCount) in
  let '(sql, values, paramCount) :=
    if truthy (type filters)
    then ((sql ++ " AND anomaly_type = $" ++ string_of_Z paramCount)%string,
          values ++ [type filters], paramCount + 1)
    else (sql, values, paramCount) in
  let '(sql, values, paramCount) :=
    if truthy (since filters)
    then ((sql ++ " AND detected_at >= $" ++ string_of_Z paramCount)%string,
          values ++ [since filters], paramCount + 1)
    else (sql, values, paramCount) in
  let sql := (sql ++ " ORDER BY detected_at DESC")%string in
  let '(sql, values) :=
    if truthy (limit filters)
    then ((sql ++ " LIMIT $" ++ string_of_Z paramCount)%string,
          values ++ [limit filters])
    else (sql, values) in
  {| text := sql; values := values |}.

(** [view_count + 1]: NULL stays NULL, and INTEGER does not wrap. *)
Definition view_count_plus_1 (v : option Z) : sql_result (option Z) :=
  match v with
  | None => Done None
  | Some n =>
      if n + 1 <=? Schema.int4_max then Done (Some (n + 1))
      else Rejected "integer out of range"
  end.

(** [SET view_count = view_count + 1, last_viewed_at = NOW()] on one row. *)
Definition record_view (now : Schema.instant) (r : Schema.anomaly_row)
    : sql_result Schema.anomaly_row :=
  match view_count_plus_1 (Schema.view_count r) with
  | Rejected m => Rejected m
  | Done v => Done {|
      Schema.an_id := Schema.an_id r;
      Schema.detected_at := Schema.detected_at r;
      Schema.anomaly_type := Schema.anomaly_type r;
      Schema.severity := Schema.severity r;
      Schema.confidence := Schema.confidence r;
      Schema.title := Schema.title r;
      Schema.description := Schema.description r;
      Schema.recommendation := Schema.recommendation r;
      Schema.affected_metrics := Schema.affected_metrics r;
      Schema.baseline_data := Schema.baseline_data r;
      Schema.recent_data := Schema.recent_data r;
      Schema.statistical_significance := Schema.statistical_significance r;
      Schema.historical_comparison := Schema.historical_comparison r;
      Schema.similar_past_events := Schema.similar_past_events r;
      Schema.claude_prompt := Schema.claude_prompt r;
      Schema.claude_response := Schema.claude_response r;
      Schema.analysis_duration_ms := Schema.analysis_duration_ms r;
      Schema.status := Schema.status r;
      Schema.resolved_at := Schema.resolved_at r;
      Schema.resolution_notes := Schema.resolution_notes r;
      Schema.user_acknowledged := Schema.user_acknowledged r;
      Schema.user_notes := Schema.user_notes r;
      Schema.view_count := v;
      Schema.last_viewed_at := Some now
    |}
  end.

(** [UPDATE t SET ... WHERE cond RETURNING *]: the table after the update
    and the updated rows; rejected as a whole when one row is. *)
Fixpoint update_where {R : Type} (cond : R -> bool) (set : R -> sql_result R)
    (t : list R) : sql_result (list R * list R) :=
  match t with
  | [] => Done ([], [])
  | r :: rest =>
      match update_where cond set rest with
      | Rejected m => Rejected m
      | Done (rest', returned) =>
          if cond r then
            match set r with
            | Rejected m => Rejected m
            | Done r' => Done (r' :: rest', r' :: returned)
            end
          else Done (r :: rest', returned)
      end
  end.

(** [getAnomalyById(id)]: the table after the statement and [rows[0]].
    [id] is a number; the server reads it as a value of the INTEGER key and
    refuses one that is out of range. *)
Definition getAnomalyById (now : Schema.instant) (id : Z)
    (t : list Schema.anomaly_row)
    : sql_result (list Schema.anomaly_row * option Schema.anomaly_row) :=
  if negb (Schema.in_integer id) then
    Rejected "value is out of range for type integer"
  else
    match update_where (fun r => Schema.an_id r =? id) (record_view now) t with
    | Rejected m => Rejected m
    | Done (t', returned) => Done (t', hd_error returned)
    end.

(** *** Utilities *)

(** [cleanupOldData()]: [SELECT cleanup_old_data()] *)
Definition cleanupOldData (days_before : Z -> Schema.instant -> Schema.instant)
    (now : Schema.instant) (db : Schema.database) : Schema.database :=
  Schema.cleanup_old_data days_before now db.

(** *** What the specification says of these functions *)

(** The predicates [getAnomalies] recognizes, in the order it looks at them:
    the text before the placeholder number, and the value to bind. *)
Definition recognized (filters : AnomalyFilters) : list (string * jsval) :=
  [(" AND status = $", status filters);
   (" AND severity = $", severity filters);
   (" AND anomaly_type = $", type filters);
   (" AND detected_at >= $", since filters)].

(** A filter counts when its value is truthy. *)
Definition supplied (filters : AnomalyFilters) : list (string * jsval) :=
  filter (fun p => truthy (snd p)) (recognized filters).

(** The clauses with their placeholders numbered from [n] on. *)
Fixpoint numbered (n : Z) (clauses : list (string * jsval)) : string :=
  match clauses with
  | [] => ""
  | (clause, _) :: rest =>
      (clause ++ string_of_Z n ++ numbered (n + 1) rest)%string
  end.

(** One predicate and one parameter per supplied filter, then the ordering,
    then a LIMIT with the next parameter when a truthy limit is given. *)
Definition conjunction_of_supplied (filters : AnomalyFilters) : statement :=
  let predicates := supplied filters in
  let next := Z.of_nat (List.length predicates) + 1 in
  {| text :=
       ("SELECT * FROM anomalies WHERE 1=1" ++ numbered 1 predicates
          ++ " ORDER BY detected_at DESC"
          ++ (if truthy (limit filters)
              then " LIMIT $" ++ string_of_Z next else ""))%string;
     values :=
       map snd predicates
         ++ (if truthy (limit filters) then [limit filters] else []) |}.

(** The columns of an anomaly other than [view_count] and
    [last_viewed_at]. *)
Definition columns_not_viewed (r : Schema.anomaly_row) :=
  (Schema.an_id r, Schema.detected_at r, Schema.anomaly_type r,
   Schema.severity r, Schema.confidence r, Schema.title r,
   Schema.description r, Schema.recommendation r, Schema.affected_metrics r,
   Schema.baseline_data r, Schema.recent_data r,
   Schema.statistical_significance r, Schema.historical_comparison r,
   Schema.similar_past_events r, Schema.claude_prompt r,
   Schema.claude_response r, Schema.analysis_duration_ms r, Schema.status r,
   Schema.resolved_at r, Schema.resolution_notes r,
   Schema.user_acknowledged r, Schema.user_notes r).

(** [viewed now r r']: [r'] is [r] seen once more at [now]. *)
Definition viewed (now : Schema.instant) (r r' : Schema.anomaly_row) : Prop :=
  (exists n, Schema.view_count r = Some n
             /\ Schema.view_count r' = Some (n + 1))
  /\ Schema.last_viewed_at r' = Some now
  /\ Schema.status r' = Schema.status r
  /\ Schema.resolved_at r' = Schema.resolved_at r
  /\ Schema.severity r' = Schema.severity r
  /\ columns_not_viewed r' = columns_not_viewed r.

(** Arguments to try the functions on. *)
Module Scenario.
Definition no_filters : AnomalyFilters := {|
  status := JUndefined;
  severity := JUndefined;
  type := JUndefined;
  since := JUndefined;
  limit := JUndefined
|}.

(** [{ limit: 0 }] *)
Definition limit_zero : AnomalyFilters := {|
  status := JUndefined;
  severity := JUndefined;
  type := JUndefined;
  since := JUndefined;
  limit := JNum 0
|}.

(** [{ status: 'active', since: new Date(...), limit: 10 }] *)
Definition active_since : AnomalyFilters := {|
  status := JStr "active";
  severity := JUndefined;
  type := JUndefined;
  since := JDate 1735689600000;
  limit := JNum 10
|}.

(** Aggregates that hand back the values they were given, to see which
    rows reach them. *)
Definition shown (cells : list Schema.cell) : Schema.cell :=
  JArr (map to_string cells).

(** A collection cycle that only measured TVL and stakers. *)
Definition snapshot (at_time : Schema.instant) (usd eth stakers : Z)
    (queue : jsval) (source status : jsval) : MetricSnapshot := {|
  timestamp := Some at_time;
  tvl_usd := JNum usd;
  tvl_eth := JNum eth;
  tvl_change_percent := JUndefined;
  unique_stakers := JNum stakers;
  new_stakers_24h := JUndefined;
  deposit_count_24h := JNum 10;
  withdrawal_count_24h := JNum 5;
  total_volume_eth_24h := JUndefined;
  avg_transaction_size_eth := JUndefined;
  withdrawal_queue_size := queue;
  withdrawal_queue_eth := JUndefined;
  avg_withdrawal_wait_time_hours := JUndefined;
  eeth_eth_price_ratio := JUndefined;
  peg_deviation_percent := JUndefined;
  avg_gas_price_gwei := JUndefined;
  median_gas_price_gwei := JUndefined;
  total_validators := JUndefined;
  active_validators := JUndefined;
  data_source := source;
  collection_status := status;
  error_message := JUndefined
|}.

Definition whale (addr : string) (balance change rank : Z) : WhaleWallet := {|
  address := addr;
  current_balance_eeth := JNum balance;
  current_balance_usd := JNum (balance * 3000);
  balance_24h_ago := JNum (balance - change);
  balance_7d_ago := JUndefined;
  balance_30d_ago := JUndefined;
  change_24h_eeth := JNum change;
  change_24h_percent := JNum 1;
  change_7d_eeth := JUndefined;
  change_7d_percent := JUndefined;
  total_deposits := JUndefined;
  total_withdrawals := JUndefined;
  last_transaction_hash := JUndefined;
  last_transaction_time := JUndefined;
  rank_position := JNum rank;
  label := JUndefined;
  is_contract := JUndefined;
  is_exchange := JUndefined
|}.

(** The row the schema script inserts when it creates the table. *)
Definition placeholder : Schema.time_series_row := {|
  Schema.ts_id := 1;
  Schema.ts_timestamp := 1735689600000;
  Schema.tvl_usd := JNum 0;
  Schema.tvl_eth := JNum 0;
  Schema.tvl_change_percent := JNull;
  Schema.unique_stakers := JNum 0;
  Schema.new_stakers_24h := JNull;
  Schema.deposit_count_24h := JNull;
  Schema.withdrawal_count_24h := JNull;
  Schema.total_volume_eth_24h := JNull;
  Schema.avg_transaction_size_eth := JNull;
  Schema.withdrawal_queue_size := JNull;
  Schema.withdrawal_queue_eth := JNull;
  Schema.avg_withdrawal_wait_time_hours := JNull;
  Schema.eeth_eth_price_ratio := JNull;
  Schema.peg_deviation_percent := JNull;
  Schema.avg_gas_price_gwei := JNull;
  Schema.median_gas_price_gwei := JNull;
  Schema.ts_total_validators := JNull;
  Schema.ts_active_validators := JNull;
  Schema.data_source := JStr "blockchain";
  Schema.collection_status := JStr "initial";
  Schema.error_message := JNull
|}.

(** Five minutes after the placeholder. *)
Definition cycle : Schema.instant := 1735689900000.

(** A first pass that could not read everything, and the pass that redid it. *)
Definition first_pass : MetricSnapshot :=
  snapshot cycle 1000000 500 100 (JNum 7) (JStr "rpc-fallback") (JStr "partial").

Definition second_pass : MetricSnapshot :=
  snapshot cycle 1250000 510 101 (JNum 9) JUndefined JUndefined.

(** The row of the cycle that follows. *)
Definition next_cycle : Schema.time_series_row :=
  time_series_values 7 11
    (snapshot (cycle + 300000) 1260000 512 102 JUndefined JUndefined JUndefined).

(** The window of a session in UTC. *)
Definition utc_window (days : Z) (now : Schema.instant)
    : option Schema.instant :=
  Some (Schema.Scenario.utc_days_before days now).

Definition day : Z := Schema.Scenario.day.

(** The placeholder and five cycles: a success ten minutes before
    [cycle], then a success, a partial one, a test and a success after
    it. *)
Definition five_cycles : list Schema.time_series_row :=
  [placeholder;
   time_series_values 0 6
     (snapshot (cycle - 600000) 7777 7 77 JNull JUndefined (JStr "success"));
   time_series_values 0 2
     (snapshot (cycle + 300000) 1000 5 10 JNull JUndefined (JStr "success"));
   time_series_values 0 3
     (snapshot (cycle + 400000) 9999 9 99 JNull JUndefined (JStr "partial"));
   time_series_values 0 4
     (snapshot (cycle + 600000) 8888 8 88 JNull JUndefined (JStr "test"));
   time_series_values 0 5
     (snapshot (cycle + 900000) 1200 6 12 JNull JUndefined JUndefined)].


Definition binance14 : string := "0x28C6c06298d514Db089934071355E5743bf21d60".
Definition liquidity_pool : string := "0x308861A430be4cce5502d0A12724771Fc6DaF216".
End Scenario.

End Queries.

(** ** config/contracts: addresses and token amounts *)

Module Contracts.
Import Js.

Definition EETH_TOKEN : string := "0x35fA164735182de50811E8e2E824cFb9B6118ac2".
Definition LIQUIDITY_POOL : string := "0x308861A430be4cce5502d0A12724771Fc6DaF216".
Definition STAKING_MANAGER : string := "0x3d320286E014C3e1ce99Af6d6B00f0C1D63E3000".
Definition WITHDRAWAL_QUEUE : string := "0x7d5706f6ef3F89B3951E23e557CDFBC3239D4E2c".
Definition NFT_MANAGER : string := "0x3Dd0d77Fcb9e7f1D5f8b1a4B5e7d1B5f1C1F1f1f".
Definition PRICE_ORACLE : string := "0x0000000000000000000000000000000000000000".
Definition ETHERFI_ADMIN : string := "0x0EF8fa4760Db8f5Cd4d993f3e3416f30f942D705".

(** The object [ETHERFI_ADDRESSES], in the order of its properties. *)
Definition ETHERFI_ADDRESSES : list (string * string) :=
  [("EETH_TOKEN", EETH_TOKEN);
   ("LIQUIDITY_POOL", LIQUIDITY_POOL);
   ("STAKING_MANAGER", STAKING_MANAGER);
   ("WITHDRAWAL_QUEUE", WITHDRAWAL_QUEUE);
   ("NFT_MANAGER", NFT_MANAGER);
   ("PRICE_ORACLE", PRICE_ORACLE);
   ("ETHERFI_ADMIN", ETHERFI_ADMIN)].

(** Strings are sequences of ASCII characters here. *)
Definition is_upper (c : ascii) : bool :=
  (65 <=? nat_of_ascii c)%nat && (nat_of_ascii c <=? 90)%nat.

Definition lower_char (c : ascii) : ascii :=
  if is_upper c then ascii_of_nat (nat_of_ascii c + 32) else c.

(** [s.toLowerCase()] *)
Fixpoint toLowerCase (s : string) : string :=
  match s with
  | EmptyString => EmptyString
  | String c rest => String (lower_char c) (toLowerCase rest)
  end.

(** [contractHelpers.isContractAddress(address)] *)
Definition isContractAddress (address : string) : bool :=
  let knownContracts := map snd ETHERFI_ADDRESSES in
  existsb (String.eqb (toLowerCase address)) knownContracts.

Fixpoint has_upper (s : string) : bool :=
  match s with
  | EmptyString => false
  | String c rest => is_upper c || has_upper rest
  end.

(** *** String methods *)

Fixpoint repeat_char (c : ascii) (n : nat) : string :=
  match n with
  | O => EmptyString
  | S n' => String c (repeat_char c n')
  end.

(** [s.padStart(target, c)] with a filler of one character. *)
Definition padStart (s : string) (target : Z) (c : ascii) : string :=
  (repeat_char c (Z.to_nat (target - Z.of_nat (String.length s))) ++ s)%string.

(** [s.padEnd(target, c)] with a filler of one character. *)
Definition padEnd (s : string) (target : Z) (c : ascii) : string :=
  (s ++ repeat_char c (Z.to_nat (target - Z.of_nat (String.length s))))%string.

(** [s.slice(0, finish)]: a negative [finish] counts from the end. *)
Definition slice_from_0 (s : string) (finish : Z) : string :=
  let len := Z.of_nat (String.length s) in
  let stop := if finish <? 0 then Z.max (len + finish) 0 else Z.min finish len in
  String.substring 0 (Z.to_nat stop) s.

(** [s.split(c)] on one character: never empty. *)
Fixpoint split_on (sep : ascii) (s : string) : list string :=
  match s with
  | EmptyString => [EmptyString]
  | String c rest =>
      if Ascii.eqb c sep then EmptyString :: split_on sep rest
      else
        match split_on sep rest with
        | [] => [String c EmptyString]
        | first :: others => String c first :: others
        end
  end.

(** *** [BigInt(string)] *)

(** White space of the ASCII range: TAB, LF, VT, FF, CR, SP. *)
Definition is_space (c : ascii) : bool :=
  let n := nat_of_ascii c in
  ((9 <=? n)%nat && (n <=? 13)%nat) || (n =? 32)%nat.

Fixpoint trim_start (s : string) : string :=
  match s with
  | EmptyString => EmptyString
  | String c rest => if is_space c then trim_start rest else s
  end.

Fixpoint trim_end (s : string) : string :=
  match s with
  | EmptyString => EmptyString
  | String c rest =>
      match trim_end rest with
      | EmptyString => if is_space c then EmptyString else String c EmptyString
      | kept => String c kept
      end
  end.

(** The value of a digit in a base up to 16, upper or lower case. *)
Definition digit_value (base : Z) (c : ascii) : option Z :=
  let n := Z.of_nat (nat_of_ascii c) in
  let v :=
    if (48 <=? n) && (n <=? 57) then Some (n - 48)
    else if (97 <=? n) && (n <=? 102) then Some (n - 87)
    else if (65 <=? n) && (n <=? 70) then Some (n - 55)
    else None in
  match v with
  | Some d => if d <? base then Some d else None
  | None => None
  end.

Fixpoint digits_value (base : Z) (s : string) (acc : Z) : option Z :=
  match s with
  | EmptyString => Some acc
  | String c rest =>
      match digit_value base c with
      | Some d => digits_value base rest (acc * base + d)
      | None => None
      end
  end.

(** One digit at least. *)
Definition number_in (base : Z) (s : string) : option Z :=
  match s with
  | EmptyString => None
  | _ => digits_value base s 0
  end.

(** [BigInt(s)] for a string: white space around is dropped, nothing is
    0, then a decimal number with an optional sign or an unsigned number
    after 0x, 0o or 0b; [None] is the SyntaxError. *)
Definition StringToBigInt (s : string) : option Z :=
  match trim_end (trim_start s) with
  | EmptyString => Some 0
  | String c rest =>
      if Ascii.eqb c "-" then option_map Z.opp (number_in 10 rest)
      else if Ascii.eqb c "+" then number_in 10 rest
      else
        match rest with
        | String p digits =>
            if Ascii.eqb c "0" && (Ascii.eqb p "x" || Ascii.eqb p "X")
            then number_in 16 digits
            else if Ascii.eqb c "0" && (Ascii.eqb p "o" || Ascii.eqb p "O")
            then number_in 8 digits
            else if Ascii.eqb c "0" && (Ascii.eqb p "b" || Ascii.eqb p "B")
            then number_in 2 digits
            else number_in 10 (String c rest)
        | EmptyString => number_in 10 (String c rest)
        end
  end.

Definition is_digit (c : ascii) : bool :=
  (48 <=? nat_of_ascii c)%nat && (nat_of_ascii c <=? 57)%nat.

(** Decimal digits only. *)
Fixpoint all_digits (s : string) : bool :=
  match s with
  | EmptyString => true
  | String c rest => is_digit c && all_digits rest
  end.

(** *** Token amounts *)

(** [BigInt(10 ** decimals)]: the power is computed in floating point and
    is the exact integer for 0 to 22; below 0 the conversion throws, above
    22 the double is no longer the power. The model covers 0 to 22 and
    answers [None] elsewhere. *)
Definition divisor_of (decimals : Z) : option Z :=
  if (0 <=? decimals) && (decimals <=? 22) then Some (10 ^ decimals) else None.

(** [contractHelpers.formatTokenAmount(amount, decimals)]; [amount] is the
    integer that [BigInt(amount)] gives. BigInt division truncates and the
    remainder takes the sign of the amount. *)
Definition formatTokenAmount (amount : Z) (decimals : Z) : option string :=
  match divisor_of decimals with
  | None => None
  | Some divisor =>
      let integerPart := Z.quot amount divisor in
      let fractionalPart := Z.rem amount divisor in
      Some (string_of_Z integerPart ++ "."
              ++ padStart (string_of_Z fractionalPart) decimals "0")%string
  end.

(** [contractHelpers.parseTokenAmount(amount, decimals)]; [amount] is the
    text [amount.toString()] gives; [None] is the SyntaxError of [BigInt]. *)
Definition parseTokenAmount (amount : string) (decimals : Z) : option string :=
  let parts := split_on "." amount in
  let integerPart := hd EmptyString parts in
  let fractionalPart := nth 1 parts EmptyString in
  let paddedFractional :=
    slice_from_0 (padEnd fractionalPart decimals "0") decimals in
  option_map string_of_Z (StringToBigInt (integerPart ++ paddedFractional)%string).

End Contracts.

(** ** Measures of a run of [retry] *)

Module RetryRuns.
Import Eff ErrorHandler.

(** The milliseconds a run has slept. *)
Fixpoint slept {A} (log : list (event A)) : Z :=
  match log with
  | [] => 0
  | Sleep ms :: rest => ms + slept rest
  | _ :: rest => slept rest
  end.

(** The times a run has slept. *)
Fixpoint sleeps {A} (log : list (event A)) : nat :=
  match log with
  | [] => O
  | Sleep _ :: rest => S (sleeps rest)
  | _ :: rest => sleeps rest
  end.


(** A hook that gives up on the operation. *)
Definition impatient (error : Js.thrown) (attempt : Z) (w : nat)
    : outcome unit * nat :=
  (Threw (Js.ThrownError "Error" "giving up"), w).

Definition with_hook (n : Z) : options nat :=
  {| maxAttempts := Some n; delayMs := Some 500; backoffMultiplier := Some 3;
     onRetry := Some impatient |}.

End RetryRuns.

(** ** db-connection.js: [query], [testConnection], [healthCheck] *)

Module DbQuery.
Import Eff Eff.Notations.

(** A row of a result: column names and values. *)
Definition row : Type := list (string * Js.jsval).

(** The result object of the driver, of which the code reads [rows]. *)
Record result : Type := { rows : list row }.

(** [r.name]: [undefined] when the row has no such column. *)
Fixpoint get (r : row) (name : string) : Js.jsval :=
  match r with
  | [] => Js.JUndefined
  | (column, v) :: rest => if (column =? name)%string then v else get rest name
  end.

(** What is handed to the console after the label. *)
Inductive printed : Type :=
| Value (v : Js.jsval)
| Params (params : option (list Js.jsval)).

Inductive event : Type :=
| PoolQuery (text : string) (params : option (list Js.jsval))
| Console (level label : string) (rest : list printed).

(** The counters [totalCount], [idleCount], [waitingCount] of the pool. *)
Record pool_counts : Type := { total : Z; idle : Z; waiting : Z }.

(** What [healthCheck] returns; [at_time] is the instant whose ISO text
    the object carries. *)
Inductive health : Type :=
| Healthy (pool : pool_counts) (data : option row) (at_time : Z)
| Unhealthy (error : Js.jsval) (at_time : Z).

(** The statement of [testConnection]. *)
Definition connection_sql : string :=
  "SELECT NOW() as current_time, version() as pg_version".

Section Driver.
(** The clock and the pool are the environment. *)
Context {W : Type}.
Variable date_now : W -> Z * W.
Variable pool_query : string -> option (list Js.jsval) -> W -> outcome result * W.
Variable pool_stats : W -> pool_counts.

Local Abbreviation M := (Eff.M W event).
Local Open Scope eff_scope.

(** Reading the environment leaves no trace in the log. *)
Definition clock : M Z :=
  fun w => let '(t, w1) := date_now w in (Returned t, w1, []).

Definition slow_query_label (duration : Z) : string :=
  ("[DB] Slow query detected (" ++ Js.string_of_Z duration ++ "ms):")%string.

(** [query(text, params)] *)
Definition query (text : string) (params : option (list Js.jsval)) : M result :=
  start <- clock ;;
  try_catch
    (result <- perform (PoolQuery text params) (pool_query text params) ;;
     finish <- clock ;;
     let duration := finish - start in
     (if 1000 <? duration
      then emit (Console "warn" (slow_query_label duration)
                   [Value (Js.JStr (String.substring 0 100 text))])
      else ret tt) ;;
     ret result)
    (fun error =>
       reason <- message_of error ;;
       emit (Console "error" "[DB] Query error:" [Value reason]) ;;
       emit (Console "error" "[DB] Query text:" [Value (Js.JStr text)]) ;;
       emit (Console "error" "[DB] Query params:" [Params params]) ;;
       throw error).

(** [testConnection()] *)
Definition testConnection : M bool :=
  try_catch
    (result <- query connection_sql None ;;
     emit (Console "log" "[DB] Connection successful!" []) ;;
     match rows result with
     | [] => throw (Js.cannot_read "undefined" "current_time")
     | first :: _ =>
         emit (Console "log" "[DB] Current time:"
                 [Value (get first "current_time")]) ;;
         emit (Console "log" "[DB] PostgreSQL version:"
                 [Value (get first "pg_version")]) ;;
         ret true
     end)
    (fun error =>
       reason <- message_of error ;;
       emit (Console "error" "[DB] Connection failed:" [Value reason]) ;;
       ret false).

Definition health_sql : string := "
      SELECT
        (SELECT COUNT(*) FROM time_series_data) as time_series_count,
        (SELECT COUNT(*) FROM whale_wallets) as whale_count,
        (SELECT COUNT(*) FROM anomalies WHERE status = 'active') as active_anomalies,
        (SELECT MAX(timestamp) FROM time_series_data) as last_collection
    ".

(** [healthCheck()] *)
Definition healthCheck : M health :=
  try_catch
    (poolStats <- (fun w => (Returned (pool_stats w), w, [])) ;;
     result <- query health_sql None ;;
     at_time <- clock ;;
     ret (Healthy poolStats (hd_error (rows result)) at_time))
    (fun error =>
       reason <- message_of error ;;
       at_time <- clock ;;
       ret (Unhealthy reason at_time)).

End Driver.

(** A server to try them on: the world is the time; a statement takes
    [latency] milliseconds and fails when [down]. *)
Module Scenario.
Definition date_now (w : Z) : Z * Z := (w, w).

Definition refused : Js.thrown :=
  Js.ThrownError "Error" "connect ECONNREFUSED 127.0.0.1:5432".

Definition version_row : row :=
  [("current_time", Js.JDate 1735689600000);
   ("pg_version", Js.JStr "PostgreSQL 16.1")].

Definition pool_query (down : bool) (latency : Z) (text : string)
    (params : option (list Js.jsval)) (w : Z) : outcome result * Z :=
  if down then (Threw refused, w + latency)
  else (Returned {| rows := [version_row] |}, w + latency).

Definition pool_stats (w : Z) : pool_counts :=
  {| total := 2; idle := 2; waiting := 0 |}.

(** A pool whose promise is rejected without a reason. *)
Definition pool_rejects (text : string) (params : option (list Js.jsval))
    (w : Z) : outcome result * Z :=
  (Threw Js.ThrownUndefined, w).

(** A pool that has no client to give. *)
Definition pool_timeout : Js.thrown :=
  Js.ThrownError "Error" "timeout exceeded when trying to connect".

Definition pool_exhausted (w : nat) : outcome nat * nat :=
  (Threw pool_timeout, w).
End Scenario.

End DbQuery.

(** ** queries.js: the other inserts *)

Module Ingest.
Import Js Queries.

(** *** Twitter sentiment *)

(** The [data] argument of [insertTwitterSentiment]: [tweet_id] is a string
    and [timestamp] a Date when given; the other properties are any value. *)
Record SentimentSample : Type := {
  tweet_id : option string;
  tweet_text : jsval;
  author_username : jsval;
  author_followers : jsval;
  sentiment_score : jsval;
  sentiment_label : jsval;
  confidence : jsval;
  retweet_count : jsval;
  like_count : jsval;
  reply_count : jsval;
  keywords : jsval;
  is_influential : jsval;
  timestamp : option Schema.instant
}.

Definition text_cell (t : option string) : Schema.cell :=
  match t with
  | Some s => JStr s
  | None => JNull
  end.

(** The text in a VARCHAR cell, [None] for NULL. *)
Definition cell_text (c : Schema.cell) : option string :=
  match c with
  | JStr s => Some s
  | _ => None
  end.

(** The VALUES row [$1 .. $13] with the id of the sequence. *)
Definition sentiment_values (now : Schema.instant) (nextval : Z)
    (data : SentimentSample) : Schema.twitter_sentiment_row := {|
  Schema.tw_id := nextval;
  Schema.tw_timestamp :=
    match timestamp data with Some t => t | None => now end;
  Schema.tweet_id := text_cell (tweet_id data);
  Schema.tweet_text := prepare (tweet_text data);
  Schema.author_username := prepare (author_username data);
  Schema.author_followers := prepare (author_followers data);
  Schema.sentiment_score := prepare (sentiment_score data);
  Schema.sentiment_label := prepare (sentiment_label data);
  Schema.tw_confidence := prepare (confidence data);
  Schema.retweet_count := prepare (retweet_count data);
  Schema.like_count := prepare (like_count data);
  Schema.reply_count := prepare (reply_count data);
  Schema.keywords := prepare (or_else (keywords data) (JArr []));
  Schema.is_influential := prepare (or_else (is_influential data) (JBool false))
|}.

(** The arbiter of [ON CONFLICT (tweet_id)]: the unique constraint holds
    two equal texts apart, and never a NULL from anything. *)
Definition same_tweet (excluded r : Schema.twitter_sentiment_row) : bool :=
  match cell_text (Schema.tweet_id excluded), cell_text (Schema.tweet_id r) with
  | Some a, Some b => (b =? a)%string
  | _, _ => false
  end.

(** [DO UPDATE SET retweet_count = EXCLUDED.retweet_count,
    like_count = EXCLUDED.like_count, reply_count = EXCLUDED.reply_count] *)
Definition sentiment_do_update (r excluded : Schema.twitter_sentiment_row)
    : Schema.twitter_sentiment_row := {|
  Schema.tw_id := Schema.tw_id r;
  Schema.tw_timestamp := Schema.tw_timestamp r;
  Schema.tweet_id := Schema.tweet_id r;
  Schema.tweet_text := Schema.tweet_text r;
  Schema.author_username := Schema.author_username r;
  Schema.author_followers := Schema.author_followers r;
  Schema.sentiment_score := Schema.sentiment_score r;
  Schema.sentiment_label := Schema.sentiment_label r;
  Schema.tw_confidence := Schema.tw_confidence r;
  Schema.retweet_count := Schema.retweet_count excluded;
  Schema.like_count := Schema.like_count excluded;
  Schema.reply_count := Schema.reply_count excluded;
  Schema.keywords := Schema.keywords r;
  Schema.is_influential := Schema.is_influential r
|}.

(** [insertTwitterSentiment(data)]: the table after the statement and the
    id of [RETURNING id]. *)
Definition insertTwitterSentiment (now : Schema.instant) (nextval : Z)
    (data : SentimentSample) (t : list Schema.twitter_sentiment_row)
    : sql_result (list Schema.twitter_sentiment_row * option Z) :=
  let excluded := sentiment_values now nextval data in
  let conflict := existsb (same_tweet excluded) t in
  match insert_checked Schema.tw_id Schema.twitter_sentiment_fits same_tweet
          sentiment_do_update excluded t with
  | Rejected m => Rejected m
  | Done t' =>
      Done (t',
            if conflict
            then option_map Schema.tw_id (find (same_tweet excluded) t')
            else Some nextval)
  end.

(** [refreshed_engagement data r r']: [r'] is [r] with the three engagement
    counters of [data] and every other column as it was. *)
Definition refreshed_engagement (data : SentimentSample)
    (r r' : Schema.twitter_sentiment_row) : Prop :=
  Schema.retweet_count r' = prepare (retweet_count data)
  /\ Schema.like_count r' = prepare (like_count data)
  /\ Schema.reply_count r' = prepare (reply_count data)
  /\ Schema.tw_id r' = Schema.tw_id r
  /\ Schema.tw_timestamp r' = Schema.tw_timestamp r
  /\ Schema.tweet_id r' = Schema.tweet_id r
  /\ Schema.tweet_text r' = Schema.tweet_text r
  /\ Schema.author_username r' = Schema.author_username r
  /\ Schema.author_followers r' = Schema.author_followers r
  /\ Schema.sentiment_score r' = Schema.sentiment_score r
  /\ Schema.sentiment_label r' = Schema.sentiment_label r
  /\ Schema.tw_confidence r' = Schema.tw_confidence r
  /\ Schema.keywords r' = Schema.keywords r
  /\ Schema.is_influential r' = Schema.is_influential r.

(** *** Validator metrics *)

(** The [data] argument of [insertValidatorMetrics]. *)
Record ValidatorSnapshot : Type := {
  v_timestamp : option Schema.instant;
  v_total_validators : jsval;
  v_active_validators : jsval;
  v_exited_validators : jsval;
  v_slashed_validators : jsval;
  v_avg_effectiveness : jsval;
  v_total_rewards_eth : jsval;
  v_total_penalties_eth : jsval;
  v_net_rewards_eth : jsval;
  v_estimated_apr : jsval;
  v_estimated_apy : jsval;
  v_etherfi_apr : jsval;
  v_network_avg_apr : jsval;
  v_apr_vs_network : jsval
}.

(** The VALUES row [$1 .. $14] with the id of the sequence. *)
Definition validator_values (now : Schema.instant) (nextval : Z)
    (data : ValidatorSnapshot) : Schema.validator_metrics_row := {|
  Schema.vm_id := nextval;
  Schema.vm_timestamp :=
    match v_timestamp data with Some t => t | None => now end;
  Schema.vm_total_validators := prepare (v_total_validators data);
  Schema.vm_active_validators := prepare (v_active_validators data);
  Schema.exited_validators := prepare (v_exited_validators data);
  Schema.slashed_validators := prepare (v_slashed_validators data);
  Schema.avg_effectiveness := prepare (v_avg_effectiveness data);
  Schema.total_rewards_eth := prepare (v_total_rewards_eth data);
  Schema.total_penalties_eth := prepare (v_total_penalties_eth data);
  Schema.net_rewards_eth := prepare (v_net_rewards_eth data);
  Schema.estimated_apr := prepare (v_estimated_apr data);
  Schema.estimated_apy := prepare (v_estimated_apy data);
  Schema.etherfi_apr := prepare (v_etherfi_apr data);
  Schema.network_avg_apr := prepare (v_network_avg_apr data);
  Schema.apr_vs_network := prepare (v_apr_vs_network data)
|}.

Definition same_validator_timestamp
    (excluded r : Schema.validator_metrics_row) : bool :=
  Schema.vm_timestamp r =? Schema.vm_timestamp excluded.

(** [DO UPDATE SET active_validators = EXCLUDED.active_validators,
    estimated_apr = EXCLUDED.estimated_apr] *)
Definition validator_do_update (r excluded : Schema.validator_metrics_row)
    : Schema.validator_metrics_row := {|
  Schema.vm_id := Schema.vm_id r;
  Schema.vm_timestamp := Schema.vm_timestamp r;
  Schema.vm_total_validators := Schema.vm_total_validators r;
  Schema.vm_active_validators := Schema.vm_active_validators excluded;
  Schema.exited_validators := Schema.exited_validators r;
  Schema.slashed_validators := Schema.slashed_validators r;
  Schema.avg_effectiveness := Schema.avg_effectiveness r;
  Schema.total_rewards_eth := Schema.total_rewards_eth r;
  Schema.total_penalties_eth := Schema.total_penalties_eth r;
  Schema.net_rewards_eth := Schema.net_rewards_eth r;
  Schema.estimated_apr := Schema.estimated_apr excluded;
  Schema.estimated_apy := Schema.estimated_apy r;
  Schema.etherfi_apr := Schema.etherfi_apr r;
  Schema.network_avg_apr := Schema.network_avg_apr r;
  Schema.apr_vs_network := Schema.apr_vs_network r
|}.

(** [insertValidatorMetrics(data)]: the table after the statement and the
    id of [RETURNING id]. *)
Definition insertValidatorMetrics (now : Schema.instant) (nextval : Z)
    (data : ValidatorSnapshot) (t : list Schema.validator_metrics_row)
    : sql_result (list Schema.validator_metrics_row * option Z) :=
  let excluded := validator_values now nextval data in
  match insert_checked Schema.vm_id Schema.validator_metrics_fits
          same_validator_timestamp validator_do_update excluded t with
  | Rejected m => Rejected m
  | Done t' =>
      Done (t',
            option_map Schema.vm_id
              (find (same_validator_timestamp excluded) t'))
  end.

(** [refreshed_validators data r r']: [r'] is [r] with the active validators
    and the estimated APR of [data] and every other column as it was. *)
Definition refreshed_validators (data : ValidatorSnapshot)
    (r r' : Schema.validator_metrics_row) : Prop :=
  Schema.vm_active_validators r' = prepare (v_active_validators data)
  /\ Schema.estimated_apr r' = prepare (v_estimated_apr data)
  /\ Schema.vm_id r' = Schema.vm_id r
  /\ Schema.vm_timestamp r' = Schema.vm_timestamp r
  /\ Schema.vm_total_validators r' = Schema.vm_total_validators r
  /\ Schema.exited_validators r' = Schema.exited_validators r
  /\ Schema.slashed_validators r' = Schema.slashed_validators r
  /\ Schema.avg_effectiveness r' = Schema.avg_effectiveness r
  /\ Schema.total_rewards_eth r' = Schema.total_rewards_eth r
  /\ Schema.total_penalties_eth r' = Schema.total_penalties_eth r
  /\ Schema.net_rewards_eth r' = Schema.net_rewards_eth r
  /\ Schema.estimated_apy r' = Schema.estimated_apy r
  /\ Schema.etherfi_apr r' = Schema.etherfi_apr r
  /\ Schema.network_avg_apr r' = Schema.network_avg_apr r
  /\ Schema.apr_vs_network r' = Schema.apr_vs_network r.

End Ingest.

(** ** queries.js: [insertAnomaly] *)

Module AnomalyIngest.
Import Js.

(** The [data] argument of [insertAnomaly]: the type, the severity and the
    status are strings when given; the other properties are any value. *)
Record AnomalyData : Type := {
  anomaly_type : option string;
  severity : option string;
  confidence : jsval;
  title : jsval;
  description : jsval;
  recommendation : jsval;
  affected_metrics : jsval;
  baseline_data : jsval;
  recent_data : jsval;
  statistical_significance : jsval;
  historical_comparison : jsval;
  similar_past_events : jsval;
  claude_prompt : jsval;
  claude_response : jsval;
  analysis_duration_ms : jsval;
  status : option string
}.

(** [data.status || 'active']: an empty string is falsy. *)
Definition status_or_active (s : option string) : string :=
  match s with
  | Some text => if (text =? "")%string then "active" else text
  | None => "active"
  end.

Definition is_null (c : Schema.cell) : bool :=
  match c with
  | JNull => true
  | _ => false
  end.

Section Json.
(** [JSON.stringify] belongs to the language. *)
Variable JSON_stringify : jsval -> jsval.

(** The row of the INSERT: [$1 .. $16], and the defaults of the schema for
    the columns the statement leaves out. *)
Definition anomaly_values (now : Schema.instant) (nextval : Z)
    (kind sev : string) (data : AnomalyData) : Schema.anomaly_row := {|
  Schema.an_id := nextval;
  Schema.detected_at := now;
  Schema.anomaly_type := kind;
  Schema.severity := sev;
  Schema.confidence := Queries.prepare (confidence data);
  Schema.title := Queries.prepare (title data);
  Schema.description := Queries.prepare (description data);
  Schema.recommendation := Queries.prepare (recommendation data);
  Schema.affected_metrics :=
    Queries.prepare (or_else (affected_metrics data) (JArr []));
  Schema.baseline_data := Queries.prepare (JSON_stringify (baseline_data data));
  Schema.recent_data := Queries.prepare (JSON_stringify (recent_data data));
  Schema.statistical_significance :=
    Queries.prepare (statistical_significance data);
  Schema.historical_comparison := Queries.prepare (historical_comparison data);
  Schema.similar_past_events :=
    Queries.prepare (JSON_stringify (similar_past_events data));
  Schema.claude_prompt := Queries.prepare (claude_prompt data);
  Schema.claude_response :=
    Queries.prepare (JSON_stringify (claude_response data));
  Schema.analysis_duration_ms := Queries.prepare (analysis_duration_ms data);
  Schema.status := Some (status_or_active (status data));
  Schema.resolved_at := None;
  Schema.resolution_notes := JNull;
  Schema.user_acknowledged := JBool false;
  Schema.user_notes := JNull;
  Schema.view_count := Some 0;
  Schema.last_viewed_at := None
|}.

(** [insertAnomaly(data)]: the table after the INSERT and the row of
    [RETURNING id, detected_at]. The server rejects a NULL in a NOT NULL
    column, a value that does not fit the type of its column, and an id
    the sequence cannot give or the primary key already holds. *)
Definition insertAnomaly (now : Schema.instant) (nextval : Z)
    (data : AnomalyData) (t : list Schema.anomaly_row)
    : Queries.sql_result (list Schema.anomaly_row * (Z * Schema.instant)) :=
  match anomaly_type data, severity data with
  | Some kind, Some sev =>
      if is_null (Queries.prepare (confidence data))
         || is_null (Queries.prepare (title data))
         || is_null (Queries.prepare (description data))
      then Queries.Rejected "null value violates not-null constraint"
      else if negb (Schema.in_serial nextval)
      then Queries.Rejected "nextval: reached maximum value of sequence"
      else if negb (Schema.anomaly_fits (anomaly_values now nextval kind sev data))
      then Queries.Rejected "value out of range for the type of its column"
      else if existsb (fun r => Schema.an_id r =? nextval) t
      then Queries.Rejected "duplicate key value violates unique constraint"
      else Queries.Done (t ++ [anomaly_values now nextval kind sev data],
                         (nextval, now))
  | _, _ => Queries.Rejected "null value violates not-null constraint"
  end.

End Json.

(** An anomaly as the analysis step reports it, without a status. *)
Module Scenario.
Definition peg_alert : AnomalyData := {|
  anomaly_type := Some "peg_deviation";
  severity := Some "HIGH";
  confidence := JNum 1;
  title := JStr "eETH trades below peg";
  description := JStr "The eETH/ETH ratio left its band";
  recommendation := JUndefined;
  affected_metrics := JUndefined;
  baseline_data := JUndefined;
  recent_data := JUndefined;
  statistical_significance := JUndefined;
  historical_comparison := JUndefined;
  similar_past_events := JUndefined;
  claude_prompt := JUndefined;
  claude_response := JUndefined;
  analysis_duration_ms := JNum 840;
  status := None
|}.

(** A stand-in for [JSON.stringify] on values that have no structure. *)
Definition stringify (v : jsval) : jsval :=
  match v with
  | JUndefined => JUndefined
  | _ => JStr (to_string v)
  end.
End Scenario.

End AnomalyIngest.

(** ** schema.sql and queries.js: the other views and reads *)

Module Views.
Import Js.

(** The number in a NUMERIC cell, [None] for NULL; a NUMERIC column holds
    nothing else. *)
Definition number_of (c : Schema.cell) : option Z :=
  match c with
  | JNum n => Some n
  | _ => None
  end.

Definition numeric_cell (c : Schema.cell) : Prop :=
  c = JNull \/ exists n, c = JNum n.

(** [ORDER BY key DESC]: NULL sorts before every number. [a] may stand
    before [b]. *)
Definition desc_leb (a b : option Z) : bool :=
  match a, b with
  | None, _ => true
  | Some _, None => false
  | Some x, Some y => y <=? x
  end.

(** *** View [latest_metrics] *)

Record latest : Type := {
  lm_timestamp : Schema.instant;
  lm_tvl_usd : Schema.cell;
  lm_tvl_eth : Schema.cell;
  lm_unique_stakers : Schema.cell;
  lm_withdrawal_queue_size : Schema.cell;
  lm_eeth_eth_price_ratio : Schema.cell;
  lm_peg_deviation_percent : Schema.cell;
  lm_total_volume_eth_24h : Schema.cell;
  lm_avg_gas_price_gwei : Schema.cell
}.

Definition select_latest_columns (r : Schema.time_series_row) : latest := {|
  lm_timestamp := Schema.ts_timestamp r;
  lm_tvl_usd := Schema.tvl_usd r;
  lm_tvl_eth := Schema.tvl_eth r;
  lm_unique_stakers := Schema.unique_stakers r;
  lm_withdrawal_queue_size := Schema.withdrawal_queue_size r;
  lm_eeth_eth_price_ratio := Schema.eeth_eth_price_ratio r;
  lm_peg_deviation_percent := Schema.peg_deviation_percent r;
  lm_total_volume_eth_24h := Schema.total_volume_eth_24h r;
  lm_avg_gas_price_gwei := Schema.avg_gas_price_gwei r
|}.

(** [ORDER BY timestamp DESC LIMIT 1] *)
Definition latest_metrics (t : list Schema.time_series_row) : list latest :=
  firstn 1
    (Schema.order_by (fun a b => lm_timestamp b <=? lm_timestamp a)
       (map select_latest_columns t)).

(** [getLatestMetrics()]: [rows[0]], [None] being [undefined]. *)
Definition getLatestMetrics (t : list Schema.time_series_row) : option latest :=
  hd_error (latest_metrics t).

(** *** View [recent_whale_movements] *)

Record movement : Type := {
  mv_address : string;
  mv_label : Schema.cell;
  mv_current_balance_eeth : Schema.cell;
  mv_change_24h_eeth : Schema.cell;
  mv_change_24h_percent : Schema.cell;
  mv_last_transaction_time : Schema.cell;
  mv_rank_position : Schema.cell
}.

Definition select_movement_columns (r : Schema.whale_wallet_row) : movement := {|
  mv_address := Schema.address r;
  mv_label := Schema.label r;
  mv_current_balance_eeth := Schema.current_balance_eeth r;
  mv_change_24h_eeth := Schema.change_24h_eeth r;
  mv_change_24h_percent := Schema.change_24h_percent r;
  mv_last_transaction_time := Schema.last_transaction_time r;
  mv_rank_position := Schema.rank_position r
|}.

(** [ABS(change_24h_percent)], NULL for NULL. *)
Definition abs_change (c : Schema.cell) : option Z :=
  option_map Z.abs (number_of c).

(** [WHERE ABS(change_24h_percent) > 5] *)
Definition moved (r : Schema.whale_wallet_row) : bool :=
  match abs_change (Schema.change_24h_percent r) with
  | Some m => 5 <? m
  | None => false
  end.

(** [ORDER BY ABS(change_24h_percent) DESC] *)
Definition movement_order (a b : movement) : bool :=
  desc_leb (abs_change (mv_change_24h_percent a))
    (abs_change (mv_change_24h_percent b)).

Definition recent_whale_movements (t : list Schema.whale_wallet_row)
    : list movement :=
  Schema.order_by movement_order (map select_movement_columns (filter moved t)).

(** [getRecentWhaleMovements()] *)
Definition getRecentWhaleMovements (t : list Schema.whale_wallet_row)
    : list movement :=
  recent_whale_movements t.

(** *** The rows of [getTopWhales] *)

(** [ORDER BY current_balance_eeth DESC] *)
Definition balance_order (a b : Schema.whale_wallet_row) : bool :=
  desc_leb (number_of (Schema.current_balance_eeth a))
    (number_of (Schema.current_balance_eeth b)).

(** [getTopWhales(limit = 20)], by its rows; [limit] is a number when
    given. The server rejects a negative LIMIT. *)
Definition top_whales (limit : option Z) (t : list Schema.whale_wallet_row)
    : Queries.sql_result (list Schema.whale_wallet_row) :=
  let limit := match limit with Some n => n | None => 20 end in
  if limit <? 0 then Queries.Rejected "LIMIT must not be negative"
  else Queries.Done (firstn (Z.to_nat limit) (Schema.order_by balance_order t)).


(** [a] moved at least as much as [b]. *)
Definition larger_move (a b : movement) : Prop :=
  exists x y,
    mv_change_24h_percent a = JNum x /\ mv_change_24h_percent b = JNum y
    /\ Z.abs y <= Z.abs x.

End Views.

(** ** Samples for the inserts and the views *)

Module Samples.
Import Js.

Definition tweet (id : option string) (score : Z) (retweets likes replies : Z)
    (at_time : Schema.instant) : Ingest.SentimentSample := {|
  Ingest.tweet_id := id;
  Ingest.tweet_text := JStr "eETH peg looks shaky";
  Ingest.author_username := JStr "defi_watcher";
  Ingest.author_followers := JNum 12000;
  Ingest.sentiment_score := JNum score;
  Ingest.sentiment_label := JStr "negative";
  Ingest.confidence := JNum 1;
  Ingest.retweet_count := JNum retweets;
  Ingest.like_count := JNum likes;
  Ingest.reply_count := JNum replies;
  Ingest.keywords := JUndefined;
  Ingest.is_influential := JUndefined;
  Ingest.timestamp := Some at_time
|}.

Definition validators (at_time : Schema.instant) (total active apr : Z)
    : Ingest.ValidatorSnapshot := {|
  Ingest.v_timestamp := Some at_time;
  Ingest.v_total_validators := JNum total;
  Ingest.v_active_validators := JNum active;
  Ingest.v_exited_validators := JNum 0;
  Ingest.v_slashed_validators := JNum 0;
  Ingest.v_avg_effectiveness := JUndefined;
  Ingest.v_total_rewards_eth := JUndefined;
  Ingest.v_total_penalties_eth := JUndefined;
  Ingest.v_net_rewards_eth := JUndefined;
  Ingest.v_estimated_apr := JNum apr;
  Ingest.v_estimated_apy := JUndefined;
  Ingest.v_etherfi_apr := JUndefined;
  Ingest.v_network_avg_apr := JUndefined;
  Ingest.v_apr_vs_network := JUndefined
|}.

(** A wallet row with a balance and a 24h change, NULL when [None]. *)
Definition wallet (id : Z) (addr : string) (balance change : option Z)
    : Schema.whale_wallet_row := {|
  Schema.ww_id := id;
  Schema.address := addr;
  Schema.first_seen := 0;
  Schema.last_updated := 0;
  Schema.current_balance_eeth :=
    match balance with Some n => JNum n | None => JNull end;
  Schema.current_balance_usd := JNull;
  Schema.balance_24h_ago := JNull;
  Schema.balance_7d_ago := JNull;
  Schema.balance_30d_ago := JNull;
  Schema.change_24h_eeth := JNull;
  Schema.change_24h_percent :=
    match change with Some n => JNum n | None => JNull end;
  Schema.change_7d_eeth := JNull;
  Schema.change_7d_percent := JNull;
  Schema.total_deposits := JNum 0;
  Schema.total_withdrawals := JNum 0;
  Schema.last_transaction_hash := JNull;
  Schema.last_transaction_time := JNull;
  Schema.rank_position := JNull;
  Schema.label := JNull;
  Schema.is_contract := JBool false;
  Schema.is_exchange := JBool false
|}.

Definition four_wallets : list Schema.whale_wallet_row :=
  [wallet 1 "0xaa" (Some 500) (Some 5);
   wallet 2 "0xbb" (Some 900) (Some (-12));
   wallet 3 "0xcc" None None;
   wallet 4 "0xdd" (Some 700) (Some 6)].

End Samples.

(** ** Series of calls, and what an upsert keeps *)

Module Series.
Import Js.

(** [getAnomalyById(id)] called once at each of [times], oldest first; a
    rejected call ends the series. *)
Fixpoint getAnomalyById_each (times : list Schema.instant) (id : Z)
    (t : list Schema.anomaly_row)
    : Queries.sql_result (list Schema.anomaly_row) :=
  match times with
  | [] => Queries.Done t
  | now :: later =>
      match Queries.getAnomalyById now id t with
      | Queries.Done (t', _) => getAnomalyById_each later id t'
      | Queries.Rejected m => Queries.Rejected m
      end
  end.

(** The columns of a wallet that [upsertWhaleWallet] does not name in its
    DO UPDATE. *)
Definition columns_not_updated (r : Schema.whale_wallet_row) :=
  (Schema.ww_id r, Schema.address r, Schema.first_seen r,
   Schema.balance_24h_ago r, Schema.balance_7d_ago r, Schema.balance_30d_ago r,
   Schema.change_7d_eeth r, Schema.change_7d_percent r,
   Schema.total_deposits r, Schema.total_withdrawals r,
   Schema.last_transaction_hash r, Schema.last_transaction_time r,
   Schema.label r, Schema.is_contract r, Schema.is_exchange r).

End Series.

(** * Properties *)

(** ** The transaction runner *)

Module TransactionProps.
Import Eff DbConnection.

Section Runner.
Context {W client rows T : Type}.
Variable pool_connect : W -> outcome client * W.
Variable client_query : client -> string -> W -> outcome rows * W.
Variable client_release : client -> W -> W.
Variable callback : client -> Eff.M W (event client) T.

Local Abbreviation run :=
  (transaction pool_connect client_query client_release callback).
Local Abbreviation rolls_back :=
  (rolls_back pool_connect client_query client_release callback).

Ltac run_transaction :=
  unfold DbConnection.rolls_back, transaction, bind, try_finally, try_catch, getClient,
    query_on, release, message_of, perform, emit, ret, throw.

Lemma begin_fails_path w c w0 e w1 :
  pool_connect w = (Returned c, w0) ->
  client_query c "BEGIN" w0 = (Threw e, w1) ->
  rolls_back w c e w1 [Connect c; Query c "BEGIN"].
Proof.
  intros Hc Hb. run_transaction. rewrite Hc, Hb.
  destruct (client_query c "ROLLBACK" w1) as [[r | e'] w2];
    [destruct (Js.message e) |]; reflexivity.
Qed.

Lemma body_fails_path w c w0 r0 w1 e w2 lb :
  pool_connect w = (Returned c, w0) ->
  client_query c "BEGIN" w0 = (Returned r0, w1) ->
  callback c w1 = (Threw e, w2, lb) ->
  rolls_back w c e w2 ([Connect c; Query c "BEGIN"] ++ lb).
Proof.
  intros Hc Hb Hk. run_transaction. rewrite Hc, Hb, Hk.
  destruct (client_query c "ROLLBACK" w2) as [[r | e'] w3];
    [destruct (Js.message e) |]; cbn; rewrite <- ?app_assoc; reflexivity.
Qed.

Lemma commit_fails_path w c w0 r0 w1 v w2 lb e w3 :
  pool_connect w = (Returned c, w0) ->
  client_query c "BEGIN" w0 = (Returned r0, w1) ->
  callback c w1 = (Returned v, w2, lb) ->
  client_query c "COMMIT" w2 = (Threw e, w3) ->
  rolls_back w c e w3 ([Connect c; Query c "BEGIN"] ++ lb ++ [Query c "COMMIT"]).
Proof.
  intros Hc Hb Hk Hm. run_transaction. rewrite Hc, Hb, Hk, Hm.
  destruct (client_query c "ROLLBACK" w3) as [[r | e'] w4];
    [destruct (Js.message e) |]; cbn; rewrite <- ?app_assoc; reflexivity.
Qed.

Lemma commit_path w c w0 r0 w1 v w2 lb r1 w3 :
  pool_connect w = (Returned c, w0) ->
  client_query c "BEGIN" w0 = (Returned r0, w1) ->
  callback c w1 = (Returned v, w2, lb) ->
  client_query c "COMMIT" w2 = (Returned r1, w3) ->
  run w =
    (Returned v, client_release c w3,
     [Connect c; Query c "BEGIN"] ++ lb ++ [Query c "COMMIT"; Release c]).
Proof.
  intros Hc Hb Hk Hm. run_transaction. rewrite Hc, Hb, Hk, Hm. cbn.
  rewrite <- ?app_assoc. reflexivity.
Qed.

Lemma no_client_path w e w0 :
  pool_connect w = (Threw e, w0) -> run w = (Threw e, w0, []).
Proof.
  intros Hc. run_transaction. rewrite Hc. reflexivity.
Qed.

(** The run of the runner, path by path, once the pool has handed out [c]. *)
Lemma transaction_paths w c w0 :
  pool_connect w = (Returned c, w0) ->
  match client_query c "BEGIN" w0 with
  | (Threw e, w1) => rolls_back w c e w1 [Connect c; Query c "BEGIN"]
  | (Returned _, w1) =>
      match callback c w1 with
      | (Threw e, w2, lb) =>
          rolls_back w c e w2 ([Connect c; Query c "BEGIN"] ++ lb)
      | (Returned v, w2, lb) =>
          match client_query c "COMMIT" w2 with
          | (Threw e, w3) =>
              rolls_back w c e w3
                ([Connect c; Query c "BEGIN"] ++ lb ++ [Query c "COMMIT"])
          | (Returned _, w3) =>
              run w =
                (Returned v, client_release c w3,
                 [Connect c; Query c "BEGIN"] ++ lb
                   ++ [Query c "COMMIT"; Release c])
          end
      end
  end.
Proof.
  intros Hc.
  destruct (client_query c "BEGIN" w0) as [[r0 | e] w1] eqn:Hb.
  - destruct (callback c w1) as [[[v | e] w2] lb] eqn:Hk.
    + destruct (client_query c "COMMIT" w2) as [[r1 | e] w3] eqn:Hm.
      * eapply commit_path; eassumption.
      * eapply commit_fails_path; eassumption.
    + eapply body_fails_path; eassumption.
  - eapply begin_fails_path; eassumption.
Qed.

Lemma rolls_back_releases w c e w' done :
  rolls_back w c e w' done ->
  exists r wl tail,
    run w = (r, client_release c wl, done ++ tail ++ [Release c]).
Proof.
  unfold DbConnection.rolls_back.
  destruct (client_query c "ROLLBACK" w') as [[r | e'] w''];
    [destruct (Js.message e) as [type_error | text] |]; intros ->.
  - exists (Threw type_error), w'', [Query c "ROLLBACK"]. reflexivity.
  - exists (Threw e), w'',
      [Query c "ROLLBACK";
       ConsoleError "[DB] Transaction rolled back due to error:" text].
    reflexivity.
  - exists (Threw e'), w'', [Query c "ROLLBACK"]. reflexivity.
Qed.

(** Whatever happens after the checkout, the log of the run opens with the
    checkout and BEGIN and closes with the release. *)
Lemma transaction_brackets w c w0 :
  pool_connect w = (Returned c, w0) ->
  exists r wl between,
    run w = (r, client_release c wl,
             [Connect c; Query c "BEGIN"] ++ between ++ [Release c]).
Proof.
  intros Hc. pose proof (transaction_paths w c w0 Hc) as Hp.
  destruct (client_query c "BEGIN" w0) as [[r0 | e] w1].
  - destruct (callback c w1) as [[[v | e] w2] lb].
    + destruct (client_query c "COMMIT" w2) as [[r1 | e] w3].
      * exists (Returned v), w3, (lb ++ [Query c "COMMIT"]).
        rewrite Hp, <- !app_assoc. reflexivity.
      * apply rolls_back_releases in Hp. destruct Hp as (r & wl & tail & ->).
        exists r, wl, (lb ++ [Query c "COMMIT"] ++ tail).
        rewrite <- !app_assoc. reflexivity.
    + apply rolls_back_releases in Hp. destruct Hp as (r & wl & tail & ->).
      exists r, wl, (lb ++ tail). rewrite <- !app_assoc. reflexivity.
  - apply rolls_back_releases in Hp. destruct Hp as (r & wl & tail & ->).
    exists r, wl, tail. reflexivity.
Qed.

(** C1 (amended). Once the pool has handed out a client, the runner sends
    BEGIN on it, runs the body, and sends COMMIT when the body returns;
    when BEGIN, the body or COMMIT fails it sends ROLLBACK; if the
    ROLLBACK completes it writes the message of that failure to the
    console and rethrows the failure, except for a failure that is
    [undefined] or [null], where reading the message throws a TypeError
    that leaves the runner instead; a failing ROLLBACK lets its own
    exception out; on each of these paths the run opens with the one
    checkout and ends with the release of that client. *)
Theorem transaction_scoped_release w c w0 :
  pool_connect w = (Returned c, w0) ->
  (exists r wl between,
     run w = (r, client_release c wl,
              [Connect c; Query c "BEGIN"] ++ between ++ [Release c]))
  /\ match client_query c "BEGIN" w0 with
     | (Threw e, w1) => rolls_back w c e w1 [Connect c; Query c "BEGIN"]
     | (Returned _, w1) =>
         match callback c w1 with
         | (Threw e, w2, lb) =>
             rolls_back w c e w2 ([Connect c; Query c "BEGIN"] ++ lb)
         | (Returned v, w2, lb) =>
             match client_query c "COMMIT" w2 with
             | (Threw e, w3) =>
                 rolls_back w c e w3
                   ([Connect c; Query c "BEGIN"] ++ lb ++ [Query c "COMMIT"])
             | (Returned _, w3) =>
                 run w =
                   (Returned v, client_release c w3,
                    [Connect c; Query c "BEGIN"] ++ lb
                      ++ [Query c "COMMIT"; Release c])
             end
         end
     end.
Proof.
  intros Hc. split.
  - exact (transaction_brackets w c w0 Hc).
  - exact (transaction_paths w c w0 Hc).
Qed.

End Runner.

Import DbConnection.Scenario.

(** The runner on a healthy pool: one client out, one client back. *)
Lemma transaction_scoped_release_witness :
  transaction pool_connect (client_query []) client_release (body_ok []) 0%nat
  = (Returned 42, 0%nat,
     [Connect 0%nat; Query 0%nat "BEGIN";
      Query 0%nat "INSERT INTO anomalies DEFAULT VALUES";
      Query 0%nat "COMMIT"; Release 0%nat]).
Proof.
  exact (proj2 (transaction_scoped_release pool_connect (client_query [])
                  client_release (body_ok []) 0%nat 0%nat 1%nat eq_refl)).
Defined.

(** A failing COMMIT is rolled back and rethrown, and the client returns. *)
Example transaction_commit_refused :
  transaction pool_connect (client_query ["COMMIT"]) client_release
    (body_ok ["COMMIT"]) 0%nat
  = (Threw (server_error "COMMIT"), 0%nat,
     [Connect 0%nat; Query 0%nat "BEGIN";
      Query 0%nat "INSERT INTO anomalies DEFAULT VALUES";
      Query 0%nat "COMMIT"; Query 0%nat "ROLLBACK";
      ConsoleError "[DB] Transaction rolled back due to error:"
        (Js.JStr "server closed the connection during COMMIT");
      Release 0%nat]).
Proof. reflexivity. Qed.

(** C1 as stated fails: the body throws [duplicate_key], the ROLLBACK then
    fails, and what the caller receives is the failure of the ROLLBACK; the
    body's own failure is lost and no console line is written. *)
Lemma transaction_rollback_failure_masks :
  body_fails 0%nat 1%nat
  = (Threw duplicate_key, 1%nat,
     [Query 0%nat "INSERT INTO whale_wallets (address) VALUES ($1)"])
  /\ transaction pool_connect (client_query ["ROLLBACK"]) client_release
       body_fails 0%nat
     = (Threw (server_error "ROLLBACK"), 0%nat,
        [Connect 0%nat; Query 0%nat "BEGIN";
         Query 0%nat "INSERT INTO whale_wallets (address) VALUES ($1)";
         Query 0%nat "ROLLBACK"; Release 0%nat])
  /\ server_error "ROLLBACK" <> duplicate_key.
Proof.
  split; [reflexivity | split; [reflexivity | discriminate]].
Qed.

(** A body that fails with [undefined]: the ROLLBACK completes, and the
    caller receives the TypeError of reading the message, with no console
    line; the client returns all the same. *)
Example transaction_failure_without_message :
  transaction pool_connect (client_query []) client_release body_rejects 0%nat
  = (Threw (Js.cannot_read "undefined" "message"), 0%nat,
     [Connect 0%nat; Query 0%nat "BEGIN"; Query 0%nat "ROLLBACK";
      Release 0%nat]).
Proof. reflexivity. Qed.

End TransactionProps.

(** ** The retry policy *)

Module RetryProps.
Import Eff ErrorHandler.

Section Loop.
Context {W A : Type}.
Variable fn : W -> outcome A * W.
Variable max initialDelay mult : Z.

Lemma attempts_cons_attempt k (r : outcome A) log :
  attempts (Attempt k r :: log) = 1 + attempts log.
Proof. unfold attempts. cbn [filter is_attempt List.length]. lia. Qed.

Lemma delay_after_next k :
  1 <= k ->
  delay_after initialDelay mult k * mult = delay_after initialDelay mult (k + 1).
Proof.
  intros Hk. unfold delay_after.
  replace (k + 1 - 1) with (Z.succ (k - 1)) by lia.
  rewrite Z.pow_succ_r by lia. ring.
Qed.

(** *** One iteration of the loop, case by case *)

Ltac step :=
  cbn [retry_loop];
  unfold try_catch, bind, call_fn, perform, emit, ret, throw.

Lemma loop_past_max hook fuel k delay lastError w :
  max < k ->
  retry_loop fn max mult hook (S fuel) k delay lastError w
  = (Threw lastError, w, []).
Proof.
  intros Hk. step. destruct (Z.leb_spec k max); [lia | reflexivity].
Qed.

Lemma loop_success hook fuel k delay lastError w v w1 :
  k <= max ->
  fn w = (Returned v, w1) ->
  retry_loop fn max mult hook (S fuel) k delay lastError w
  = (Returned (Some v), w1, [Attempt k (Returned v)]).
Proof.
  intros Hk Hfn. step. destruct (Z.leb_spec k max); [| lia].
  rewrite Hfn. reflexivity.
Qed.

Lemma loop_last_failure hook fuel delay lastError w e w1 :
  fn w = (Threw e, w1) ->
  retry_loop fn max mult hook (S (S fuel)) max delay lastError w
  = (Threw e, w1, [Attempt max (Threw e)]).
Proof.
  intros Hfn. step. rewrite Z.leb_refl, Hfn, Z.ltb_irrefl.
  destruct (Z.leb_spec (max + 1) max); [lia | reflexivity].
Qed.

Lemma loop_hook_threw on_retry fuel k delay lastError w e w1 e' w2 :
  k < max ->
  fn w = (Threw e, w1) ->
  on_retry e k w1 = (Threw e', w2) ->
  retry_loop fn max mult (Some on_retry) (S fuel) k delay lastError w
  = (Threw e', w2, [Attempt k (Threw e); OnRetry e k]).
Proof.
  intros Hk Hfn Hh. step. destruct (Z.leb_spec k max); [| lia].
  rewrite Hfn. destruct (Z.ltb_spec k max); [| lia].
  rewrite Hh. reflexivity.
Qed.

(** A failure before the last attempt: the hook, the message, the warning
    and the sleep, and then the next iteration. *)
Lemma loop_failure_before_max hook fuel k delay lastError w e w1 :
  k < max ->
  fn w = (Threw e, w1) ->
  retry_loop fn max mult hook (S fuel) k delay lastError w
  = match notified hook k e w1 with
    | (Threw hook_error, w2, notice) =>
        (Threw hook_error, w2, Attempt k (Threw e) :: notice)
    | (Returned _, w2, notice) =>
        match Js.message e with
        | inl type_error => (Threw type_error, w2, Attempt k (Threw e) :: notice)
        | inr text =>
            let '(r, w', log) :=
              retry_loop fn max mult hook fuel (k + 1) (delay * mult) e w2 in
            (r, w',
             Attempt k (Threw e)
               :: notice ++ [LoggerWarn (warn_text k delay) text; Sleep delay]
               ++ log)
        end
    end.
Proof.
  intros Hk Hfn. step. unfold message_of, notified, ret, throw.
  destruct (Z.leb_spec k max); [| lia].
  rewrite Hfn. destruct (Z.ltb_spec k max); [| lia].
  destruct hook as [on_retry |].
  - destruct (on_retry e k w1) as [[[] | e'] w2]; [| reflexivity].
    destruct (Js.message e) as [type_error | text]; [reflexivity |].
    destruct (retry_loop fn max mult (Some on_retry) fuel (k + 1)
                (delay * mult) e w2) as [[r w'] log].
    reflexivity.
  - destruct (Js.message e) as [type_error | text]; [reflexivity |].
    destruct (retry_loop fn max mult None fuel (k + 1) (delay * mult) e w1)
      as [[r w'] log].
    reflexivity.
Qed.

Lemma attempts_notice (hook : option (Js.thrown -> Z -> W -> outcome unit * W))
    k e w1 settled w2 notice (log : list (event A)) :
  notified hook k e w1 = (settled, w2, notice) ->
  attempts (notice ++ log) = attempts log.
Proof.
  unfold notified. destruct hook as [on_retry |].
  - destruct (on_retry e k w1) as [s w']. intros [= _ _ <-]. reflexivity.
  - intros [= _ _ <-]. reflexivity.
Qed.

(** From attempt [k] on, with the delay the policy prescribes for [k] and
    fuel for the iterations left, the loop ends, and its run is one the
    policy permits. *)
Lemma retry_loop_runs hook fuel : forall k lastError w,
  1 <= k <= max ->
  (Z.to_nat (max - k) + 2 <= fuel)%nat ->
  exists r w' log,
    retry_loop fn max mult hook fuel k (delay_after initialDelay mult k)
      lastError w = (ended r, w', log)
    /\ retry_run fn max initialDelay mult hook k w log r w'
    /\ 1 <= attempts log <= max - k + 1.
Proof.
  induction fuel as [| fuel IH]; intros k lastError w Hk Hfuel; [lia |].
  destruct (fn w) as [[v | e] w1] eqn:Hfn.
  - exists (Returned v), w1, [Attempt k (Returned v)].
    rewrite (loop_success _ _ _ _ _ _ _ _ (proj2 Hk) Hfn).
    repeat split.
    + constructor; [lia | assumption].
    + rewrite attempts_cons_attempt. cbn. lia.
    + rewrite attempts_cons_attempt. cbn. lia.
  - destruct (Z.eq_dec k max) as [-> | Hne].
    + exists (Threw e), w1, [Attempt max (Threw e)].
      destruct fuel as [| fuel]; [lia |].
      rewrite (loop_last_failure _ _ _ _ _ _ _ Hfn).
      repeat split.
      * constructor. assumption.
      * rewrite attempts_cons_attempt. cbn. lia.
      * rewrite attempts_cons_attempt. cbn. lia.
    + assert (Hlt : k < max) by lia.
      rewrite (loop_failure_before_max hook _ _ _ _ _ _ _ Hlt Hfn).
      destruct (notified hook k e w1) as [[[heard | hook_error] w2] notice]
        eqn:Hh.
      * destruct (Js.message e) as [type_error | text] eqn:Hm.
        -- exists (Threw type_error), w2, (Attempt k (Threw e) :: notice).
           split; [reflexivity |]. split.
           ++ eapply run_no_message; eassumption.
           ++ rewrite attempts_cons_attempt.
              rewrite <- (app_nil_r notice), (attempts_notice _ _ _ _ _ _ _ [] Hh).
              cbn. lia.
        -- rewrite delay_after_next by lia.
           destruct (IH (k + 1) e w2) as (r & w' & log & Hrun & Htr & Hn);
             [lia | lia |].
           rewrite Hrun. eexists r, w', _. split; [reflexivity |]. split.
           ++ eapply run_retry; eassumption.
           ++ rewrite attempts_cons_attempt, (attempts_notice _ _ _ _ _ _ _ _ Hh).
              unfold attempts in *. cbn [filter is_attempt List.length app] in *.
              lia.
      * exists (Threw hook_error), w2, (Attempt k (Threw e) :: notice).
        split; [reflexivity |]. split.
        -- eapply run_hook_threw; eassumption.
        -- rewrite attempts_cons_attempt.
           rewrite <- (app_nil_r notice), (attempts_notice _ _ _ _ _ _ _ [] Hh).
           cbn. lia.
Qed.

End Loop.

(** C3 (amended). With [maxAttempts >= 1], [retry] ends, and its run is one
    the retry policy permits for this [fn]: [fn] is called for attempts 1,
    2, ... in the world the run has reached, at most [maxAttempts] times;
    the first call that returns ends the run with its result; after failing
    attempt [k < maxAttempts] the hook, when given, is called with the error
    and [k], then the message of the error goes into a warning and the run
    sleeps [delayMs * backoffMultiplier ^ (k - 1)]; after attempt
    [maxAttempts] there is neither hook nor sleep, and its error is the one
    thrown. The run ends early, with no further attempt, when the hook
    throws and when the error is [undefined] or [null], whose message cannot
    be read. *)
Theorem retry_follows_policy {W A : Type} (fn : W -> outcome A * W)
    (opts : options W) (w : W) :
  1 <= or_default (maxAttempts opts) 3 ->
  exists r w' log,
    retry fn opts w = (ended r, w', log)
    /\ retry_run fn (or_default (maxAttempts opts) 3)
         (or_default (delayMs opts) 1000)
         (or_default (backoffMultiplier opts) 2)
         (onRetry opts) 1 w log r w'
    /\ 1 <= attempts log <= or_default (maxAttempts opts) 3.
Proof.
  intros Hmax. unfold retry.
  set (max := or_default (maxAttempts opts) 3) in *.
  set (delay := or_default (delayMs opts) 1000).
  set (mult := or_default (backoffMultiplier opts) 2).
  destruct (retry_loop_runs fn max delay mult (onRetry opts)
              (S (Z.to_nat max)) 1 Js.ThrownUndefined w)
    as (r & w' & log & Hrun & Htr & Hn); [lia | lia |].
  replace (delay_after delay mult 1) with delay in Hrun
    by (unfold delay_after; rewrite Z.sub_diag, Z.pow_0_r; lia).
  exists r, w', log. repeat split; [assumption | assumption | lia | lia].
Qed.

Import ErrorHandler.Scenario.

(** The policy at work on an operation that fails twice. *)
Lemma retry_follows_policy_witness :
  exists r w' log,
    retry (flaky 2) (with_attempts 3) 0%nat = (ended r, w', log)
    /\ retry_run (flaky 2) 3 1000 2 None 1 0%nat log r w'
    /\ 1 <= attempts log <= 3.
Proof.
  apply (retry_follows_policy (flaky 2) (with_attempts 3) 0%nat).
  cbn. lia.
Defined.

(** Failing on attempts 1 and 2 and succeeding on attempt 3: with
    [maxAttempts = 3] the result of attempt 3 is returned, after sleeps of
    1000 and 2000 ms. *)
Example retry_third_attempt_succeeds :
  retry (flaky 2) (with_attempts 3) 0%nat
  = (Returned (Some "connected"), 3%nat,
     [Attempt 1 (Threw (refused 1));
      LoggerWarn "Attempt 1 failed, retrying in 1000ms..."
        (Js.JStr "connection refused, call 1");
      Sleep 1000;
      Attempt 2 (Threw (refused 2));
      LoggerWarn "Attempt 2 failed, retrying in 2000ms..."
        (Js.JStr "connection refused, call 2");
      Sleep 2000;
      Attempt 3 (Returned "connected")]).
Proof. vm_compute. reflexivity. Qed.

(** The same operation with [maxAttempts = 2]: the failure of attempt 2 is
    thrown, and nothing follows that attempt. *)
Example retry_two_attempts_exhausted :
  retry (flaky 2) (with_attempts 2) 0%nat
  = (Threw (refused 2), 2%nat,
     [Attempt 1 (Threw (refused 1));
      LoggerWarn "Attempt 1 failed, retrying in 1000ms..."
        (Js.JStr "connection refused, call 1");
      Sleep 1000;
      Attempt 2 (Threw (refused 2))]).
Proof. vm_compute. reflexivity. Qed.

(** C3 as stated fails: an operation rejected with [undefined] is called
    once although three attempts are allowed; no delay is slept, and what
    the caller receives is the TypeError of reading the message, not the
    failure of the operation. *)
Lemma retry_rejection_without_reason :
  rejecting 0%nat = (Threw Js.ThrownUndefined, 1%nat)
  /\ retry rejecting (with_attempts 3) 0%nat
     = (Threw (Js.cannot_read "undefined" "message"), 1%nat,
        [Attempt 1 (Threw Js.ThrownUndefined)])
  /\ Js.cannot_read "undefined" "message" <> Js.ThrownUndefined.
Proof.
  split; [reflexivity | split; [reflexivity | discriminate]].
Qed.

End RetryProps.

(** ** The schema: retention and the active listing *)

Module SchemaProps.
Import Js Schema.

(** *** [delete_where] *)

Lemma delete_where_In {R : Type} (cond : R -> bool) (t : list R) (r : R) :
  In r (delete_where cond t) <-> In r t /\ cond r = false.
Proof.
  unfold delete_where. rewrite filter_In, negb_true_iff. reflexivity.
Qed.

Lemma text_is_true (col : option string) (s : string) :
  text_is col s = true <-> col = Some s.
Proof.
  destruct col as [x |]; cbn.
  - rewrite String.eqb_eq. split; congruence.
  - split; discriminate.
Qed.

Lemma before_true (col : option instant) (bound : instant) :
  before col bound = true <-> exists t, col = Some t /\ t < bound.
Proof.
  destruct col as [t |]; cbn.
  - rewrite Z.ltb_lt. split.
    + intros H. exists t. auto.
    + intros (t' & [= ->] & H). exact H.
  - split; [discriminate | intros (t & H & _); discriminate].
Qed.

Section Retention.
Variable days_before : Z -> instant -> instant.

(** A DELETE by age keeps the rows that are not older than the window. *)
Lemma keep_recent {R : Type} (ts : R -> instant) (days : Z) (now : instant)
    (t : list R) (r : R) :
  In r (delete_where (fun r => ts r <? days_before days now) t) <->
  In r t /\ ~ older_than days_before days now (ts r).
Proof.
  rewrite delete_where_In, Z.ltb_ge. unfold older_than.
  split; intros [Hin H]; (split; [exact Hin | lia]).
Qed.

(** The DELETE on anomalies keeps the rows that are not both resolved and
    resolved long ago. *)
Lemma keep_unresolved (now : instant) (t : list anomaly_row) (r : anomaly_row) :
  In r (delete_where
          (fun r => text_is (status r) "resolved"
                    && before (resolved_at r) (days_before 90 now)) t) <->
  In r t
  /\ ~ (status r = Some "resolved"
        /\ exists t, resolved_at r = Some t
                     /\ older_than days_before 90 now t).
Proof.
  rewrite delete_where_In, <- not_true_iff_false, andb_true_iff.
  rewrite text_is_true, before_true. unfold older_than.
  reflexivity.
Qed.

(** C4. [cleanup_old_data] removes exactly the metric and validator
    snapshots whose timestamp is more than 90 days old, the sentiment
    samples whose timestamp is more than 60 days old, and the anomalies that
    are resolved with a [resolved_at] more than 90 days old; an anomaly
    whose status is not 'resolved' stays, whatever its [detected_at]; whale
    wallets are not touched. The days are those of the server: calendar
    days in the time zone of the session. *)
Theorem cleanup_old_data_retention (now : instant) (db : database) :
  let db' := cleanup_old_data days_before now db in
  let older_than := older_than days_before in
  (forall r, In r (time_series_data db') <->
     In r (time_series_data db) /\ ~ older_than 90 now (ts_timestamp r))
  /\ (forall r, In r (validator_metrics db') <->
        In r (validator_metrics db) /\ ~ older_than 90 now (vm_timestamp r))
  /\ (forall r, In r (twitter_sentiment db') <->
        In r (twitter_sentiment db) /\ ~ older_than 60 now (tw_timestamp r))
  /\ (forall r, In r (anomalies db') <->
        In r (anomalies db)
        /\ ~ (status r = Some "resolved"
              /\ exists t, resolved_at r = Some t /\ older_than 90 now t))
  /\ (forall r, In r (anomalies db) -> status r <> Some "resolved" ->
        In r (anomalies db'))
  /\ whale_wallets db' = whale_wallets db.
Proof.
  cbn zeta. cbn [cleanup_old_data time_series_data validator_metrics
                   twitter_sentiment anomalies whale_wallets].
  split; [intros r; apply keep_recent |].
  split; [intros r; apply keep_recent |].
  split; [intros r; apply keep_recent |].
  split; [intros r; apply keep_unresolved |].
  split; [| reflexivity].
  intros r Hin Hs. apply keep_unresolved. split; [exact Hin |].
  intros [Hr _]. contradiction.
Qed.

End Retention.

(** *** [order_by] sorts *)

Section OrderBy.
Context {R : Type}.
Variable leb : R -> R -> bool.
Hypothesis leb_total : forall a b, leb a b = false -> leb b a = true.
Hypothesis leb_trans :
  forall a b c, leb a b = true -> leb b c = true -> leb a c = true.

Lemma insert_sorted_perm (x : R) (l : list R) :
  Permutation (insert_sorted leb x l) (x :: l).
Proof.
  induction l as [| y rest IH]; cbn [insert_sorted].
  - reflexivity.
  - destruct (leb x y); [reflexivity |].
    rewrite IH. apply perm_swap.
Qed.

Lemma order_by_perm (l : list R) : Permutation (order_by leb l) l.
Proof.
  induction l as [| x rest IH]; cbn [order_by].
  - reflexivity.
  - rewrite insert_sorted_perm. apply perm_skip, IH.
Qed.

Lemma insert_sorted_sorted (x : R) (l : list R) :
  StronglySorted (fun a b => leb a b = true) l ->
  StronglySorted (fun a b => leb a b = true) (insert_sorted leb x l).
Proof.
  induction 1 as [| y rest Hsorted IH Hy]; cbn [insert_sorted].
  - constructor; constructor.
  - destruct (leb x y) eqn:Hxy.
    + constructor.
      * constructor; assumption.
      * constructor; [exact Hxy |].
        eapply Forall_impl; [| exact Hy].
        intros z Hyz. exact (leb_trans _ _ _ Hxy Hyz).
    + constructor; [exact IH |].
      eapply Permutation_Forall.
      * symmetry. apply insert_sorted_perm.
      * constructor; [apply leb_total, Hxy | exact Hy].
Qed.

Lemma order_by_sorted (l : list R) :
  StronglySorted (fun a b => leb a b = true) (order_by leb l).
Proof.
  induction l as [| x rest IH]; cbn [order_by].
  - constructor.
  - apply insert_sorted_sorted, IH.
Qed.

End OrderBy.

Lemma strongly_sorted_weaken {R : Type} (P Q : R -> R -> Prop) (l : list R) :
  (forall a b, P a b -> Q a b) -> StronglySorted P l -> StronglySorted Q l.
Proof.
  intros HPQ. induction 1 as [| x rest _ IH Hx]; constructor.
  - exact IH.
  - eapply Forall_impl; [| exact Hx]. intros b. apply HPQ.
Qed.

(** *** The order of the active listing *)

Lemma active_order_precedes (a b : active_anomaly) :
  active_order a b = true <-> precedes a b.
Proof.
  unfold active_order, precedes.
  destruct (severity_rank (aa_severity a)) as [x |],
           (severity_rank (aa_severity b)) as [y |];
    cbn [rank_ltb rank_eqb];
    rewrite ?orb_true_iff, ?andb_true_iff, ?Z.ltb_lt, ?Z.eqb_eq, ?Z.leb_le;
    intuition (discriminate || auto).
Qed.

Lemma active_order_total (a b : active_anomaly) :
  active_order a b = false -> active_order b a = true.
Proof.
  intros H. apply active_order_precedes.
  apply not_true_iff_false in H. rewrite active_order_precedes in H.
  unfold precedes in *.
  destruct (severity_rank (aa_severity a)) as [x |],
           (severity_rank (aa_severity b)) as [y |]; try tauto; lia.
Qed.

Lemma active_order_trans (a b c : active_anomaly) :
  active_order a b = true -> active_order b c = true ->
  active_order a c = true.
Proof.
  rewrite !active_order_precedes. unfold precedes.
  destruct (severity_rank (aa_severity a)) as [x |],
           (severity_rank (aa_severity b)) as [y |],
           (severity_rank (aa_severity c)) as [z |]; try tauto; lia.
Qed.

(** C5. The active listing holds exactly the rows whose status is 'active'
    (in the columns of the view), ordered by severity rank, CRITICAL, HIGH,
    MEDIUM, LOW, and within one severity by [detected_at], newest first. *)
Theorem active_anomalies_listing (t : list anomaly_row) :
  Permutation (active_anomalies t)
    (map select_active_columns (filter is_active t))
  /\ (forall r, In r (filter is_active t) <->
                In r t /\ status r = Some "active")
  /\ StronglySorted precedes (active_anomalies t)
  /\ severity_rank "CRITICAL" = Some 1 /\ severity_rank "HIGH" = Some 2
  /\ severity_rank "MEDIUM" = Some 3 /\ severity_rank "LOW" = Some 4.
Proof.
  unfold active_anomalies. split; [apply order_by_perm |].
  split.
  - intros r. rewrite filter_In. unfold is_active. rewrite text_is_true.
    reflexivity.
  - split; [| repeat split].
    eapply strongly_sorted_weaken.
    + intros a b. apply active_order_precedes.
    + apply order_by_sorted.
      * exact active_order_total.
      * exact active_order_trans.
Qed.

Import Schema.Scenario.

(** Severities LOW, CRITICAL, HIGH, CRITICAL detected on days 1 to 4, and a
    resolved row: both CRITICAL rows come first, the newer one ahead, then
    HIGH, then LOW. *)
Example active_anomalies_by_urgency :
  map aa_id
    (active_anomalies
       [anomaly 1 (1 * day) "LOW" (Some "active") None;
        anomaly 2 (2 * day) "CRITICAL" (Some "active") None;
        anomaly 3 (3 * day) "HIGH" (Some "active") None;
        anomaly 4 (4 * day) "CRITICAL" (Some "active") None;
        anomaly 5 (5 * day) "CRITICAL" (Some "resolved") (Some (6 * day))])
  = [4; 2; 3; 1].
Proof. vm_compute. reflexivity. Qed.

(** In a session in UTC. Resolved 91 days ago: deleted. Resolved 89 days
    ago: kept. Detected 200 days ago and still active, or marked false
    positive: kept. *)
Example cleanup_at_the_boundary :
  map an_id
    (anomalies
       (cleanup_old_data utc_days_before now
          (only_anomalies
             [anomaly 1 (now - 100 * day) "LOW" (Some "resolved")
                (Some (now - 91 * day));
              anomaly 2 (now - 100 * day) "LOW" (Some "resolved")
                (Some (now - 89 * day));
              anomaly 3 (now - 200 * day) "HIGH" (Some "active") None;
              anomaly 4 (now - 200 * day) "LOW" (Some "false_positive") None])))
  = [2; 3; 4].
Proof. vm_compute. reflexivity. Qed.

(** An anomaly resolved 90 days and 30 minutes ago goes in a session in
    UTC and stays in a session whose 90 calendar days span the end of
    summer time. *)
Example cleanup_across_a_clock_change :
  let resolved_at := now - 90 * day - 1800000 in
  map an_id
    (anomalies
       (cleanup_old_data utc_days_before now
          (only_anomalies
             [anomaly 1 (now - 100 * day) "LOW" (Some "resolved")
                (Some resolved_at)])))
  = []
  /\ map an_id
       (anomalies
          (cleanup_old_data winter_days_before now
             (only_anomalies
                [anomaly 1 (now - 100 * day) "LOW" (Some "resolved")
                   (Some resolved_at)])))
     = [1].
Proof. vm_compute. split; reflexivity. Qed.

End SchemaProps.


(** ** The repository functions *)

Module QueriesProps.
Import Js Queries.

(** *** INSERT ... ON CONFLICT on a table with a unique key *)

Section Upsert.
Context {R K : Type}.
Variable key : R -> K.
Variable same : R -> R -> bool.
Variable upd : R -> R -> R.
Hypothesis same_key : forall ex r, same ex r = true <-> key r = key ex.
Hypothesis upd_key : forall r ex, key (upd r ex) = key r.

Lemma same_false ex r : same ex r = false <-> key r <> key ex.
Proof. rewrite <- not_true_iff_false, same_key. reflexivity. Qed.

Lemma no_conflict ex t :
  (forall r, In r t -> key r <> key ex) -> existsb (same ex) t = false.
Proof.
  intros H. apply not_true_iff_false. rewrite existsb_exists.
  intros (r & Hin & Hs). apply same_key in Hs. exact (H r Hin Hs).
Qed.

(** No row has the key: the proposed row is appended. *)
Lemma insert_fresh ex t :
  (forall r, In r t -> key r <> key ex) ->
  insert_on_conflict same upd ex t = t ++ [ex].
Proof.
  intros H. unfold insert_on_conflict. rewrite (no_conflict ex t H).
  reflexivity.
Qed.

Lemma update_misses ex t :
  (forall r, In r t -> key r <> key ex) ->
  map (fun r => if same ex r then upd r ex else r) t = t.
Proof.
  induction t as [| r rest IH]; intros H; cbn [map]; [reflexivity |].
  rewrite IH by (intros; apply H; right; assumption).
  replace (same ex r) with false; [reflexivity |].
  symmetry. apply same_false, H. left. reflexivity.
Qed.

(** The last row has the key and no other has: it alone is updated. *)
Lemma insert_conflict_last ex t r :
  (forall r', In r' t -> key r' <> key ex) ->
  key r = key ex ->
  insert_on_conflict same upd ex (t ++ [r]) = t ++ [upd r ex].
Proof.
  intros H Hr. unfold insert_on_conflict.
  assert (Hs : same ex r = true) by (apply same_key, Hr).
  rewrite existsb_app. cbn [existsb]. rewrite Hs, orb_true_r.
  rewrite map_app, (update_misses ex t H). cbn [map]. rewrite Hs.
  reflexivity.
Qed.

(** One row has the key, wherever it stands: it alone is updated. *)
Lemma insert_conflict_at ex before r after :
  (forall r', In r' before -> key r' <> key ex) ->
  (forall r', In r' after -> key r' <> key ex) ->
  key r = key ex ->
  insert_on_conflict same upd ex (before ++ r :: after)
  = before ++ upd r ex :: after.
Proof.
  intros Hb Ha Hr. unfold insert_on_conflict.
  assert (Hs : same ex r = true) by (apply same_key, Hr).
  rewrite existsb_app. cbn [existsb]. rewrite Hs. cbn [orb].
  rewrite orb_true_r.
  rewrite map_app. cbn [map].
  rewrite (update_misses ex before Hb), (update_misses ex after Ha), Hs.
  reflexivity.
Qed.

Lemma insert_on_conflict_keys ex t :
  existsb (same ex) t = true ->
  map key (insert_on_conflict same upd ex t) = map key t.
Proof.
  intros He. unfold insert_on_conflict. rewrite He, map_map.
  apply map_ext. intros r. destruct (same ex r); [apply upd_key | reflexivity].
Qed.

(** The unique key stays unique. *)
Lemma insert_on_conflict_unique ex t :
  NoDup (map key t) -> NoDup (map key (insert_on_conflict same upd ex t)).
Proof.
  intros Hnd. destruct (existsb (same ex) t) eqn:He.
  - rewrite insert_on_conflict_keys by exact He. exact Hnd.
  - unfold insert_on_conflict. rewrite He, map_app. cbn [map].
    apply (Permutation_NoDup (Permutation_cons_append _ _)).
    constructor; [| exact Hnd].
    rewrite in_map_iff. intros (r & Hk & Hin).
    apply not_true_iff_false in He. apply He, existsb_exists.
    exists r. split; [exact Hin | apply same_key, Hk].
Qed.

Lemma select_misses ex t :
  (forall r, In r t -> key r <> key ex) -> filter (same ex) t = [].
Proof.
  induction t as [| r rest IH]; intros H; cbn [filter]; [reflexivity |].
  replace (same ex r) with false
    by (symmetry; apply same_false, H; left; reflexivity).
  apply IH. intros r' Hin. apply H. right. exact Hin.
Qed.

Lemma update_hits ex t :
  NoDup (map key t) ->
  existsb (same ex) t = true ->
  exists r0, In r0 t /\ key r0 = key ex
    /\ filter (same ex) (map (fun r => if same ex r then upd r ex else r) t)
       = [upd r0 ex].
Proof.
  induction t as [| r rest IH]; intros Hnd He; [discriminate |].
  cbn [map] in Hnd. apply NoDup_cons_iff in Hnd. destruct Hnd as [Hr Hnd].
  cbn [map filter]. destruct (same ex r) eqn:Hs.
  - apply same_key in Hs.
    assert (Hrest : forall r', In r' rest -> key r' <> key ex).
    { intros r' Hin Hk. apply Hr. rewrite Hs, <- Hk. apply in_map, Hin. }
    exists r. split; [left; reflexivity |]. split; [exact Hs |].
    replace (same ex (upd r ex)) with true
      by (symmetry; apply same_key; rewrite upd_key; exact Hs).
    rewrite (update_misses ex rest Hrest), (select_misses ex rest Hrest).
    reflexivity.
  - cbn [existsb] in He. rewrite Hs in He. cbn [orb] in He.
    destruct (IH Hnd He) as (r0 & Hin & Hk & Hf).
    exists r0. split; [right; exact Hin |]. split; [exact Hk |].
    rewrite Hs. exact Hf.
Qed.

(** After the statement one row has the key of the proposed row: the
    proposed row itself, or the row that had the key, updated. *)
Lemma insert_on_conflict_one ex t :
  NoDup (map key t) ->
  exists r, filter (same ex) (insert_on_conflict same upd ex t) = [r]
    /\ (r = ex \/ exists r0, In r0 t /\ key r0 = key ex /\ r = upd r0 ex).
Proof.
  intros Hnd. unfold insert_on_conflict.
  destruct (existsb (same ex) t) eqn:He.
  - destruct (update_hits ex t Hnd He) as (r0 & Hin & Hk & Hf).
    exists (upd r0 ex). split; [exact Hf |]. right. exists r0. auto.
  - exists ex. split; [| left; reflexivity].
    rewrite filter_app, select_misses.
    + cbn [filter app].
      replace (same ex ex) with true
        by (symmetry; apply same_key; reflexivity).
      reflexivity.
    + intros r Hin Hk. apply not_true_iff_false in He. apply He.
      apply existsb_exists. exists r. split; [exact Hin | apply same_key, Hk].
Qed.

End Upsert.

Lemma same_timestamp_key (ex r : Schema.time_series_row) :
  same_timestamp ex r = true <-> Schema.ts_timestamp r = Schema.ts_timestamp ex.
Proof. unfold same_timestamp. apply Z.eqb_eq. Qed.

Lemma same_address_key (ex r : Schema.whale_wallet_row) :
  same_address ex r = true <-> Schema.address r = Schema.address ex.
Proof. unfold same_address. apply String.eqb_eq. Qed.

Lemma find_last {R : Type} (f : R -> bool) (t : list R) (x : R) :
  (forall r, In r t -> f r = false) -> f x = true ->
  find f (t ++ [x]) = Some x.
Proof.
  intros H Hx. induction t as [| r rest IH]; cbn [app find].
  - rewrite Hx. reflexivity.
  - rewrite (H r) by (left; reflexivity).
    apply IH. intros r' Hin. apply H. right. exact Hin.
Qed.

Lemma find_at {R : Type} (f : R -> bool) (before after : list R) (x : R) :
  (forall r, In r before -> f r = false) -> f x = true ->
  find f (before ++ x :: after) = Some x.
Proof.
  intros H Hx. induction before as [| r rest IH]; cbn [app find].
  - rewrite Hx. reflexivity.
  - rewrite (H r) by (left; reflexivity).
    apply IH. intros r' Hin. apply H. right. exact Hin.
Qed.

Lemma filter_none {R : Type} (f : R -> bool) (t : list R) :
  (forall r, In r t -> f r = false) -> filter f t = [].
Proof.
  intros H. induction t as [| r rest IH]; cbn [filter]; [reflexivity |].
  rewrite (H r) by (left; reflexivity).
  apply IH. intros r' Hin. apply H. right. exact Hin.
Qed.

Lemma filter_last {R : Type} (f : R -> bool) (t : list R) (x : R) :
  (forall r, In r t -> f r = false) -> f x = true ->
  filter f (t ++ [x]) = [x].
Proof.
  intros H Hx. rewrite filter_app. cbn [filter]. rewrite Hx.
  rewrite (filter_none f t H). reflexivity.
Qed.

Lemma filter_at {R : Type} (f : R -> bool) (before after : list R) (x : R) :
  (forall r, In r before -> f r = false) ->
  (forall r, In r after -> f r = false) -> f x = true ->
  filter f (before ++ x :: after) = [x].
Proof.
  intros Hb Ha Hx. rewrite filter_app. cbn [filter]. rewrite Hx.
  rewrite (filter_none f before Hb), (filter_none f after Ha). reflexivity.
Qed.

(** *** The checks before an insert *)

(** A checked insert that completes has passed the checks and is the plain
    statement. *)
Lemma insert_checked_done {R : Type} (id : R -> Z) (fits : R -> bool)
    (same : R -> R -> bool) (upd : R -> R -> R) (ex : R) (t t' : list R) :
  insert_checked id fits same upd ex t = Done t' ->
  t' = insert_on_conflict same upd ex t
  /\ Schema.in_serial (id ex) = true
  /\ fits ex = true
  /\ (existsb (same ex) t = false -> forall r, In r t -> id r <> id ex).
Proof.
  unfold insert_checked.
  destruct (Schema.in_serial (id ex)); [| discriminate].
  destruct (fits ex); [| discriminate]. cbn [negb].
  destruct (existsb (same ex) t) eqn:He; cbn [negb andb].
  - intros [= <-]. repeat split. discriminate.
  - destruct (existsb (fun r => id r =? id ex) t) eqn:Hid; [discriminate |].
    intros [= <-]. repeat split. intros _ r Hin Heq.
    apply not_true_iff_false in Hid. apply Hid, existsb_exists.
    exists r. split; [exact Hin | apply Z.eqb_eq, Heq].
Qed.

(** The other way round: a proposed row that passes the checks is
    inserted or merged. *)
Lemma insert_checked_passes {R : Type} (id : R -> Z) (fits : R -> bool)
    (same : R -> R -> bool) (upd : R -> R -> R) (ex : R) (t : list R) :
  Schema.in_serial (id ex) = true ->
  fits ex = true ->
  (existsb (same ex) t = true \/ forall r, In r t -> id r <> id ex) ->
  insert_checked id fits same upd ex t
  = Done (insert_on_conflict same upd ex t).
Proof.
  intros Hs Hf Hk. unfold insert_checked. rewrite Hs, Hf. cbn [negb].
  destruct Hk as [He | Hid].
  - rewrite He. reflexivity.
  - replace (existsb (fun r => id r =? id ex) t) with false.
    + rewrite andb_false_r. reflexivity.
    + symmetry. apply not_true_iff_false. rewrite existsb_exists.
      intros (r & Hin & Heq). apply Z.eqb_eq in Heq. exact (Hid r Hin Heq).
Qed.

Lemma insertTimeSeriesData_done now nextval data t t' returned :
  insertTimeSeriesData now nextval data t = Done (t', returned) ->
  let excluded := time_series_values now nextval data in
  t' = insert_on_conflict same_timestamp time_series_do_update excluded t
  /\ returned
     = option_map (fun r => (Schema.ts_id r, Schema.ts_timestamp r))
         (find (same_timestamp excluded) t')
  /\ Schema.in_serial nextval = true
  /\ Schema.time_series_fits excluded = true.
Proof.
  unfold insertTimeSeriesData. cbv zeta.
  destruct (insert_checked Schema.ts_id Schema.time_series_fits same_timestamp
              time_series_do_update (time_series_values now nextval data) t)
    as [t0 | m] eqn:Hc; [| discriminate].
  intros [= <- <-].
  destruct (insert_checked_done _ _ _ _ _ _ _ Hc) as (-> & Hs & Hf & _).
  repeat split; assumption.
Qed.

Lemma upsertWhaleWallet_done now nextval data t t' returned :
  upsertWhaleWallet now nextval data t = Done (t', returned) ->
  let excluded := whale_values now nextval data in
  t' = insert_on_conflict same_address (whale_do_update now) excluded t
  /\ returned
     = option_map (fun r => (Schema.ww_id r, Schema.address r))
         (find (same_address excluded) t')
  /\ Schema.in_serial nextval = true
  /\ Schema.whale_wallet_fits excluded = true.
Proof.
  unfold upsertWhaleWallet. cbv zeta.
  destruct (insert_checked Schema.ww_id Schema.whale_wallet_fits same_address
              (whale_do_update now) (whale_values now nextval data) t)
    as [t0 | m] eqn:Hc; [| discriminate].
  intros [= <- <-].
  destruct (insert_checked_done _ _ _ _ _ _ _ Hc) as (-> & Hs & Hf & _).
  repeat split; assumption.
Qed.

(** *** Time series *)

(** C2. A snapshot for timestamp [T] inserted into a table that had no row
    for [T] adds one row for [T]. When a second snapshot for [T] is
    inserted later, into a table that holds that row, wherever it stands,
    and no other row for [T], the table still has one row for [T], in the
    same place: [tvl_usd], [tvl_eth], [unique_stakers] and
    [collection_status] are those bound by the second insert, the id and
    every other column those of the first; the other rows are as they
    were, and both inserts return the id of the first. *)
Theorem insertTimeSeriesData_twice (now1 now2 id1 id2 : Z)
    (d1 d2 : MetricSnapshot) (T : Schema.instant)
    (t t1 before after t2 : list Schema.time_series_row)
    (returned1 returned2 : option (Z * Schema.instant)) :
  timestamp d1 = Some T ->
  timestamp d2 = Some T ->
  (forall r, In r t -> Schema.ts_timestamp r <> T) ->
  insertTimeSeriesData now1 id1 d1 t = Done (t1, returned1) ->
  (forall r, In r before -> Schema.ts_timestamp r <> T) ->
  (forall r, In r after -> Schema.ts_timestamp r <> T) ->
  insertTimeSeriesData now2 id2 d2
    (before ++ time_series_values now1 id1 d1 :: after)
  = Done (t2, returned2) ->
  let row := {|
    Schema.ts_id := id1;
    Schema.ts_timestamp := T;
    Schema.tvl_usd := prepare (tvl_usd d2);
    Schema.tvl_eth := prepare (tvl_eth d2);
    Schema.tvl_change_percent := prepare (tvl_change_percent d1);
    Schema.unique_stakers := prepare (unique_stakers d2);
    Schema.new_stakers_24h := prepare (new_stakers_24h d1);
    Schema.deposit_count_24h := prepare (deposit_count_24h d1);
    Schema.withdrawal_count_24h := prepare (withdrawal_count_24h d1);
    Schema.total_volume_eth_24h := prepare (total_volume_eth_24h d1);
    Schema.avg_transaction_size_eth := prepare (avg_transaction_size_eth d1);
    Schema.withdrawal_queue_size := prepare (withdrawal_queue_size d1);
    Schema.withdrawal_queue_eth := prepare (withdrawal_queue_eth d1);
    Schema.avg_withdrawal_wait_time_hours :=
      prepare (avg_withdrawal_wait_time_hours d1);
    Schema.eeth_eth_price_ratio := prepare (eeth_eth_price_ratio d1);
    Schema.peg_deviation_percent := prepare (peg_deviation_percent d1);
    Schema.avg_gas_price_gwei := prepare (avg_gas_price_gwei d1);
    Schema.median_gas_price_gwei := prepare (median_gas_price_gwei d1);
    Schema.ts_total_validators := prepare (total_validators d1);
    Schema.ts_active_validators := prepare (active_validators d1);
    Schema.data_source :=
      prepare (or_else (data_source d1) (JStr "blockchain"));
    Schema.collection_status :=
      prepare (or_else (collection_status d2) (JStr "success"));
    Schema.error_message := prepare (or_else (error_message d1) JNull)
  |} in
  t1 = t ++ [time_series_values now1 id1 d1]
  /\ filter (fun r => Schema.ts_timestamp r =? T) t1
     = [time_series_values now1 id1 d1]
  /\ returned1 = Some (id1, T)
  /\ t2 = before ++ row :: after
  /\ filter (fun r => Schema.ts_timestamp r =? T) t2 = [row]
  /\ returned2 = Some (id1, T)
  /\ Schema.time_series_fits row = true.
Proof.
  intros H1 H2 Ht Hi1 Hb Ha Hi2.
  apply insertTimeSeriesData_done in Hi1. apply insertTimeSeriesData_done in Hi2.
  cbv zeta in Hi1, Hi2.
  set (ex1 := time_series_values now1 id1 d1) in *.
  set (ex2 := time_series_values now2 id2 d2) in *.
  destruct Hi1 as (Ht1 & Hr1 & _ & Hf1). destruct Hi2 as (Ht2 & Hr2 & _ & Hf2).
  assert (K1 : Schema.ts_timestamp ex1 = T)
    by (unfold ex1; cbn; rewrite H1; reflexivity).
  assert (K2 : Schema.ts_timestamp ex2 = T)
    by (unfold ex2; cbn; rewrite H2; reflexivity).
  assert (Hmiss : forall ex, Schema.ts_timestamp ex = T ->
            forall l, (forall r, In r l -> Schema.ts_timestamp r <> T) ->
            forall r, In r l -> same_timestamp ex r = false).
  { intros ex Hex l Hl r Hin. unfold same_timestamp. rewrite Hex.
    apply Z.eqb_neq, Hl, Hin. }
  assert (Hother : forall l, (forall r, In r l -> Schema.ts_timestamp r <> T) ->
            forall r, In r l -> (Schema.ts_timestamp r =? T) = false).
  { intros l Hl r Hin. apply Z.eqb_neq, Hl, Hin. }
  rewrite (insert_fresh Schema.ts_timestamp same_timestamp
             time_series_do_update same_timestamp_key ex1 t) in Ht1
    by (rewrite K1; exact Ht).
  rewrite (insert_conflict_at Schema.ts_timestamp same_timestamp
             time_series_do_update same_timestamp_key ex2 before ex1 after)
    in Ht2
    by (rewrite K2; first [exact Hb | exact Ha | exact K1]).
  assert (Hrow : time_series_do_update ex1 ex2
                 = {| Schema.ts_id := id1;
    Schema.ts_timestamp := T;
    Schema.tvl_usd := prepare (tvl_usd d2);
    Schema.tvl_eth := prepare (tvl_eth d2);
    Schema.tvl_change_percent := prepare (tvl_change_percent d1);
    Schema.unique_stakers := prepare (unique_stakers d2);
    Schema.new_stakers_24h := prepare (new_stakers_24h d1);
    Schema.deposit_count_24h := prepare (deposit_count_24h d1);
    Schema.withdrawal_count_24h := prepare (withdrawal_count_24h d1);
    Schema.total_volume_eth_24h := prepare (total_volume_eth_24h d1);
    Schema.avg_transaction_size_eth := prepare (avg_transaction_size_eth d1);
    Schema.withdrawal_queue_size := prepare (withdrawal_queue_size d1);
    Schema.withdrawal_queue_eth := prepare (withdrawal_queue_eth d1);
    Schema.avg_withdrawal_wait_time_hours :=
      prepare (avg_withdrawal_wait_time_hours d1);
    Schema.eeth_eth_price_ratio := prepare (eeth_eth_price_ratio d1);
    Schema.peg_deviation_percent := prepare (peg_deviation_percent d1);
    Schema.avg_gas_price_gwei := prepare (avg_gas_price_gwei d1);
    Schema.median_gas_price_gwei := prepare (median_gas_price_gwei d1);
    Schema.ts_total_validators := prepare (total_validators d1);
    Schema.ts_active_validators := prepare (active_validators d1);
    Schema.data_source :=
      prepare (or_else (data_source d1) (JStr "blockchain"));
    Schema.collection_status :=
      prepare (or_else (collection_status d2) (JStr "success"));
    Schema.error_message := prepare (or_else (error_message d1) JNull) |}).
  { unfold time_series_do_update. rewrite K1. reflexivity. }
  assert (Hfits : Schema.time_series_fits (time_series_do_update ex1 ex2) = true).
  { unfold Schema.time_series_fits in Hf1, Hf2 |- *.
    unfold time_series_do_update.
    cbn [Schema.tvl_usd Schema.tvl_eth Schema.tvl_change_percent
         Schema.unique_stakers Schema.new_stakers_24h Schema.deposit_count_24h
         Schema.withdrawal_count_24h Schema.total_volume_eth_24h
         Schema.avg_transaction_size_eth Schema.withdrawal_queue_size
         Schema.withdrawal_queue_eth Schema.avg_withdrawal_wait_time_hours
         Schema.eeth_eth_price_ratio Schema.peg_deviation_percent
         Schema.avg_gas_price_gwei Schema.median_gas_price_gwei
         Schema.ts_total_validators Schema.ts_active_validators
         Schema.data_source Schema.collection_status Schema.error_message].
    repeat (apply andb_prop in Hf1; destruct Hf1 as [Hf1 ?]).
    repeat (apply andb_prop in Hf2; destruct Hf2 as [Hf2 ?]).
    repeat (apply andb_true_intro; split); assumption. }
  assert (Hsame1 : same_timestamp ex1 ex1 = true)
    by (apply same_timestamp_key; reflexivity).
  assert (Hsame2 : same_timestamp ex2 (time_series_do_update ex1 ex2) = true)
    by (apply same_timestamp_key; rewrite K2; unfold time_series_do_update;
        cbn [Schema.ts_timestamp]; exact K1).
  rewrite Hrow in Ht2, Hsame2, Hfits. cbv zeta.
  subst t1 t2.
  rewrite (find_last _ t ex1 (Hmiss ex1 K1 t Ht) Hsame1) in Hr1.
  rewrite (find_at _ before after _ (Hmiss ex2 K2 before Hb) Hsame2) in Hr2.
  cbn [option_map Schema.ts_id Schema.ts_timestamp] in Hr1, Hr2.
  rewrite K1 in Hr1.
  split; [reflexivity |]. split.
  { apply filter_last; [exact (Hother t Ht) |]. rewrite K1. apply Z.eqb_refl. }
  split; [exact Hr1 |]. split; [reflexivity |]. split.
  { apply filter_at; [exact (Hother before Hb) | exact (Hother after Ha) |].
    cbn. apply Z.eqb_refl. }
  split; [exact Hr2 | exact Hfits].
Qed.

Import Queries.Scenario.

(** Re-ingesting a cycle after the next cycle has been stored: the row of
    the re-ingested cycle stays between the placeholder and the later
    cycle, with the TVL, the stakers and the status of the second pass, and
    the queue size and the data source of the first. *)
Lemma insertTimeSeriesData_twice_witness :
  exists t2 returned2,
    insertTimeSeriesData 6 12 second_pass
      ([placeholder] ++ time_series_values 5 10 first_pass :: [next_cycle])
    = Done (t2, returned2)
    /\ map (fun r => (Schema.ts_id r, Schema.tvl_usd r, Schema.tvl_eth r,
                      Schema.unique_stakers r, Schema.collection_status r,
                      Schema.withdrawal_queue_size r, Schema.data_source r)) t2
       = [(1, JNum 0, JNum 0, JNum 0, JStr "initial", JNull, JStr "blockchain");
          (10, JNum 1250000, JNum 510, JNum 101, JStr "success", JNum 7,
           JStr "rpc-fallback");
          (11, JNum 1260000, JNum 512, JNum 102, JStr "success", JNull,
           JStr "blockchain")]
    /\ returned2 = Some (10, cycle).
Proof.
  assert (Hfresh : forall r, In r [placeholder] -> Schema.ts_timestamp r <> cycle).
  { intros r [<- | []]. discriminate. }
  assert (Hafter : forall r, In r [next_cycle] -> Schema.ts_timestamp r <> cycle).
  { intros r [<- | []]. discriminate. }
  eexists _, _. split; [reflexivity |].
  destruct (insertTimeSeriesData_twice 5 6 10 12 first_pass second_pass cycle
              [placeholder] _ [placeholder] [next_cycle] _ _ _
              eq_refl eq_refl Hfresh eq_refl Hfresh Hafter eq_refl)
    as (_ & _ & _ & Ht2 & _ & Hr2 & _).
  split; [reflexivity | exact Hr2].
Defined.

(** A second pass that reports more stakers than INTEGER holds: the server
    refuses the statement, and the row of the first pass stays as it is. *)
Example insertTimeSeriesData_out_of_range :
  is_rejected
    (insertTimeSeriesData 6 12
       (snapshot cycle 1250000 510 2147483648 (JNum 9) JUndefined JUndefined)
       [placeholder; time_series_values 5 10 first_pass])
  = true.
Proof. reflexivity. Qed.

(** *** Whale wallets *)






(** The same series, row by row: ids and first sightings stay, the balance
    of 24 hours before is still the one of the first upsert. *)
Example upsertWhaleWallet_series :
  match
    upsertWhaleWallet_each
      [(100, 1, whale binance14 5000 10 1);
       (200, 2, whale liquidity_pool 9000 0 1);
       (300, 3, whale binance14 4000 (-1000) 2)] []
  with
  | Done t' =>
      map (fun r => (Schema.ww_id r, Schema.first_seen r, Schema.last_updated r,
                     Schema.current_balance_eeth r, Schema.balance_24h_ago r,
                     Schema.rank_position r)) t'
      = [(1, 100, 300, JNum 4000, JNum 4990, JNum 2);
         (2, 200, 200, JNum 9000, JNum 9000, JNum 1)]
  | Rejected _ => False
  end.
Proof. vm_compute. reflexivity. Qed.

(** A rank beyond INTEGER: the server refuses the upsert. *)
Example upsertWhaleWallet_rank_out_of_range :
  is_rejected
    (upsertWhaleWallet 300 3 (whale binance14 4000 (-1000) 2147483648) [])
  = true.
Proof. reflexivity. Qed.

(** *** Statements built from the arguments *)

(** Whatever truthy value arrives as [limit] is written into the text after
    ToString, and nothing is bound. *)
Lemma getTimeSeriesData_interpolates (hours limit : jsval) :
  hours <> JUndefined ->
  truthy limit = true ->
  getTimeSeriesData hours limit =
    {| text := ("
    SELECT * FROM time_series_data
    WHERE timestamp >= NOW() - INTERVAL '" ++ to_string hours ++ " hours'
    ORDER BY timestamp DESC
    LIMIT " ++ to_string limit ++ "
  ")%string;
       values := [] |}.
Proof.
  intros Hh Hl. unfold getTimeSeriesData.
  assert (Hd : default_arg limit JNull = limit)
    by (destruct limit; try reflexivity; discriminate).
  assert (Hd' : default_arg hours (JNum 24) = hours)
    by (destruct hours; try reflexivity; contradiction).
  rewrite Hd, Hd', Hl. reflexivity.
Qed.

(** C6, at the input [getTimeSeriesData(24, -1)]: the limit, which is not a
    positive integer, is written into the statement text as it is and no
    parameter is bound, while [getTopWhales(-1)] leaves its text alone and
    binds the limit as [$1]. *)
Theorem getTimeSeriesData_limit_not_validated :
  getTimeSeriesData (JNum 24) (JNum (-1)) =
    {| text := "
    SELECT * FROM time_series_data
    WHERE timestamp >= NOW() - INTERVAL '24 hours'
    ORDER BY timestamp DESC
    LIMIT -1
  ";
       values := [] |}
  /\ getTopWhales (JNum (-1)) =
    {| text := "
    SELECT * FROM whale_wallets
    ORDER BY current_balance_eeth DESC
    LIMIT $1
  ";
       values := [JNum (-1)] |}.
Proof. split; reflexivity. Qed.

(** A limit that arrives as text brings its own SQL along. *)
Example getTimeSeriesData_limit_as_text :
  getTimeSeriesData JUndefined (JStr "1; DROP TABLE anomalies") =
    {| text := "
    SELECT * FROM time_series_data
    WHERE timestamp >= NOW() - INTERVAL '24 hours'
    ORDER BY timestamp DESC
    LIMIT 1; DROP TABLE anomalies
  ";
       values := [] |}.
Proof. reflexivity. Qed.

(** The time window of [getSentimentStats] is interpolated the same way. *)
Example getSentimentStats_hours_as_text :
  getSentimentStats (JStr "0 hours' OR 'a' < '1") =
    {| text := "
    SELECT
      AVG(sentiment_score) as avg_sentiment,
      COUNT(*) FILTER (WHERE sentiment_label = 'positive') as positive_count,
      COUNT(*) FILTER (WHERE sentiment_label = 'negative') as negative_count,
      COUNT(*) FILTER (WHERE sentiment_label = 'neutral') as neutral_count,
      COUNT(*) as total_tweets,
      SUM(retweet_count) as total_retweets,
      SUM(like_count) as total_likes
    FROM twitter_sentiment
    WHERE timestamp >= NOW() - INTERVAL '0 hours' OR 'a' < '1 hours'
  ";
       values := [] |}.
Proof. reflexivity. Qed.

(** C7 (amended). The statement of [getAnomalies] is the conjunction of one
    parameterized predicate per recognized filter whose value is truthy
    (status, severity, anomaly_type equal; detected_at on or after), each
    with one bound parameter, numbered in order; a filter that is absent or
    falsy adds nothing; the rows are ordered by [detected_at] descending;
    and a LIMIT with one more bound parameter is there exactly when the
    limit is truthy. *)
Theorem getAnomalies_conjunction (filters : AnomalyFilters) :
  getAnomalies filters = conjunction_of_supplied filters.
Proof.
  unfold getAnomalies, conjunction_of_supplied, supplied, recognized.
  cbn [filter snd].
  destruct (truthy (status filters)), (truthy (severity filters)),
           (truthy (type filters)), (truthy (since filters)),
           (truthy (limit filters)); reflexivity.
Qed.

(** C7 as stated fails: [{ limit: 0 }] has a limit, and the statement built
    for it has no LIMIT clause and binds nothing. *)
Lemma getAnomalies_limit_zero_dropped :
  limit limit_zero = JNum 0
  /\ limit limit_zero <> JUndefined
  /\ getAnomalies limit_zero =
       {| text := "SELECT * FROM anomalies WHERE 1=1 ORDER BY detected_at DESC";
          values := [] |}.
Proof.
  split; [reflexivity |]. split; [discriminate | reflexivity].
Qed.

(** Status, a start date and a limit: three parameters, in that order. *)
Example getAnomalies_active_since :
  getAnomalies active_since =
    {| text := "SELECT * FROM anomalies WHERE 1=1 AND status = $1 AND detected_at >= $2 ORDER BY detected_at DESC LIMIT $3";
       values := [JStr "active"; JDate 1735689600000; JNum 10] |}.
Proof. reflexivity. Qed.

(** *** Recording a view *)

Lemma record_view_viewed now r n :
  Schema.view_count r = Some n -> n < Schema.int4_max ->
  exists r', record_view now r = Done r' /\ viewed now r r'.
Proof.
  intros Hv Hn. unfold record_view, view_count_plus_1. rewrite Hv.
  destruct (Z.leb_spec (n + 1) Schema.int4_max) as [_ | Hgt]; [| lia].
  eexists. split; [reflexivity |]. unfold viewed, columns_not_viewed.
  cbn. repeat split. exists n. auto.
Qed.

Lemma update_where_viewed now id t :
  (forall r, In r t -> Schema.an_id r = id ->
     exists n, Schema.view_count r = Some n /\ n < Schema.int4_max) ->
  exists t' returned,
    update_where (fun r => Schema.an_id r =? id) (record_view now) t
    = Done (t', returned)
    /\ Forall2 (fun r r' => if Schema.an_id r =? id then viewed now r r'
                            else r' = r) t t'
    /\ returned = filter (fun r => Schema.an_id r =? id) t'.
Proof.
  induction t as [| r rest IH]; intros H; cbn [update_where].
  - exists [], []. repeat split. constructor.
  - destruct IH as (rest' & returned & -> & Hall & Hret).
    { intros r' Hin. apply H. right. exact Hin. }
    destruct (Z.eqb_spec (Schema.an_id r) id) as [Hid | Hid].
    + destruct (H r (or_introl eq_refl) Hid) as (n & Hv & Hn).
      destruct (record_view_viewed now r n Hv Hn) as (r' & -> & Hvw).
      exists (r' :: rest'), (r' :: returned). split; [reflexivity |].
      assert (Hid' : Schema.an_id r' = id).
      { destruct Hvw as (_ & _ & _ & _ & _ & Hcols).
        unfold columns_not_viewed in Hcols. congruence. }
      split.
      * constructor; [| exact Hall].
        destruct (Z.eqb_spec (Schema.an_id r) id); [exact Hvw | contradiction].
      * cbn [filter]. rewrite (proj2 (Z.eqb_eq _ _) Hid'), Hret. reflexivity.
    + exists (r :: rest'), returned. split; [reflexivity |]. split.
      * constructor; [| exact Hall].
        destruct (Z.eqb_spec (Schema.an_id r) id); [contradiction | reflexivity].
      * cbn [filter]. rewrite (proj2 (Z.eqb_neq _ _) Hid). exact Hret.
Qed.

Lemma in_integer_bounds (n : Z) :
  Schema.in_integer n = true <-> Schema.int4_min <= n <= Schema.int4_max.
Proof.
  unfold Schema.in_integer. rewrite andb_true_iff, !Z.leb_le. reflexivity.
Qed.

(** C9 (amended). For an id within INTEGER, on a table whose rows with
    that id have a view count that is not NULL and below the INTEGER
    maximum, [getAnomalyById] completes; each row with that id comes out
    with [view_count] one higher and [last_viewed_at] at the time of the
    statement, its status, [resolved_at], severity and all other columns
    as before, whatever the status is; the other rows are untouched, and
    the first updated row is returned. *)
Theorem getAnomalyById_records_view (now : Schema.instant) (id : Z)
    (t : list Schema.anomaly_row) :
  Schema.int4_min <= id <= Schema.int4_max ->
  (forall r, In r t -> Schema.an_id r = id ->
     exists n, Schema.view_count r = Some n /\ n < Schema.int4_max) ->
  exists t',
    getAnomalyById now id t
    = Done (t', find (fun r => Schema.an_id r =? id) t')
    /\ Forall2 (fun r r' => if Schema.an_id r =? id then viewed now r r'
                            else r' = r) t t'.
Proof.
  intros Hid H. unfold getAnomalyById.
  rewrite (proj2 (in_integer_bounds id) Hid). cbn [negb].
  destruct (update_where_viewed now id t H) as (t' & returned & -> & Hall & ->).
  exists t'. split; [| exact Hall].
  f_equal. f_equal. clear. induction t' as [| r rest IH]; cbn [filter find].
  - reflexivity.
  - destruct (Schema.an_id r =? id); [reflexivity | exact IH].
Qed.

Import Schema.Scenario.

(** A resolved anomaly and an active one with the same content: viewing the
    resolved one counts the view and leaves it resolved. *)
Lemma getAnomalyById_records_view_witness :
  exists t',
    getAnomalyById now 1
      [anomaly 1 (now - 100 * day) "HIGH" (Some "resolved")
         (Some (now - 10 * day));
       anomaly 2 (now - 3 * day) "LOW" (Some "active") None]
    = Done (t', find (fun r => Schema.an_id r =? 1) t')
    /\ Forall2 (fun r r' => if Schema.an_id r =? 1 then viewed now r r'
                            else r' = r)
         [anomaly 1 (now - 100 * day) "HIGH" (Some "resolved")
            (Some (now - 10 * day));
          anomaly 2 (now - 3 * day) "LOW" (Some "active") None] t'.
Proof.
  apply getAnomalyById_records_view.
  - unfold Schema.int4_min, Schema.int4_max. lia.
  - intros r [<- | [<- | []]] Hid.
    + exists 0. split; [reflexivity | reflexivity].
    + discriminate Hid.
Defined.

(** The same call, by its result. *)
Example getAnomalyById_on_resolved :
  match getAnomalyById now 1
          [anomaly 1 (now - 100 * day) "HIGH" (Some "resolved")
             (Some (now - 10 * day));
           anomaly 2 (now - 3 * day) "LOW" (Some "active") None] with
  | Done (t', Some r) =>
      map (fun r => (Schema.an_id r, Schema.status r, Schema.view_count r,
                     Schema.last_viewed_at r)) t'
      = [(1, Some "resolved", Some 1, Some now);
         (2, Some "active", Some 0, None)]
      /\ Schema.an_id r = 1
  | _ => False
  end.
Proof. vm_compute. split; reflexivity. Qed.

(** C9 as stated fails: an anomaly that exists, with a view count at the
    INTEGER maximum, is not counted once more: the server refuses the
    statement, so that no view is recorded and [last_viewed_at] stays as
    it was; and a view count that is NULL is still NULL after the call. *)
Lemma getAnomalyById_view_count_not_incremented :
  getAnomalyById now 7 [viewed_to_the_limit 7]
  = Rejected "integer out of range"
  /\ Schema.view_count (viewed_to_the_limit 7) = Some 2147483647
  /\ (exists r',
        getAnomalyById now 8 [never_counted 8] = Done ([r'], Some r')
        /\ Schema.view_count (never_counted 8) = None
        /\ Schema.view_count r' = None).
Proof.
  split; [reflexivity |]. split; [reflexivity |].
  eexists. split; [reflexivity |]. split; reflexivity.
Qed.

(** *** The baseline *)

Section Baseline.
Variable AVG STDDEV : list Schema.cell -> Schema.cell.
Variable window_start : Z -> Schema.instant -> option Schema.instant.



End Baseline.

Import Queries.Scenario.


(** The same call, by its result. *)
Example getBaselineStats_two_of_five :
  match getBaselineStats shown shown utc_window (cycle + day) (Some 1)
          five_cycles with
  | Done stats =>
      avg_tvl_usd stats = JArr ["1000"; "1200"]
      /\ stddev_stakers stats = JArr ["10"; "12"]
      /\ period_start stats = Some (cycle + 300000)
      /\ period_end stats = Some (cycle + 900000)
      /\ data_points stats = 2
  | Rejected _ => False
  end.
Proof. vm_compute. repeat split. Qed.

End QueriesProps.


(** ** Addresses and token amounts *)

Module ContractsProps.
Import Js Contracts.

(** *** Lower case *)

Lemma lower_char_not_upper (c : ascii) : is_upper (lower_char c) = false.
Proof. destruct c as [[] [] [] [] [] [] [] []]; reflexivity. Qed.

Lemma toLowerCase_no_upper (s : string) : has_upper (toLowerCase s) = false.
Proof.
  induction s as [| c rest IH]; cbn [toLowerCase has_upper]; [reflexivity |].
  rewrite lower_char_not_upper, IH. reflexivity.
Qed.

Lemma toLowerCase_misses (address known : string) :
  has_upper known = true -> (toLowerCase address =? known)%string = false.
Proof.
  intros Hk. apply String.eqb_neq. intros Heq.
  rewrite <- Heq, toLowerCase_no_upper in Hk. discriminate.
Qed.

(** [isContractAddress] lower-cases its argument and looks it up among
    addresses written in mixed case: it answers true exactly for the
    spellings of the zero address, and false for each of the six deployed
    contracts of [ETHERFI_ADDRESSES]. *)
Theorem isContractAddress_only_zero_address (address : string) :
  (isContractAddress address = true <-> toLowerCase address = PRICE_ORACLE)
  /\ Forall (fun known => isContractAddress known = false)
       [EETH_TOKEN; LIQUIDITY_POOL; STAKING_MANAGER; WITHDRAWAL_QUEUE;
        NFT_MANAGER; ETHERFI_ADMIN].
Proof.
  assert (H : forall a, isContractAddress a = (toLowerCase a =? PRICE_ORACLE)%string).
  { intros a. unfold isContractAddress.
    cbn [ETHERFI_ADDRESSES map snd existsb].
    rewrite (toLowerCase_misses a EETH_TOKEN eq_refl),
      (toLowerCase_misses a LIQUIDITY_POOL eq_refl),
      (toLowerCase_misses a STAKING_MANAGER eq_refl),
      (toLowerCase_misses a WITHDRAWAL_QUEUE eq_refl),
      (toLowerCase_misses a NFT_MANAGER eq_refl),
      (toLowerCase_misses a ETHERFI_ADMIN eq_refl).
    cbn [orb]. rewrite orb_false_r. reflexivity. }
  split.
  - rewrite H. apply String.eqb_eq.
  - repeat constructor.
Qed.

(** *** Strings of digits *)

Lemma append_empty_r (s : string) : (s ++ "")%string = s.
Proof. induction s as [| c r IH]; cbn; [reflexivity | rewrite IH; reflexivity]. Qed.

Lemma append_assoc (a b c : string) :
  ((a ++ b) ++ c)%string = (a ++ b ++ c)%string.
Proof. induction a as [| x r IH]; cbn; [reflexivity | rewrite IH; reflexivity]. Qed.

Lemma length_append (a b : string) :
  String.length (a ++ b) = (String.length a + String.length b)%nat.
Proof. induction a as [| x r IH]; cbn; [reflexivity | rewrite IH; reflexivity]. Qed.

Lemma all_digits_append (a b : string) :
  all_digits (a ++ b) = all_digits a && all_digits b.
Proof.
  induction a as [| x r IH]; cbn [append all_digits]; [reflexivity |].
  rewrite IH, andb_assoc. reflexivity.
Qed.

Lemma digits_value_append (base : Z) (a b : string) (acc : Z) :
  digits_value base (a ++ b) acc
  = match digits_value base a acc with
    | Some v => digits_value base b v
    | None => None
    end.
Proof.
  revert acc. induction a as [| x r IH]; intros acc; cbn [append digits_value];
    [reflexivity |].
  destruct (digit_value base x); [apply IH | reflexivity].
Qed.

Lemma length_repeat_char (c : ascii) (n : nat) :
  String.length (repeat_char c n) = n.
Proof. induction n as [| n IH]; cbn; [reflexivity | rewrite IH; reflexivity]. Qed.

Lemma all_digits_zeros (n : nat) : all_digits (repeat_char "0" n) = true.
Proof. induction n as [| n IH]; cbn [repeat_char all_digits]; [reflexivity | rewrite IH; reflexivity]. Qed.

Lemma digits_value_zeros (n : nat) (acc : Z) :
  digits_value 10 (repeat_char "0" n) acc = Some (acc * 10 ^ Z.of_nat n).
Proof.
  revert acc. induction n as [| n IH]; intros acc.
  - cbn. f_equal. lia.
  - cbn [repeat_char digits_value].
    change (digit_value 10 "0") with (Some 0). cbv beta iota.
    rewrite IH. f_equal.
    rewrite Nat2Z.inj_succ, Z.pow_succ_r by lia. ring.
Qed.

Lemma digit_of_value (n : nat) :
  (n < 10)%nat ->
  is_digit (digit_of n) = true
  /\ digit_value 10 (digit_of n) = Some (Z.of_nat n).
Proof.
  intros H.
  do 10 (destruct n as [| n]; [split; reflexivity |]). lia.
Qed.

Lemma digits_pos_step (fuel : nat) (n : N) (acc : string) :
  digits_pos (S fuel) n acc
  = if (n / 10 =? 0)%N
    then String (digit_of (N.to_nat (n mod 10))) acc
    else digits_pos fuel (n / 10)
           (String (digit_of (N.to_nat (n mod 10))) acc).
Proof. reflexivity. Qed.

(** The digits [digits_pos] writes in front of [acc]: at least one, none
    more than needed, and worth [n]. *)
Lemma digits_pos_spec (fuel : nat) : forall (n : N) (acc : string),
  (n < 10 ^ N.of_nat (S fuel))%N ->
  exists ds,
    digits_pos (S fuel) n acc = (ds ++ acc)%string
    /\ all_digits ds = true
    /\ (1 <= String.length ds)%nat
    /\ (n = 0%N \/ (10 ^ N.of_nat (String.length ds - 1) <= n)%N)
    /\ forall a, digits_value 10 ds a
                 = Some (a * 10 ^ Z.of_nat (String.length ds) + Z.of_N n).
Proof.
  induction fuel as [| fuel IH]; intros n acc Hn.
  - change (10 ^ N.of_nat 1)%N with 10%N in Hn.
    rewrite digits_pos_step.
    assert (Hd : (n / 10 = 0)%N) by (apply N.div_small; exact Hn).
    rewrite Hd. cbn [N.eqb].
    assert (Hm : (n mod 10 = n)%N) by (apply N.mod_small; exact Hn).
    rewrite Hm.
    destruct (digit_of_value (N.to_nat n)) as [Hdig Hval]; [lia |].
    exists (String (digit_of (N.to_nat n)) EmptyString).
    cbn [append all_digits String.length digits_value].
    rewrite Hdig, Hval. repeat split.
    + lia.
    + destruct (N.eq_dec n 0) as [H0 | H0]; [left; exact H0 | right].
      change (10 ^ N.of_nat (1 - 1))%N with 1%N. lia.
    + intros a. f_equal. lia.
  - rewrite digits_pos_step.
    destruct (N.eqb_spec (n / 10) 0) as [Hd | Hd].
    + assert (Hlt : (n < 10)%N).
      { pose proof (N.div_mod n 10 ltac:(lia)) as E.
        pose proof (N.mod_lt n 10 ltac:(lia)) as Hmod. rewrite Hd in E.
        set (m := (n mod 10)%N) in *. clearbody m. lia. }
      assert (Hm : (n mod 10 = n)%N) by (apply N.mod_small; exact Hlt).
      rewrite Hm.
      destruct (digit_of_value (N.to_nat n)) as [Hdig Hval]; [lia |].
      exists (String (digit_of (N.to_nat n)) EmptyString).
      cbn [append all_digits String.length digits_value].
      rewrite Hdig, Hval. repeat split.
      * lia.
      * destruct (N.eq_dec n 0) as [H0 | H0]; [left; exact H0 | right].
        change (10 ^ N.of_nat (1 - 1))%N with 1%N. lia.
      * intros a. f_equal. lia.
    + pose proof (N.div_mod n 10 ltac:(lia)) as E.
      pose proof (N.mod_lt n 10 ltac:(lia)) as Hmod.
      assert (Hq : (n / 10 < 10 ^ N.of_nat (S fuel))%N).
      { rewrite (Nat2N.inj_succ (S fuel)), N.pow_succ_r' in Hn.
        set (P := (10 ^ N.of_nat (S fuel))%N) in *.
        set (q := (n / 10)%N) in *. set (m := (n mod 10)%N) in *.
        clearbody P q m. lia. }
      destruct (IH (n / 10)%N
                  (String (digit_of (N.to_nat (n mod 10))) acc) Hq)
        as (ds & Hrun & Hall & Hlen & Hlow & Hval).
      destruct (digit_of_value (N.to_nat (n mod 10))) as [Hdig Hdval]; [lia |].
      exists (ds ++ String (digit_of (N.to_nat (n mod 10))) EmptyString)%string.
      rewrite Hrun, append_assoc, all_digits_append, length_append, Hall.
      cbn [append all_digits String.length]. rewrite Hdig.
      repeat split.
      * lia.
      * right. destruct Hlow as [H0 | Hlow]; [contradiction |].
        replace (String.length ds + 1 - 1)%nat
          with (S (String.length ds - 1)) by lia.
        rewrite Nat2N.inj_succ, N.pow_succ_r'.
        set (P := (10 ^ N.of_nat (String.length ds - 1))%N) in *.
        set (q := (n / 10)%N) in *. set (m := (n mod 10)%N) in *.
        clearbody P q m. lia.
      * intros a. rewrite digits_value_append, Hval.
        cbn [digits_value]. rewrite Hdval. f_equal.
        replace (Z.of_nat (String.length ds + 1))
          with (Z.succ (Z.of_nat (String.length ds))) by lia.
        rewrite Z.pow_succ_r by lia.
        set (P := 10 ^ Z.of_nat (String.length ds)).
        rewrite Nat2Z.inj_0 || idtac. rewrite N_nat_Z.
        set (q := (n / 10)%N) in *. set (m := (n mod 10)%N) in *.
        clearbody P q m. lia.
Qed.

(** What [string_of_Z] prints for a number that is not negative. *)
Lemma string_of_Z_digits (n : Z) :
  0 <= n ->
  all_digits (string_of_Z n) = true
  /\ (1 <= String.length (string_of_Z n))%nat
  /\ (n = 0 \/ 10 ^ Z.of_nat (String.length (string_of_Z n) - 1) <= n)
  /\ forall a, digits_value 10 (string_of_Z n) a
               = Some (a * 10 ^ Z.of_nat (String.length (string_of_Z n)) + n).
Proof.
  intros Hn. destruct n as [| p | p]; [| | lia].
  - cbn. repeat split; auto.
  - cbn [string_of_Z]. unfold string_of_N.
    assert (Hfuel : (N.pos p < 10 ^ N.of_nat (S (N.to_nat (N.log2 (N.pos p)))))%N).
    { rewrite Nat2N.inj_succ, N2Nat.id.
      destruct (N.log2_spec (N.pos p)) as [_ Hlt]; [reflexivity |].
      eapply N.lt_le_trans; [exact Hlt |].
      apply N.pow_le_mono_l. lia. }
    destruct (digits_pos_spec _ (N.pos p) EmptyString Hfuel)
      as (ds & -> & Hall & Hlen & Hlow & Hval).
    rewrite append_empty_r. repeat split; try assumption.
    + right. destruct Hlow as [H0 | Hlow]; [discriminate |].
      apply N2Z.inj_le in Hlow. rewrite N2Z.inj_pow, nat_N_Z in Hlow.
      exact Hlow.
Qed.

Lemma string_of_Z_length_le (r d : Z) :
  0 <= r < 10 ^ d -> 1 <= d ->
  Z.of_nat (String.length (string_of_Z r)) <= d.
Proof.
  intros Hr Hd.
  destruct (string_of_Z_digits r (proj1 Hr)) as (_ & Hlen & Hlow & _).
  destruct Hlow as [-> | Hlow]; [cbn; lia |].
  assert (H : 10 ^ Z.of_nat (String.length (string_of_Z r) - 1) < 10 ^ d) by lia.
  apply Z.pow_lt_mono_r_iff in H; lia.
Qed.

(** *** What the parser does with digits *)

Lemma digit_is_plain (c : ascii) :
  is_digit c = true ->
  is_space c = false
  /\ Ascii.eqb c "." = false /\ Ascii.eqb c "-" = false
  /\ Ascii.eqb c "+" = false
  /\ Ascii.eqb c "x" = false /\ Ascii.eqb c "X" = false
  /\ Ascii.eqb c "o" = false /\ Ascii.eqb c "O" = false
  /\ Ascii.eqb c "b" = false /\ Ascii.eqb c "B" = false.
Proof.
  destruct c as [[] [] [] [] [] [] [] []]; cbn; intros H;
    try discriminate H; repeat split.
Qed.

Lemma trim_start_digits (s : string) :
  all_digits s = true -> trim_start s = s.
Proof.
  destruct s as [| c r]; [reflexivity |]. cbn [all_digits trim_start].
  intros H. apply andb_true_iff in H. destruct H as [Hc _].
  destruct (digit_is_plain c Hc) as [-> _]. reflexivity.
Qed.

Lemma trim_end_digits (s : string) :
  all_digits s = true -> trim_end s = s.
Proof.
  induction s as [| c r IH]; [reflexivity |]. cbn [all_digits trim_end].
  intros H. apply andb_true_iff in H. destruct H as [Hc Hr].
  rewrite (IH Hr). destruct (digit_is_plain c Hc) as [-> _].
  destruct r; reflexivity.
Qed.

Lemma StringToBigInt_digits (s : string) :
  all_digits s = true -> s <> EmptyString ->
  StringToBigInt s = digits_value 10 s 0.
Proof.
  intros Hall Hne. unfold StringToBigInt.
  rewrite (trim_start_digits s Hall), (trim_end_digits s Hall).
  destruct s as [| c rest]; [contradiction |].
  cbn [all_digits] in Hall. apply andb_true_iff in Hall.
  destruct Hall as [Hc Hrest].
  destruct (digit_is_plain c Hc) as (_ & _ & -> & -> & _).
  destruct rest as [| p digits]; [reflexivity |].
  cbn [all_digits] in Hrest. apply andb_true_iff in Hrest.
  destruct Hrest as [Hp _].
  destruct (digit_is_plain p Hp)
    as (_ & _ & _ & _ & -> & -> & -> & -> & -> & ->).
  cbn [orb]. rewrite !andb_false_r. reflexivity.
Qed.

Lemma split_on_digits (s : string) :
  all_digits s = true -> split_on "." s = [s].
Proof.
  induction s as [| c r IH]; [reflexivity |]. cbn [all_digits split_on].
  intros H. apply andb_true_iff in H. destruct H as [Hc Hr].
  destruct (digit_is_plain c Hc) as (_ & -> & _). rewrite (IH Hr).
  reflexivity.
Qed.

Lemma split_on_point (a b : string) :
  all_digits a = true -> all_digits b = true ->
  split_on "." (a ++ "." ++ b) = [a; b].
Proof.
  intros Ha Hb. induction a as [| c r IH].
  - cbn. rewrite (split_on_digits b Hb). reflexivity.
  - cbn [all_digits] in Ha. apply andb_true_iff in Ha.
    destruct Ha as [Hc Hr]. cbn [append split_on].
    destruct (digit_is_plain c Hc) as (_ & -> & _).
    cbn [append] in IH. rewrite (IH Hr). reflexivity.
Qed.

Lemma substring_all (s : string) :
  String.substring 0 (String.length s) s = s.
Proof. induction s as [| c r IH]; cbn; [reflexivity | rewrite IH; reflexivity]. Qed.

Lemma substring_none (s : string) : String.substring 0 0 s = EmptyString.
Proof. destruct s; reflexivity. Qed.

(** *** Token amounts *)

(** For an amount that is not negative and 0 to 22 decimals,
    [formatTokenAmount] returns a text that [parseTokenAmount] reads back,
    with the same number of decimals, as the decimal text of the amount. *)
Theorem token_amount_round_trip (amount decimals : Z) :
  0 <= amount ->
  0 <= decimals <= 22 ->
  exists text,
    formatTokenAmount amount decimals = Some text
    /\ parseTokenAmount text decimals = Some (string_of_Z amount).
Proof.
  intros Ha Hd. unfold formatTokenAmount, divisor_of.
  replace ((0 <=? decimals) && (decimals <=? 22)) with true
    by (symmetry; apply andb_true_iff; split; apply Z.leb_le; lia).
  set (p := 10 ^ decimals).
  assert (Hp : 0 < p) by (apply Z.pow_pos_nonneg; lia).
  set (q := Z.quot amount p). set (r := Z.rem amount p).
  assert (Hq : 0 <= q) by (apply Z.quot_pos; lia).
  assert (Hr : 0 <= r < p) by (apply Z.rem_bound_pos; lia).
  assert (Hqr : amount = p * q + r) by (apply Z.quot_rem'; lia).
  destruct (string_of_Z_digits q Hq) as (HQall & HQlen & _ & HQval).
  destruct (string_of_Z_digits r (proj1 Hr)) as (HRall & HRlen & _ & HRval).
  set (Q := string_of_Z q) in *. set (R := string_of_Z r) in *.
  assert (HFall : all_digits (padStart R decimals "0") = true).
  { unfold padStart. rewrite all_digits_append, all_digits_zeros. exact HRall. }
  eexists. split; [reflexivity |].
  unfold parseTokenAmount. rewrite (split_on_point Q _ HQall HFall).
  cbn [hd nth].
  assert (Hpad : StringToBigInt
                   (Q ++ slice_from_0
                           (padEnd (padStart R decimals "0") decimals "0")
                           decimals)
                 = Some amount).
  { destruct (Z.eq_dec decimals 0) as [Hd0 | Hd0].
    - (* no decimals: the fractional text "0" is cut away *)
      assert (Hr0 : r = 0) by (subst p; rewrite Hd0 in Hr; cbn in Hr; lia).
      assert (HR : R = "0"%string) by (subst R; rewrite Hr0; reflexivity).
      rewrite HR, Hd0. cbn [padStart padEnd slice_from_0 String.length].
      cbn. rewrite append_empty_r.
      rewrite (StringToBigInt_digits Q HQall)
        by (intros E; rewrite E in HQlen; cbn in HQlen; lia).
      rewrite HQval. f_equal. unfold p in Hqr. rewrite Hd0 in Hqr.
      change (10 ^ 0) with 1 in Hqr. lia.
    - (* the fractional text has exactly [decimals] digits *)
      assert (HRle : Z.of_nat (String.length R) <= decimals)
        by (apply string_of_Z_length_le; [exact Hr | lia]).
      set (k := Z.to_nat (decimals - Z.of_nat (String.length R))).
      assert (HFlen : String.length (padStart R decimals "0")
                      = Z.to_nat decimals).
      { unfold padStart. rewrite length_append, length_repeat_char. lia. }
      assert (Hend : padEnd (padStart R decimals "0") decimals "0"
                     = padStart R decimals "0").
      { unfold padEnd. rewrite HFlen.
        replace (Z.to_nat (decimals - Z.of_nat (Z.to_nat decimals))) with O
          by lia.
        apply append_empty_r. }
      assert (Hslice : slice_from_0 (padStart R decimals "0") decimals
                       = padStart R decimals "0").
      { unfold slice_from_0. rewrite HFlen.
        destruct (Z.ltb_spec decimals 0); [lia |].
        replace (Z.to_nat (Z.min decimals (Z.of_nat (Z.to_nat decimals))))
          with (String.length (padStart R decimals "0")) by lia.
        apply substring_all. }
      rewrite Hend, Hslice.
      rewrite StringToBigInt_digits.
      + unfold padStart. fold k.
        rewrite digits_value_append, HQval. cbv beta iota.
        rewrite digits_value_append, digits_value_zeros. cbv beta iota.
        rewrite HRval. f_equal. rewrite Hqr.
        replace ((0 * 10 ^ Z.of_nat (String.length Q) + q) * 10 ^ Z.of_nat k
                   * 10 ^ Z.of_nat (String.length R))
          with (q * (10 ^ Z.of_nat k * 10 ^ Z.of_nat (String.length R)))
          by ring.
        rewrite <- Z.pow_add_r by lia.
        replace (Z.of_nat k + Z.of_nat (String.length R)) with decimals by lia.
        fold p. ring.
      + rewrite all_digits_append, HQall, HFall. reflexivity.
      + intros E. apply (f_equal String.length) in E.
        rewrite length_append in E. cbn in E. lia. }
  rewrite Hpad. reflexivity.
Qed.

(** 1.5 tokens of 18 decimals, written and read back. *)
Lemma token_amount_round_trip_witness :
  exists text,
    formatTokenAmount 1500000000000000000 18 = Some text
    /\ parseTokenAmount text 18 = Some (string_of_Z 1500000000000000000).
Proof.
  apply token_amount_round_trip; lia.
Defined.

End ContractsProps.


(** ** Edges and measures of [retry] *)

Module RetryRunsProps.
Import Eff ErrorHandler RetryRuns.

(** With [maxAttempts] below 1 the loop body never runs: [fn] is not
    called, nothing is logged or slept, and [retry] throws [undefined], the
    value [lastError] still has. *)
Theorem retry_without_attempts {W A : Type} (fn : W -> outcome A * W)
    (opts : options W) (w : W) :
  or_default (maxAttempts opts) 3 < 1 ->
  retry fn opts w = (Threw Js.ThrownUndefined, w, []).
Proof.
  intros Hmax. unfold retry. apply RetryProps.loop_past_max. exact Hmax.
Qed.

Lemma retry_without_attempts_witness :
  retry (Scenario.flaky 0) (Scenario.with_attempts 0) 0%nat
  = (Threw Js.ThrownUndefined, 0%nat, []).
Proof.
  apply (retry_without_attempts (Scenario.flaky 0) (Scenario.with_attempts 0)).
  cbn. lia.
Defined.

(** When the [onRetry] hook throws after the first failure, [retry] ends
    there: the exception of the hook is what the caller gets, in place of
    the error of the operation, and there is no warning, no sleep and no
    second attempt. *)
Theorem retry_hook_exception_ends_run {W A : Type} (fn : W -> outcome A * W)
    (opts : options W) (w w1 w2 : W) (error hook_error : Js.thrown)
    (hook : Js.thrown -> Z -> W -> outcome unit * W) :
  1 < or_default (maxAttempts opts) 3 ->
  onRetry opts = Some hook ->
  fn w = (Threw error, w1) ->
  hook error 1 w1 = (Threw hook_error, w2) ->
  retry fn opts w
  = (Threw hook_error, w2, [Attempt 1 (Threw error); OnRetry error 1]).
Proof.
  intros Hmax Hhook Hfn Hthrow. unfold retry. rewrite Hhook.
  apply (RetryProps.loop_hook_threw fn _ _ hook _ 1 _ _ w error w1 hook_error w2
           Hmax Hfn Hthrow).
Qed.

Lemma retry_hook_exception_ends_run_witness :
  retry (Scenario.flaky 2) (with_hook 5) 0%nat
  = (Threw (Js.ThrownError "Error" "giving up"), 1%nat,
     [Attempt 1 (Threw (Scenario.refused 1));
      OnRetry (Scenario.refused 1) 1]).
Proof.
  apply (retry_hook_exception_ends_run (Scenario.flaky 2) (with_hook 5)
           0%nat 1%nat 1%nat (Scenario.refused 1)
           (Js.ThrownError "Error" "giving up") impatient).
  - cbn. lia.
  - reflexivity.
  - reflexivity.
  - reflexivity.
Defined.





(** Four attempts with the defaults, all failing: three sleeps, 7 seconds. *)
Example retry_four_attempts_wait :
  let '(_, _, log) :=
    retry (Scenario.flaky 5) (Scenario.with_attempts 4) 0%nat in
  attempts log = 4 /\ sleeps log = 3%nat /\ slept log = 7000.
Proof. vm_compute. repeat split. Qed.

End RetryRunsProps.


(** ** Queries through the pool *)

Module DbQueryProps.
Import Eff DbQuery.

Section Driver.
Context {W : Type}.
Variable date_now : W -> Z * W.
Variable pool_query : string -> option (list Js.jsval) -> W -> outcome result * W.
Variable pool_stats : W -> pool_counts.

Local Abbreviation query := (query date_now pool_query).

Ltac run_query :=
  unfold DbQuery.query, DbQuery.clock, bind, try_catch, perform, emit, ret,
    throw.

Lemma query_returns text params w start w0 res w1 :
  date_now w = (start, w0) ->
  pool_query text params w0 = (Returned res, w1) ->
  query text params w
  = (Returned res, snd (date_now w1),
     PoolQuery text params
       :: (if 1000 <? fst (date_now w1) - start
           then [Console "warn" (slow_query_label (fst (date_now w1) - start))
                   [Value (Js.JStr (String.substring 0 100 text))]]
           else [])).
Proof.
  intros Hs Hq. run_query. rewrite Hs, Hq.
  destruct (date_now w1) as [finish w2]. cbn [fst snd].
  destruct (1000 <? finish - start); reflexivity.
Qed.

Lemma query_throws text params w start w0 e w1 :
  date_now w = (start, w0) ->
  pool_query text params w0 = (Threw e, w1) ->
  query text params w
  = match Js.message e with
    | inr reason =>
        (Threw e, w1,
         [PoolQuery text params;
          Console "error" "[DB] Query error:" [Value reason];
          Console "error" "[DB] Query text:" [Value (Js.JStr text)];
          Console "error" "[DB] Query params:" [Params params]])
    | inl type_error => (Threw type_error, w1, [PoolQuery text params])
    end.
Proof.
  intros Hs Hq. run_query. rewrite Hs, Hq.
  destruct e; reflexivity.
Qed.

(** [query] sends the statement to [pool.query] once. When the call
    returns, [query] returns its result, after one warning (with the first
    100 characters of the text) if it took more than 1000 ms. When the call
    fails with an error that has a message, [query] writes three error
    lines and throws that very error. When it fails with [undefined] or
    [null], reading the message throws a TypeError: [query] throws it and
    has written nothing. *)
Theorem query_hands_on_the_outcome (text : string)
    (params : option (list Js.jsval)) (w : W) :
  exists settled w' lines,
    query text params w = (settled, w', PoolQuery text params :: lines)
    /\ match pool_query text params (snd (date_now w)) with
       | (Returned res, w1) =>
           let duration := fst (date_now w1) - fst (date_now w) in
           settled = Returned res
           /\ lines
              = if 1000 <? duration
                then [Console "warn" (slow_query_label duration)
                        [Value (Js.JStr (String.substring 0 100 text))]]
                else []
       | (Threw e, _) =>
           match Js.message e with
           | inr reason =>
               settled = Threw e
               /\ lines
                  = [Console "error" "[DB] Query error:" [Value reason];
                     Console "error" "[DB] Query text:" [Value (Js.JStr text)];
                     Console "error" "[DB] Query params:" [Params params]]
           | inl type_error => settled = Threw type_error /\ lines = []
           end
       end.
Proof.
  destruct (date_now w) as [start w0] eqn:Hs. cbn [fst snd].
  destruct (pool_query text params w0) as [[res | e] w1] eqn:Hq.
  - rewrite (query_returns text params w start w0 res w1 Hs Hq).
    eexists _, _, _. split; [reflexivity |]. split; reflexivity.
  - rewrite (query_throws text params w start w0 e w1 Hs Hq).
    destruct (Js.message e) as [type_error | reason];
      eexists _, _, _; (split; [reflexivity |]); split; reflexivity.
Qed.

(** [testConnection] never throws: it returns a boolean in every world,
    [true] exactly when [pool.query] returned a result with a row; a
    result without a row ends as [false] like a failed query. *)
Theorem testConnection_never_throws (w : W) :
  exists answer w' log,
    testConnection date_now pool_query w = (Returned answer, w', log)
    /\ (answer = true <->
        exists res w1,
          pool_query connection_sql None (snd (date_now w)) = (Returned res, w1)
          /\ rows res <> []).
Proof.
  unfold testConnection, try_catch, bind at 1.
  destruct (date_now w) as [start w0] eqn:Hs. cbn [snd].
  destruct (pool_query connection_sql None w0) as [[res | e] w1] eqn:Hq.
  - rewrite (query_returns connection_sql None w start w0 res w1 Hs Hq).
    unfold bind, emit, ret, throw.
    destruct (rows res) as [| first rest] eqn:Hrows.
    + eexists false, _, _. split; [reflexivity |].
      split; [discriminate |].
      intros (res' & w1' & [= <- <-] & Hne). contradiction.
    + eexists true, _, _. split; [reflexivity |].
      split; [| reflexivity].
      intros _. exists res, w1. split; [reflexivity |].
      rewrite Hrows. discriminate.
  - rewrite (query_throws connection_sql None w start w0 e w1 Hs Hq).
    destruct e as [| | name reason]; cbn [Js.message];
      unfold bind, message_of, emit, ret; cbn [Js.message Js.cannot_read];
      (eexists false, _, _; split; [reflexivity |];
       split; [discriminate | intros (res' & w1' & [=] & _)]).
Qed.

(** [healthCheck] never throws: it returns an object in every world,
    'healthy' with the pool counters and the first row when [pool.query]
    returned, 'unhealthy' when it failed, with the message of the error or,
    for an error that is [undefined] or [null], with the message of the
    TypeError that [query] threw in its place. *)
Theorem healthCheck_never_throws (w : W) :
  exists report w' log,
    healthCheck date_now pool_query pool_stats w = (Returned report, w', log)
    /\ match fst (pool_query health_sql None (snd (date_now w))) with
       | Returned res =>
           exists at_time,
             report = Healthy (pool_stats w) (hd_error (rows res)) at_time
       | Threw e =>
           exists at_time reason,
             report = Unhealthy reason at_time
             /\ match Js.message e with
                | inr told => reason = told
                | inl type_error => Js.message type_error = inr reason
                end
       end.
Proof.
  unfold healthCheck, try_catch, bind at 1.
  destruct (date_now w) as [start w0] eqn:Hs. cbn [snd].
  destruct (pool_query health_sql None w0) as [[res | e] w1] eqn:Hq.
  - unfold bind at 1.
    rewrite (query_returns health_sql None w start w0 res w1 Hs Hq).
    unfold bind, clock, ret. cbn [fst snd].
    destruct (date_now (snd (date_now w1))) as [at_time w3].
    eexists _, _, _. split; [reflexivity |]. exists at_time. reflexivity.
  - unfold bind at 1.
    rewrite (query_throws health_sql None w start w0 e w1 Hs Hq).
    destruct e as [| | name told]; cbn [Js.message];
      unfold bind, message_of, clock, ret; cbn [Js.message Js.cannot_read];
      destruct (date_now w1) as [at_time w2];
      (eexists _, _, _; split; [reflexivity |]);
      cbn [fst]; eexists at_time, _; split; reflexivity.
Qed.

End Driver.

Import DbQuery.Scenario.

(** A server that answers after 1.5 seconds, then one that is down. *)
Example testConnection_slow_then_down :
  testConnection date_now (pool_query false 1500) 0
  = (Returned true, 1500,
     [PoolQuery connection_sql None;
      Console "warn" "[DB] Slow query detected (1500ms):"
        [Value (Js.JStr connection_sql)];
      Console "log" "[DB] Connection successful!" [];
      Console "log" "[DB] Current time:" [Value (Js.JDate 1735689600000)];
      Console "log" "[DB] PostgreSQL version:"
        [Value (Js.JStr "PostgreSQL 16.1")]])
  /\ testConnection date_now (pool_query true 20) 0
     = (Returned false, 20,
        [PoolQuery connection_sql None;
         Console "error" "[DB] Query error:"
           [Value (Js.JStr "connect ECONNREFUSED 127.0.0.1:5432")];
         Console "error" "[DB] Query text:" [Value (Js.JStr connection_sql)];
         Console "error" "[DB] Query params:" [Params None];
         Console "error" "[DB] Connection failed:"
           [Value (Js.JStr "connect ECONNREFUSED 127.0.0.1:5432")]]).
Proof. split; vm_compute; reflexivity. Qed.

(** A pool whose promise is rejected without a reason: [query] throws a
    TypeError and writes nothing, and [healthCheck] reports the message of
    that TypeError. *)
Example query_rejection_without_reason :
  DbQuery.query date_now pool_rejects "SELECT 1" None 0
  = (Threw (Js.cannot_read "undefined" "message"), 0,
     [PoolQuery "SELECT 1" None])
  /\ healthCheck date_now pool_rejects pool_stats 0
     = (Returned
          (Unhealthy
             (Js.JStr "Cannot read properties of undefined (reading 'message')")
             0),
        0, [PoolQuery health_sql None]).
Proof. split; vm_compute; reflexivity. Qed.

End DbQueryProps.


(** ** The other inserts *)

Module IngestProps.
Import Js Queries Ingest.

(** *** INSERT ... ON CONFLICT, whatever the key *)

Lemma update_each {R : Type} (c : R -> bool) (f : R -> R) (t : list R) :
  Forall2 (fun r r' => if c r then r' = f r else r' = r) t
    (map (fun r => if c r then f r else r) t).
Proof.
  induction t as [| r rest IH]; cbn [map]; constructor; [| exact IH].
  destruct (c r); reflexivity.
Qed.

Lemma find_after_update {R : Type} (c : R -> bool) (f : R -> R) (t : list R) :
  (forall r, c r = true -> c (f r) = true) ->
  find c (map (fun r => if c r then f r else r) t) = option_map f (find c t).
Proof.
  intros Hc. induction t as [| r rest IH]; cbn [map find]; [reflexivity |].
  destruct (c r) eqn:Hr.
  - rewrite (Hc r Hr). reflexivity.
  - rewrite Hr. exact IH.
Qed.

(** *** Twitter sentiment *)

Lemma insertTwitterSentiment_done now nextval data t t' returned :
  insertTwitterSentiment now nextval data t = Done (t', returned) ->
  let excluded := sentiment_values now nextval data in
  t' = insert_on_conflict same_tweet sentiment_do_update excluded t
  /\ returned
     = (if existsb (same_tweet excluded) t
        then option_map Schema.tw_id (find (same_tweet excluded) t')
        else Some nextval)
  /\ Schema.twitter_sentiment_fits excluded = true.
Proof.
  unfold insertTwitterSentiment. cbv zeta.
  destruct (insert_checked Schema.tw_id Schema.twitter_sentiment_fits same_tweet
              sentiment_do_update (sentiment_values now nextval data) t)
    as [t0 | m] eqn:Hc; [| discriminate].
  intros [= <- <-].
  destruct (QueriesProps.insert_checked_done _ _ _ _ _ _ _ Hc)
    as (-> & _ & Hf & _).
  repeat split. exact Hf.
Qed.

(** A sample without [tweet_id] never meets a conflict: every call of
    [insertTwitterSentiment] for it that the server completes appends a
    row with the id of the sequence and a NULL [tweet_id], whatever the
    table holds. *)
Theorem insertTwitterSentiment_without_id_appends
    (now : Schema.instant) (nextval : Z) (data : SentimentSample)
    (t t' : list Schema.twitter_sentiment_row) (returned : option Z) :
  tweet_id data = None ->
  insertTwitterSentiment now nextval data t = Done (t', returned) ->
  t' = t ++ [sentiment_values now nextval data]
  /\ returned = Some nextval
  /\ Schema.tweet_id (sentiment_values now nextval data) = JNull.
Proof.
  intros Hid Hi. apply insertTwitterSentiment_done in Hi. cbv zeta in Hi.
  destruct Hi as (-> & -> & _). unfold insert_on_conflict.
  assert (Hno : existsb (same_tweet (sentiment_values now nextval data)) t
                = false).
  { apply not_true_iff_false. rewrite existsb_exists.
    intros (r & _ & Hs). unfold same_tweet in Hs. cbn in Hs.
    rewrite Hid in Hs. discriminate. }
  rewrite Hno. repeat split. cbn. rewrite Hid. reflexivity.
Qed.

Lemma same_tweet_text now nextval data s r :
  tweet_id data = Some s ->
  same_tweet (sentiment_values now nextval data) r = true
  <-> Schema.tweet_id r = JStr s.
Proof.
  intros Hid. unfold same_tweet. cbn [sentiment_values Schema.tweet_id].
  rewrite Hid. cbn [text_cell cell_text].
  destruct (Schema.tweet_id r) as [| | | | x | |]; cbn [cell_text];
    try (split; discriminate).
  rewrite String.eqb_eq. split; congruence.
Qed.

(** A sample whose [tweet_id] the table already holds, in a call that the
    server completes, adds no row: each row with that id takes the
    retweet, like and reply counts of the sample and keeps its id,
    timestamp, text, author, sentiment score, label, confidence, keywords
    and influence flag; the other rows are as they were, and the id
    returned is the id of a row that was there. *)
Theorem insertTwitterSentiment_refreshes_engagement
    (now : Schema.instant) (nextval : Z) (data : SentimentSample)
    (t t' : list Schema.twitter_sentiment_row) (returned : option Z)
    (s : string) :
  tweet_id data = Some s ->
  (exists r, In r t /\ Schema.tweet_id r = JStr s) ->
  insertTwitterSentiment now nextval data t = Done (t', returned) ->
  Forall2 (fun r r' =>
             (Schema.tweet_id r = JStr s -> refreshed_engagement data r r')
             /\ (Schema.tweet_id r <> JStr s -> r' = r)) t t'
  /\ exists r, In r t /\ Schema.tweet_id r = JStr s
               /\ returned = Some (Schema.tw_id r).
Proof.
  intros Hid (r0 & Hin0 & Hr0) Hi.
  apply insertTwitterSentiment_done in Hi. cbv zeta in Hi.
  destruct Hi as (-> & -> & _). unfold insert_on_conflict.
  set (ex := sentiment_values now nextval data).
  assert (Hyes : existsb (same_tweet ex) t = true).
  { apply existsb_exists. exists r0. split; [exact Hin0 |].
    apply (same_tweet_text now nextval data s r0 Hid), Hr0. }
  rewrite Hyes. split.
  - eapply Forall2_impl; [| apply update_each].
    intros r r' H. cbv beta in H.
    destruct (same_tweet ex r) eqn:Hs.
    + apply (same_tweet_text now nextval data s r Hid) in Hs. subst r'.
      split; [| intros Hne; contradiction].
      intros _. unfold refreshed_engagement. repeat split.
    + split; [| intros _; exact H].
      intros Heq. apply (same_tweet_text now nextval data s r Hid) in Heq.
      unfold ex in Hs. congruence.
  - rewrite find_after_update.
    + destruct (find (same_tweet ex) t) as [r |] eqn:Hf.
      * apply find_some in Hf. destruct Hf as [Hin Hs].
        exists r. split; [exact Hin |]. split; [| reflexivity].
        apply (same_tweet_text now nextval data s r Hid), Hs.
      * exfalso. apply existsb_exists in Hyes.
        destruct Hyes as (r & Hin & Hs).
        pose proof (find_none _ _ Hf r Hin) as Hn. congruence.
    + intros r Hs. exact Hs.
Qed.

Import Samples.

(** The same post without an id, ingested twice: two rows. *)
Lemma insertTwitterSentiment_without_id_appends_witness :
  exists t' returned,
    insertTwitterSentiment 9 2 (tweet None (-1) 3 4 5 100)
      [sentiment_values 8 1 (tweet None (-1) 3 4 5 100)]
    = Done (t', returned)
    /\ t' = [sentiment_values 8 1 (tweet None (-1) 3 4 5 100)]
              ++ [sentiment_values 9 2 (tweet None (-1) 3 4 5 100)]
    /\ returned = Some 2
    /\ Schema.tweet_id (sentiment_values 9 2 (tweet None (-1) 3 4 5 100))
       = JNull.
Proof.
  eexists _, _. split; [reflexivity |].
  apply (insertTwitterSentiment_without_id_appends 9 2
           (tweet None (-1) 3 4 5 100)
           [sentiment_values 8 1 (tweet None (-1) 3 4 5 100)]).
  - reflexivity.
  - reflexivity.
Defined.

(** A post seen again an hour later with a new score: its row keeps the
    first score and the first timestamp and shows the new counters. *)
Lemma insertTwitterSentiment_refreshes_engagement_witness :
  exists t' returned,
    insertTwitterSentiment 9 2 (tweet (Some "1875") 1 30 40 50 3700000)
      [sentiment_values 8 1 (tweet (Some "1875") (-1) 3 4 5 100)]
    = Done (t', returned)
    /\ Forall2 (fun r r' =>
                  (Schema.tweet_id r = JStr "1875" ->
                   refreshed_engagement
                     (tweet (Some "1875") 1 30 40 50 3700000) r r')
                  /\ (Schema.tweet_id r <> JStr "1875" -> r' = r))
         [sentiment_values 8 1 (tweet (Some "1875") (-1) 3 4 5 100)] t'
    /\ exists r,
         In r [sentiment_values 8 1 (tweet (Some "1875") (-1) 3 4 5 100)]
         /\ Schema.tweet_id r = JStr "1875"
         /\ returned = Some (Schema.tw_id r).
Proof.
  eexists _, _. split; [reflexivity |].
  apply (insertTwitterSentiment_refreshes_engagement 9 2
           (tweet (Some "1875") 1 30 40 50 3700000)
           [sentiment_values 8 1 (tweet (Some "1875") (-1) 3 4 5 100)] _ _
           "1875").
  - reflexivity.
  - eexists. split; [left; reflexivity | reflexivity].
  - reflexivity.
Defined.

Example insertTwitterSentiment_seen_again :
  match
    insertTwitterSentiment 9 2 (tweet (Some "1875") 1 30 40 50 3700000)
      [sentiment_values 8 1 (tweet (Some "1875") (-1) 3 4 5 100)]
  with
  | Done (t', _) =>
      map (fun r => (Schema.tw_id r, Schema.tw_timestamp r,
                     Schema.sentiment_score r, Schema.retweet_count r,
                     Schema.like_count r, Schema.reply_count r)) t'
      = [(1, 100, JNum (-1), JNum 30, JNum 40, JNum 50)]
  | Rejected _ => False
  end.
Proof. reflexivity. Qed.

(** A like count beyond INTEGER: the server refuses the statement and the
    counters of the stored post are not refreshed. *)
Example insertTwitterSentiment_out_of_range :
  is_rejected
    (insertTwitterSentiment 9 2 (tweet (Some "1875") 1 30 2147483648 50 3700000)
       [sentiment_values 8 1 (tweet (Some "1875") (-1) 3 4 5 100)])
  = true.
Proof. reflexivity. Qed.

(** *** Validator metrics *)

Lemma insertValidatorMetrics_done now nextval data t t' returned :
  insertValidatorMetrics now nextval data t = Done (t', returned) ->
  let excluded := validator_values now nextval data in
  t' = insert_on_conflict same_validator_timestamp validator_do_update
         excluded t
  /\ returned
     = option_map Schema.vm_id (find (same_validator_timestamp excluded) t')
  /\ Schema.validator_metrics_fits excluded = true.
Proof.
  unfold insertValidatorMetrics. cbv zeta.
  destruct (insert_checked Schema.vm_id Schema.validator_metrics_fits
              same_validator_timestamp validator_do_update
              (validator_values now nextval data) t)
    as [t0 | m] eqn:Hc; [| discriminate].
  intros [= <- <-].
  destruct (QueriesProps.insert_checked_done _ _ _ _ _ _ _ Hc)
    as (-> & _ & Hf & _).
  repeat split. exact Hf.
Qed.

Lemma same_validator_timestamp_at now nextval data T r :
  v_timestamp data = Some T ->
  same_validator_timestamp (validator_values now nextval data) r = true
  <-> Schema.vm_timestamp r = T.
Proof.
  intros HT. unfold same_validator_timestamp.
  cbn [validator_values Schema.vm_timestamp]. rewrite HT. apply Z.eqb_eq.
Qed.

(** A call of [insertValidatorMetrics] that the server completes, for a
    timestamp the table does not hold, appends the snapshot and returns
    the new id; for a timestamp it holds, it adds no row: each row of that
    timestamp takes the active validators and the estimated APR of the
    snapshot and keeps every other column, the total of validators and the
    rewards included; the other rows are as they were, and the id returned
    is the id of a row that was there. *)
Theorem insertValidatorMetrics_refreshes_two_columns
    (now : Schema.instant) (nextval : Z) (data : ValidatorSnapshot)
    (t t' : list Schema.validator_metrics_row) (returned : option Z)
    (T : Schema.instant) :
  v_timestamp data = Some T ->
  insertValidatorMetrics now nextval data t = Done (t', returned) ->
  ((forall r, In r t -> Schema.vm_timestamp r <> T) ->
   t' = t ++ [validator_values now nextval data] /\ returned = Some nextval)
  /\ ((exists r, In r t /\ Schema.vm_timestamp r = T) ->
      Forall2 (fun r r' =>
                 (Schema.vm_timestamp r = T -> refreshed_validators data r r')
                 /\ (Schema.vm_timestamp r <> T -> r' = r)) t t'
      /\ exists r, In r t /\ Schema.vm_timestamp r = T
                   /\ returned = Some (Schema.vm_id r)).
Proof.
  intros HT Hi. apply insertValidatorMetrics_done in Hi. cbv zeta in Hi.
  destruct Hi as (-> & -> & _). unfold insert_on_conflict.
  set (ex := validator_values now nextval data).
  pose proof (fun r => same_validator_timestamp_at now nextval data T r HT)
    as Hsame. fold ex in Hsame.
  split.
  - intros Hfresh.
    assert (Hno : forall r, In r t -> same_validator_timestamp ex r = false).
    { intros r Hin. apply not_true_iff_false. rewrite Hsame.
      exact (Hfresh r Hin). }
    replace (existsb (same_validator_timestamp ex) t) with false.
    + split; [reflexivity |].
      rewrite (QueriesProps.find_last _ t ex Hno).
      * reflexivity.
      * apply Hsame. unfold ex. cbn. rewrite HT. reflexivity.
    + symmetry. apply not_true_iff_false. rewrite existsb_exists.
      intros (r & Hin & Hs). rewrite (Hno r Hin) in Hs. discriminate.
  - intros (r0 & Hin0 & Hr0).
    assert (Hyes : existsb (same_validator_timestamp ex) t = true).
    { apply existsb_exists. exists r0. split; [exact Hin0 |].
      apply Hsame, Hr0. }
    rewrite Hyes. split.
    + eapply Forall2_impl; [| apply update_each].
      intros r r' H. cbv beta in H.
      destruct (same_validator_timestamp ex r) eqn:Hs.
      * apply Hsame in Hs. subst r'.
        split; [| intros Hne; contradiction].
        intros _. unfold refreshed_validators. repeat split.
      * split; [| intros _; exact H].
        intros Heq. apply Hsame in Heq. congruence.
    + rewrite find_after_update.
      * destruct (find (same_validator_timestamp ex) t) as [r |] eqn:Hf.
        -- apply find_some in Hf. destruct Hf as [Hin Hs].
           exists r. split; [exact Hin |]. split; [| reflexivity].
           apply Hsame, Hs.
        -- exfalso. apply existsb_exists in Hyes.
           destruct Hyes as (r & Hin & Hs).
           pose proof (find_none _ _ Hf r Hin) as Hn. congruence.
      * intros r Hs. exact Hs.
Qed.

(** Two passes over one cycle: the second one corrects the active count
    and the APR; the total it reports is not taken. *)
Lemma insertValidatorMetrics_refreshes_two_columns_witness :
  exists t' returned,
    insertValidatorMetrics 9 2 (validators 100 4100 4000 35)
      [validator_values 8 1 (validators 100 3900 3800 32)]
    = Done (t', returned)
    /\ map (fun r => (Schema.vm_id r, Schema.vm_total_validators r,
                      Schema.vm_active_validators r, Schema.estimated_apr r)) t'
       = [(1, JNum 3900, JNum 4000, JNum 35)]
    /\ returned = Some 1.
Proof.
  eexists _, _. split; [reflexivity |].
  destruct (insertValidatorMetrics_refreshes_two_columns 9 2
              (validators 100 4100 4000 35)
              [validator_values 8 1 (validators 100 3900 3800 32)] _ _
              100 eq_refl eq_refl) as [_ H].
  destruct H as [Hall (r & Hin & _ & Hret)].
  - eexists. split; [left; reflexivity | reflexivity].
  - split; [reflexivity |]. destruct Hin as [<- | []]. exact Hret.
Defined.

End IngestProps.


(** ** Inserting an anomaly and finding it again *)

Module AnomalyIngestProps.
Import Js AnomalyIngest.

Lemma insertAnomaly_done stringify now nextval data t t' returned :
  insertAnomaly stringify now nextval data t = Queries.Done (t', returned) ->
  exists kind sev,
    anomaly_type data = Some kind /\ severity data = Some sev
    /\ t' = t ++ [anomaly_values stringify now nextval kind sev data]
    /\ returned = (nextval, now)
    /\ (forall r, In r t -> Schema.an_id r <> nextval)
    /\ Schema.in_serial nextval = true.
Proof.
  unfold insertAnomaly.
  destruct (anomaly_type data) as [kind |]; [| discriminate].
  destruct (severity data) as [sev |]; [| discriminate].
  destruct (is_null _ || is_null _ || is_null _); [discriminate |].
  destruct (Schema.in_serial nextval) eqn:Hserial; [| discriminate].
  destruct (Schema.anomaly_fits _); [| discriminate]. cbn [negb].
  destruct (existsb (fun r => Schema.an_id r =? nextval) t) eqn:He;
    [discriminate |].
  intros [= <- <-]. exists kind, sev. repeat split.
  intros r Hin Hid. apply not_true_iff_false in He. apply He.
  apply existsb_exists. exists r. split; [exact Hin | apply Z.eqb_eq, Hid].
Qed.

Lemma serial_in_integer (n : Z) :
  Schema.in_serial n = true -> Schema.in_integer n = true.
Proof.
  unfold Schema.in_serial, Schema.in_integer, Schema.int4_min.
  rewrite !andb_true_iff, !Z.leb_le. lia.
Qed.

Lemma update_where_last now id t r r' :
  (forall x, In x t -> Schema.an_id x <> id) ->
  Schema.an_id r = id ->
  Queries.record_view now r = Queries.Done r' ->
  Queries.update_where (fun x => Schema.an_id x =? id) (Queries.record_view now)
    (t ++ [r])
  = Queries.Done (t ++ [r'], [r']).
Proof.
  intros Ht Hr Hv. induction t as [| x rest IH]; cbn [app Queries.update_where].
  - rewrite (proj2 (Z.eqb_eq _ _) Hr), Hv. reflexivity.
  - rewrite IH by (intros y Hin; apply Ht; right; exact Hin).
    rewrite (proj2 (Z.eqb_neq _ _) (Ht x (or_introl eq_refl))). reflexivity.
Qed.

(** An anomaly that [insertAnomaly] has stored is found by the id it
    returned: the first [getAnomalyById] with that id completes and returns
    the row with the type and severity given, detected at the time of the
    insert, with the status given or 'active', and with a view count of 1;
    the rows that were there are not touched by the lookup. *)
Theorem insertAnomaly_then_getAnomalyById (stringify : jsval -> jsval)
    (now later nextval : Z) (data : AnomalyData)
    (t t' : list Schema.anomaly_row) (returned : Z * Schema.instant) :
  insertAnomaly stringify now nextval data t = Queries.Done (t', returned) ->
  returned = (nextval, now)
  /\ exists found,
       Queries.getAnomalyById later (fst returned) t'
       = Queries.Done (t ++ [found], Some found)
       /\ Schema.an_id found = nextval
       /\ Schema.detected_at found = now
       /\ Some (Schema.anomaly_type found) = anomaly_type data
       /\ Some (Schema.severity found) = severity data
       /\ Schema.status found = Some (status_or_active (status data))
       /\ Schema.view_count found = Some 1
       /\ Schema.last_viewed_at found = Some later.
Proof.
  intros Hins.
  destruct (insertAnomaly_done _ _ _ _ _ _ _ Hins)
    as (kind & sev & Hk & Hs & -> & -> & Hfresh & Hserial).
  split; [reflexivity |]. cbn [fst].
  set (new := anomaly_values stringify now nextval kind sev data).
  destruct (Queries.record_view later new) as [found | m] eqn:Hv;
    [| discriminate Hv].
  exists found. unfold Queries.getAnomalyById.
  rewrite (serial_in_integer nextval Hserial). cbn [negb].
  rewrite (update_where_last later nextval t new found Hfresh eq_refl Hv).
  cbn [hd_error]. split; [reflexivity |].
  unfold Queries.record_view in Hv. cbn in Hv. injection Hv as <-.
  cbn. rewrite Hk, Hs. repeat split.
Qed.

Import AnomalyIngest.Scenario.

Lemma insertAnomaly_then_getAnomalyById_witness :
  exists found,
    Queries.getAnomalyById 2000 7
      ([] ++ [anomaly_values stringify 1000 7 "peg_deviation" "HIGH" peg_alert])
    = Queries.Done ([] ++ [found], Some found)
    /\ Schema.an_id found = 7
    /\ Schema.detected_at found = 1000
    /\ Some (Schema.anomaly_type found) = Some "peg_deviation"
    /\ Some (Schema.severity found) = Some "HIGH"
    /\ Schema.status found = Some "active"
    /\ Schema.view_count found = Some 1
    /\ Schema.last_viewed_at found = Some 2000.
Proof.
  exact (proj2 (insertAnomaly_then_getAnomalyById stringify 1000 2000 7
                  peg_alert [] _ _ eq_refl)).
Defined.

(** An anomaly inserted without a status, or with an empty one, is active:
    the active listing after the insert is the listing before it plus the
    new anomaly, with the id and the time [insertAnomaly] returned. *)
Theorem insertAnomaly_is_listed_active (stringify : jsval -> jsval)
    (now nextval : Z) (data : AnomalyData)
    (t t' : list Schema.anomaly_row) (returned : Z * Schema.instant) :
  insertAnomaly stringify now nextval data t = Queries.Done (t', returned) ->
  status_or_active (status data) = "active"%string ->
  exists listed,
    Permutation (Queries.getActiveAnomalies t')
      (listed :: Queries.getActiveAnomalies t)
    /\ Schema.aa_id listed = fst returned
    /\ Schema.aa_detected_at listed = snd returned
    /\ Some (Schema.aa_severity listed) = severity data
    /\ Some (Schema.aa_anomaly_type listed) = anomaly_type data.
Proof.
  intros Hins Hst.
  destruct (insertAnomaly_done _ _ _ _ _ _ _ Hins)
    as (kind & sev & Hk & Hs & -> & -> & _ & _).
  set (new := anomaly_values stringify now nextval kind sev data).
  exists (Schema.select_active_columns new).
  split; [| cbn; rewrite Hk, Hs; repeat split].
  unfold Queries.getActiveAnomalies, Schema.active_anomalies.
  rewrite SchemaProps.order_by_perm, filter_app, map_app.
  assert (Hact : Schema.is_active new = true).
  { unfold Schema.is_active, new. cbn [anomaly_values Schema.status].
    rewrite Hst. reflexivity. }
  cbn [filter]. rewrite Hact. cbn [map].
  rewrite <- Permutation_cons_append. apply perm_skip.
  symmetry. apply SchemaProps.order_by_perm.
Qed.

Lemma insertAnomaly_is_listed_active_witness :
  exists listed,
    Permutation
      (Queries.getActiveAnomalies
         ([] ++ [anomaly_values stringify 1000 7 "peg_deviation" "HIGH" peg_alert]))
      (listed :: Queries.getActiveAnomalies [])
    /\ Schema.aa_id listed = 7
    /\ Schema.aa_detected_at listed = 1000
    /\ Some (Schema.aa_severity listed) = Some "HIGH"
    /\ Some (Schema.aa_anomaly_type listed) = Some "peg_deviation".
Proof.
  exact (insertAnomaly_is_listed_active stringify 1000 7 peg_alert [] _ _
           eq_refl eq_refl).
Defined.

End AnomalyIngestProps.


(** ** The other views and reads *)

Module ViewsProps.
Import Js Views.


Lemma desc_leb_total (a b : option Z) :
  desc_leb a b = false -> desc_leb b a = true.
Proof.
  destruct a as [x |], b as [y |]; cbn; try congruence.
  rewrite Z.leb_gt, Z.leb_le. lia.
Qed.

Lemma desc_leb_trans (a b c : option Z) :
  desc_leb a b = true -> desc_leb b c = true -> desc_leb a c = true.
Proof.
  destruct a as [x |], b as [y |], c as [z |]; cbn; try congruence.
  rewrite !Z.leb_le. lia.
Qed.

(** *** [latest_metrics] *)

Lemma newest_first_sorted (l : list latest) :
  StronglySorted (fun a b => lm_timestamp b <= lm_timestamp a)
    (Schema.order_by (fun a b => lm_timestamp b <=? lm_timestamp a) l).
Proof.
  eapply SchemaProps.strongly_sorted_weaken.
  - intros a b H. apply Z.leb_le. exact H.
  - apply SchemaProps.order_by_sorted.
    + intros a b. rewrite Z.leb_gt, Z.leb_le. lia.
    + intros a b c. rewrite !Z.leb_le. lia.
Qed.

(** [getLatestMetrics] returns [undefined] exactly on the empty table;
    otherwise it returns the columns of a row of the table, and no row of
    the table has a later timestamp. *)
Theorem getLatestMetrics_is_newest (t : list Schema.time_series_row) :
  match getLatestMetrics t with
  | None => t = []
  | Some newest =>
      (exists r, In r t /\ newest = select_latest_columns r)
      /\ forall r, In r t -> Schema.ts_timestamp r <= lm_timestamp newest
  end.
Proof.
  unfold getLatestMetrics, latest_metrics.
  set (leb := fun a b : latest => lm_timestamp b <=? lm_timestamp a).
  pose proof (SchemaProps.order_by_perm leb (map select_latest_columns t))
    as Hperm.
  pose proof (newest_first_sorted (map select_latest_columns t)) as Hsort.
  fold leb in Hsort.
  destruct (Schema.order_by leb (map select_latest_columns t))
    as [| newest rest].
  - cbn. apply Permutation_nil in Hperm.
    destruct t; [reflexivity | discriminate].
  - cbn [firstn hd_error]. split.
    + assert (Hin : In newest (map select_latest_columns t))
        by (eapply Permutation_in; [exact Hperm | left; reflexivity]).
      apply in_map_iff in Hin. destruct Hin as (r & Heq & Hin).
      exists r. split; [exact Hin | symmetry; exact Heq].
    + intros r Hin.
      assert (Hr : In (select_latest_columns r) (newest :: rest)).
      { eapply Permutation_in; [symmetry; exact Hperm |].
        apply in_map, Hin. }
      apply StronglySorted_inv in Hsort. destruct Hsort as [_ Hall].
      destruct Hr as [Heq | Hr]; [rewrite Heq; cbn; lia |].
      rewrite Forall_forall in Hall. exact (Hall _ Hr).
Qed.

(** After [insertTimeSeriesData] has completed for a snapshot whose
    timestamp is later than every row of the table, [getLatestMetrics]
    reads the row that insert appended: the row with the id and the
    timestamp the insert returned. *)
Theorem insertTimeSeriesData_then_getLatestMetrics
    (now nextval : Z) (data : Queries.MetricSnapshot) (T : Schema.instant)
    (t t' : list Schema.time_series_row)
    (returned : option (Z * Schema.instant)) :
  Queries.timestamp data = Some T ->
  (forall r, In r t -> Schema.ts_timestamp r < T) ->
  Queries.insertTimeSeriesData now nextval data t = Queries.Done (t', returned) ->
  exists stored,
    t' = t ++ [stored]
    /\ returned = Some (nextval, T)
    /\ Schema.ts_id stored = nextval
    /\ Schema.ts_timestamp stored = T
    /\ getLatestMetrics t' = Some (select_latest_columns stored).
Proof.
  intros HT Hold Hi. apply QueriesProps.insertTimeSeriesData_done in Hi.
  cbv zeta in Hi. destruct Hi as (Ht' & Hret & _).
  set (new := Queries.time_series_values now nextval data) in *.
  assert (HnewT : Schema.ts_timestamp new = T)
    by (unfold new; cbn; rewrite HT; reflexivity).
  assert (Hfresh : forall r, In r t ->
            Schema.ts_timestamp r <> Schema.ts_timestamp new)
    by (intros r Hin; rewrite HnewT; pose proof (Hold r Hin); lia).
  rewrite (QueriesProps.insert_fresh Schema.ts_timestamp Queries.same_timestamp
             Queries.time_series_do_update QueriesProps.same_timestamp_key
             new t Hfresh) in Ht'.
  subst t'. exists new.
  split; [reflexivity |]. split.
  { rewrite Hret, (QueriesProps.find_last _ t new).
    - cbn [option_map]. rewrite HnewT. reflexivity.
    - intros r Hin. apply not_true_iff_false.
      rewrite QueriesProps.same_timestamp_key. exact (Hfresh r Hin).
    - apply QueriesProps.same_timestamp_key. reflexivity. }
  split; [reflexivity |]. split; [exact HnewT |].
  pose proof (getLatestMetrics_is_newest (t ++ [new])) as H.
  destruct (getLatestMetrics (t ++ [new])) as [newest |].
  - destruct H as [(r & Hin & ->) Hmax].
    assert (Hge : T <= Schema.ts_timestamp r).
    { rewrite <- HnewT. apply (Hmax new). apply in_or_app. right. left.
      reflexivity. }
    apply in_app_or in Hin. destruct Hin as [Hin | [<- | []]].
    + pose proof (Hold r Hin). cbn in Hge. lia.
    + reflexivity.
  - destruct t; discriminate H.
Qed.

Import Queries.Scenario.

Lemma insertTimeSeriesData_then_getLatestMetrics_witness :
  exists t' returned stored,
    Queries.insertTimeSeriesData 5 10 first_pass [placeholder]
    = Queries.Done (t', returned)
    /\ t' = [placeholder] ++ [stored]
    /\ returned = Some (10, cycle)
    /\ Schema.ts_id stored = 10
    /\ Schema.ts_timestamp stored = cycle
    /\ getLatestMetrics t' = Some (select_latest_columns stored).
Proof.
  destruct (insertTimeSeriesData_then_getLatestMetrics 5 10 first_pass cycle
              [placeholder] _ _ eq_refl
              (fun r Hin => match Hin with
                            | or_introl Heq =>
                                eq_ind placeholder
                                  (fun x => Schema.ts_timestamp x < cycle)
                                  eq_refl r Heq
                            | or_intror Hno => match Hno with end
                            end)
              eq_refl) as (stored & H).
  eexists _, _, stored. split; [reflexivity | exact H].
Defined.

(** *** [recent_whale_movements] *)

Lemma strongly_sorted_among {R : Type} (P P' : R -> R -> Prop)
    (ok : R -> Prop) (l : list R) :
  (forall a b, ok a -> ok b -> P a b -> P' a b) ->
  Forall ok l -> StronglySorted P l -> StronglySorted P' l.
Proof.
  intros Himp Hok Hs. induction Hs as [| x rest Hs IH Hx]; constructor.
  - apply IH. inversion Hok; assumption.
  - inversion Hok as [| ? ? Hokx Hokrest]; subst.
    rewrite Forall_forall in *. intros b Hb.
    apply Himp; [exact Hokx | apply Hokrest, Hb | apply Hx, Hb].
Qed.

Lemma moved_number (r : Schema.whale_wallet_row) :
  moved r = true <->
  exists x, Schema.change_24h_percent r = JNum x /\ 5 < Z.abs x.
Proof.
  unfold moved, abs_change, number_of.
  destruct (Schema.change_24h_percent r) as [| | | n | | |]; cbn;
    try (split; [discriminate | intros (x & [=] & _)]).
  rewrite Z.ltb_lt. split.
  - intros H. exists n. auto.
  - intros (x & [= <-] & H). exact H.
Qed.

(** On a table whose 24h change is a number or NULL, the movements view
    lists, in its columns, exactly the wallets that moved by more than 5
    percent up or down (5 itself and NULL are left out), the larger move
    first. *)
Theorem recent_whale_movements_listing (t : list Schema.whale_wallet_row) :
  Forall (fun r => numeric_cell (Schema.change_24h_percent r)) t ->
  Permutation (getRecentWhaleMovements t)
    (map select_movement_columns (filter moved t))
  /\ (forall r, In r (filter moved t) <->
                In r t
                /\ exists x, Schema.change_24h_percent r = JNum x
                             /\ 5 < Z.abs x)
  /\ StronglySorted larger_move (getRecentWhaleMovements t).
Proof.
  intros _. unfold getRecentWhaleMovements, recent_whale_movements.
  split; [apply SchemaProps.order_by_perm |]. split.
  - intros r. rewrite filter_In, moved_number. reflexivity.
  - apply (strongly_sorted_among (fun a b => movement_order a b = true)
             larger_move
             (fun m => exists x, mv_change_24h_percent m = JNum x)).
    + intros a b (x & Hx) (y & Hy). unfold movement_order, abs_change, larger_move.
      rewrite Hx, Hy. cbn. rewrite Z.leb_le. intros H. exists x, y. auto.
    + rewrite Forall_forall. intros m Hm.
      apply (Permutation_in _ (SchemaProps.order_by_perm _ _)) in Hm.
      apply in_map_iff in Hm. destruct Hm as (r & <- & Hr).
      apply filter_In in Hr. destruct Hr as [_ Hr].
      apply moved_number in Hr. destruct Hr as (x & Hx & _).
      exists x. exact Hx.
    + apply SchemaProps.order_by_sorted.
      * intros a b. apply desc_leb_total.
      * intros a b c. apply desc_leb_trans.
Qed.

Import Samples.

Lemma numeric_four_wallets :
  Forall (fun r => numeric_cell (Schema.change_24h_percent r)) four_wallets
  /\ Forall (fun r => numeric_cell (Schema.current_balance_eeth r)) four_wallets.
Proof.
  split;
    repeat (apply Forall_cons;
            [cbn; first [left; reflexivity | right; eexists; reflexivity] |]);
    apply Forall_nil.
Qed.

Lemma recent_whale_movements_listing_witness :
  Permutation (getRecentWhaleMovements four_wallets)
    (map select_movement_columns (filter moved four_wallets))
  /\ (forall r, In r (filter moved four_wallets) <->
                In r four_wallets
                /\ exists x, Schema.change_24h_percent r = JNum x
                             /\ 5 < Z.abs x)
  /\ StronglySorted larger_move (getRecentWhaleMovements four_wallets).
Proof.
  apply recent_whale_movements_listing. exact (proj1 numeric_four_wallets).
Defined.

(** A fall of 12 percent, a rise of 6, a rise of 5 and no figure: the fall
    first, then the rise of 6, and nothing else. *)
Example recent_whale_movements_of_four :
  map mv_address (getRecentWhaleMovements four_wallets) = ["0xbb"; "0xdd"]%string.
Proof. reflexivity. Qed.

(** *** [getTopWhales] *)




(** The top two of the four: the wallet without a balance, then 900. *)
Example top_whales_of_four :
  match top_whales (Some 2) four_wallets with
  | Queries.Done top => map Schema.address top = ["0xcc"; "0xbb"]%string
  | Queries.Rejected _ => False
  end.
Proof. reflexivity. Qed.

End ViewsProps.


(** ** Retention, again and later *)

Module RetentionProps.
Import Js Schema.

Lemma filter_absorbs {R : Type} (f g : R -> bool) (l : list R) :
  (forall x, f x = true -> g x = true) ->
  filter f (filter g l) = filter f l.
Proof.
  intros H. induction l as [| x rest IH]; cbn [filter]; [reflexivity |].
  destruct (g x) eqn:Hg.
  - cbn [filter]. rewrite IH. reflexivity.
  - destruct (f x) eqn:Hf; [rewrite (H x Hf) in Hg; discriminate | exact IH].
Qed.

Lemma delete_where_twice {R : Type} (c1 c2 : R -> bool) (l : list R) :
  (forall x, c1 x = true -> c2 x = true) ->
  delete_where c2 (delete_where c1 l) = delete_where c2 l.
Proof.
  intros H. unfold delete_where. apply filter_absorbs.
  intros x Hx. apply negb_true_iff in Hx. apply negb_true_iff.
  destruct (c1 x) eqn:Hc; [rewrite (H x Hc) in Hx; discriminate | reflexivity].
Qed.

(** A cleanup that follows an earlier cleanup leaves what it would have
    left alone, as long as its 90-day and 60-day boundaries are not before
    those of the earlier run: running the routine again at the same
    instant changes nothing, and in a session whose days all have 24 hours
    a run missed or repeated earlier makes no difference later. *)
Theorem cleanup_old_data_after_cleanup
    (days_before : Z -> instant -> instant) (earlier now : instant)
    (db : database) :
  days_before 90 earlier <= days_before 90 now ->
  days_before 60 earlier <= days_before 60 now ->
  cleanup_old_data days_before now (cleanup_old_data days_before earlier db)
  = cleanup_old_data days_before now db.
Proof.
  intros H90 H60. unfold cleanup_old_data.
  cbn [time_series_data whale_wallets twitter_sentiment validator_metrics
         anomalies].
  f_equal; apply delete_where_twice; intros x.
  - rewrite !Z.ltb_lt. lia.
  - rewrite !Z.ltb_lt. lia.
  - rewrite !Z.ltb_lt. lia.
  - rewrite !andb_true_iff. intros [Hs Hb]. split; [exact Hs |].
    destruct (resolved_at x) as [at_time |]; [| discriminate].
    cbn [before] in *. rewrite Z.ltb_lt in *. lia.
Qed.

Import Schema.Scenario.

(** Two runs thirty days apart in a session in UTC. *)
Lemma cleanup_old_data_after_cleanup_witness :
  cleanup_old_data utc_days_before now
    (cleanup_old_data utc_days_before (now - 30 * day)
       (only_anomalies
          [anomaly 1 0 "LOW" (Some "resolved") (Some (now - 130 * day));
           anomaly 2 0 "LOW" (Some "resolved") (Some (now - 100 * day));
           anomaly 3 0 "LOW" (Some "resolved") (Some (now - 10 * day))]))
  = cleanup_old_data utc_days_before now
      (only_anomalies
         [anomaly 1 0 "LOW" (Some "resolved") (Some (now - 130 * day));
          anomaly 2 0 "LOW" (Some "resolved") (Some (now - 100 * day));
          anomaly 3 0 "LOW" (Some "resolved") (Some (now - 10 * day))]).
Proof.
  apply cleanup_old_data_after_cleanup;
    unfold utc_days_before, now, day; lia.
Defined.

(** The cleanup never touches what the dashboard lists: the active
    listing is the same before and after it, whatever the time zone of the
    session. *)
Theorem cleanup_old_data_keeps_active_listing
    (days_before : Z -> instant -> instant) (now : instant) (db : database) :
  Queries.getActiveAnomalies
    (anomalies (Queries.cleanupOldData days_before now db))
  = Queries.getActiveAnomalies (anomalies db).
Proof.
  unfold Queries.getActiveAnomalies, Queries.cleanupOldData, active_anomalies,
    cleanup_old_data.
  cbn [anomalies]. unfold delete_where. rewrite filter_absorbs; [reflexivity |].
  intros r Hact. apply negb_true_iff, andb_false_iff. left.
  unfold is_active in Hact. destruct (status r) as [s |]; [| discriminate].
  cbn [text_is] in *. apply String.eqb_eq in Hact. subst s. reflexivity.
Qed.

End RetentionProps.


(** ** Lookups by id, one after another *)

Module AnomalyViewProps.
Import Js Queries Series.

Lemma update_where_misses {R : Type} (cond : R -> bool)
    (set : R -> sql_result R) (t : list R) :
  (forall r, In r t -> cond r = false) ->
  update_where cond set t = Done (t, []).
Proof.
  induction t as [| r rest IH]; intros H; cbn [update_where]; [reflexivity |].
  rewrite IH by (intros x Hin; apply H; right; exact Hin).
  rewrite (H r (or_introl eq_refl)). reflexivity.
Qed.

(** [getAnomalyById] with an id within INTEGER that no row has completes,
    changes nothing and returns [undefined]. *)
Theorem getAnomalyById_unknown_id (now : Schema.instant) (id : Z)
    (t : list Schema.anomaly_row) :
  Schema.int4_min <= id <= Schema.int4_max ->
  (forall r, In r t -> Schema.an_id r <> id) ->
  getAnomalyById now id t = Done (t, None).
Proof.
  intros Hid H. unfold getAnomalyById.
  rewrite (proj2 (QueriesProps.in_integer_bounds id) Hid). cbn [negb].
  rewrite update_where_misses; [reflexivity |].
  intros r Hin. apply Z.eqb_neq, H, Hin.
Qed.

Import Schema.Scenario.

Lemma getAnomalyById_unknown_id_witness :
  getAnomalyById now 9 [anomaly 1 0 "LOW" (Some "active") None]
  = Done ([anomaly 1 0 "LOW" (Some "active") None], None).
Proof.
  apply getAnomalyById_unknown_id.
  - unfold Schema.int4_min, Schema.int4_max. lia.
  - intros r [<- | []]. discriminate.
Defined.

(** An id beyond INTEGER is refused by the server, whatever the table
    holds. *)
Example getAnomalyById_id_out_of_range :
  getAnomalyById now 2147483648 [anomaly 1 0 "LOW" (Some "active") None]
  = Rejected "value is out of range for type integer".
Proof. reflexivity. Qed.

Lemma Forall2_then {R : Type} (P Q S : R -> R -> Prop) (l1 l2 l3 : list R) :
  (forall a b c, P a b -> Q b c -> S a c) ->
  Forall2 P l1 l2 -> Forall2 Q l2 l3 -> Forall2 S l1 l3.
Proof.
  intros H H12. revert l3. induction H12 as [| a b l1 l2 Hab _ IH];
    intros l3 H23; inversion H23; subst; constructor; eauto.
Qed.

Lemma Forall2_from_right {R : Type} (P : R -> R -> Prop) (l1 l2 : list R) (b : R) :
  Forall2 P l1 l2 -> In b l2 -> exists a, In a l1 /\ P a b.
Proof.
  induction 1 as [| x y l1 l2 Hxy _ IH]; intros Hin; [contradiction |].
  destruct Hin as [<- | Hin].
  - exists x. split; [left; reflexivity | exact Hxy].
  - destruct (IH Hin) as (a & Ha & HP). exists a. split; [right |]; assumption.
Qed.

(** Lookups add up: after [getAnomalyById] has been called [k] times for an
    id within INTEGER, on rows whose view count leaves room for [k] more,
    each call has completed, the rows with that id show [k] more views with
    every column other than the view count and the time of the last view as
    it was, and the other rows are untouched. *)
Theorem getAnomalyById_each_adds_up (times : list Schema.instant) (id : Z) :
  Schema.int4_min <= id <= Schema.int4_max ->
  forall t : list Schema.anomaly_row,
  (forall r, In r t -> Schema.an_id r = id ->
     exists n, Schema.view_count r = Some n
               /\ n + Z.of_nat (List.length times) <= Schema.int4_max) ->
  exists t',
    getAnomalyById_each times id t = Done t'
    /\ Forall2 (fun r r' =>
                  if Schema.an_id r =? id
                  then (exists n, Schema.view_count r = Some n
                                  /\ Schema.view_count r'
                                     = Some (n + Z.of_nat (List.length times)))
                       /\ columns_not_viewed r' = columns_not_viewed r
                  else r' = r) t t'.
Proof.
  intros Hrange.
  induction times as [| now later IH]; intros t H.
  - exists t. split; [reflexivity |].
    induction t as [| r rest IHt]; constructor.
    + destruct (Schema.an_id r =? id) eqn:Hid; [| reflexivity].
      apply Z.eqb_eq in Hid.
      destruct (H r (or_introl eq_refl) Hid) as (n & Hn & _).
      split; [| reflexivity]. exists n. split; [exact Hn |].
      rewrite Hn. f_equal. cbn. lia.
    + apply IHt. intros x Hin. apply H. right. exact Hin.
  - cbn [getAnomalyById_each]. unfold getAnomalyById.
    rewrite (proj2 (QueriesProps.in_integer_bounds id) Hrange). cbn [negb].
    destruct (QueriesProps.update_where_viewed now id t) as (t1 & ret & -> & Hall & _).
    { intros r Hin Hid. destruct (H r Hin Hid) as (n & Hn & Hle).
      exists n. split; [exact Hn |]. cbn [List.length] in Hle. lia. }
    destruct (IH t1) as (t2 & Hrun & Hall2).
    { intros r' Hin' Hid'.
      destruct (Forall2_from_right _ _ _ _ Hall Hin') as (r & Hin & Hrel).
      destruct (Schema.an_id r =? id) eqn:Hid.
      - apply Z.eqb_eq in Hid.
        destruct Hrel as ((n & Hn & Hn') & _).
        destruct (H r Hin Hid) as (m & Hm & Hle).
        exists (n + 1). split; [exact Hn' |].
        rewrite Hn in Hm. injection Hm as <-. cbn [List.length] in Hle. lia.
      - subst r'. apply Z.eqb_neq in Hid. contradiction. }
    exists t2. split; [exact Hrun |].
    eapply Forall2_then; [| exact Hall | exact Hall2].
    intros a b c Hab Hbc. cbv beta in *.
    destruct (Schema.an_id a =? id) eqn:Hid.
    + destruct Hab as ((n & Hn & Hn') & _ & _ & _ & _ & Hcols).
      assert (Hidb : Schema.an_id b = Schema.an_id a)
        by (unfold columns_not_viewed in Hcols; congruence).
      rewrite Hidb, Hid in Hbc.
      destruct Hbc as ((m & Hm & Hm') & Hcols').
      split; [| congruence].
      exists n. split; [exact Hn |]. rewrite Hm'. f_equal.
      rewrite Hn' in Hm. injection Hm as <-. cbn [List.length]. lia.
    + subst b. rewrite Hid in Hbc. exact Hbc.
Qed.

Lemma getAnomalyById_each_adds_up_witness :
  exists t',
    getAnomalyById_each [now; now + day; now + 2 * day] 1
      [anomaly 1 0 "HIGH" (Some "active") None;
       anomaly 2 0 "LOW" (Some "active") None]
    = Done t'
    /\ Forall2 (fun r r' =>
                  if Schema.an_id r =? 1
                  then (exists n, Schema.view_count r = Some n
                                  /\ Schema.view_count r' = Some (n + 3))
                       /\ columns_not_viewed r' = columns_not_viewed r
                  else r' = r)
         [anomaly 1 0 "HIGH" (Some "active") None;
          anomaly 2 0 "LOW" (Some "active") None] t'.
Proof.
  apply (getAnomalyById_each_adds_up [now; now + day; now + 2 * day] 1).
  - unfold Schema.int4_min, Schema.int4_max. lia.
  - intros r [<- | [<- | []]] Hid.
    + exists 0. split; [reflexivity | cbn; unfold Schema.int4_max; lia].
    + discriminate Hid.
Defined.

End AnomalyViewProps.


(** ** What the upserts keep *)

Module UpsertFrameProps.
Import Js Queries Series.

(** An upsert that the server completes, for an address the table holds,
    adds no row and refreshes the current balances, the 24h changes, the
    rank and [last_updated] only: the id, [first_seen], the balances of 24
    hours, 7 days and 30 days ago, the 7-day changes, the deposit and
    withdrawal totals, the last transaction, the label and the flags stay
    as stored, whatever the call supplies for them; the rows of other
    addresses are untouched. *)
Theorem upsertWhaleWallet_keeps_history (now : Schema.instant) (nextval : Z)
    (data : WhaleWallet) (t t' : list Schema.whale_wallet_row)
    (returned : option (Z * string)) :
  (exists r, In r t /\ Schema.address r = address data) ->
  upsertWhaleWallet now nextval data t = Done (t', returned) ->
  Forall2 (fun r r' =>
             (Schema.address r = address data ->
              columns_not_updated r' = columns_not_updated r
              /\ Schema.last_updated r' = now
              /\ Schema.current_balance_eeth r'
                 = prepare (current_balance_eeth data)
              /\ Schema.current_balance_usd r'
                 = prepare (current_balance_usd data)
              /\ Schema.change_24h_eeth r' = prepare (change_24h_eeth data)
              /\ Schema.change_24h_percent r'
                 = prepare (change_24h_percent data)
              /\ Schema.rank_position r' = prepare (rank_position data))
             /\ (Schema.address r <> address data -> r' = r))
    t t'.
Proof.
  intros (r0 & Hin0 & Hr0) Hu.
  apply QueriesProps.upsertWhaleWallet_done in Hu. cbv zeta in Hu.
  destruct Hu as (-> & _). unfold insert_on_conflict.
  set (ex := whale_values now nextval data).
  assert (Hsame : forall r, same_address ex r = true
                            <-> Schema.address r = address data).
  { intros r. apply (QueriesProps.same_address_key ex r). }
  assert (Hyes : existsb (same_address ex) t = true).
  { apply existsb_exists. exists r0. split; [exact Hin0 | apply Hsame, Hr0]. }
  rewrite Hyes.
  eapply Forall2_impl; [| apply IngestProps.update_each].
  intros r r' H. cbv beta in H.
  destruct (same_address ex r) eqn:Hs.
  - subst r'. split; [| intros Hne; apply Hsame in Hs; contradiction].
    intros _. repeat split.
  - split; [| intros _; exact H].
    intros Heq. apply Hsame in Heq. congruence.
Qed.

Import Queries.Scenario.

(** A second upsert for the address of the first one. *)
Lemma upsertWhaleWallet_keeps_history_witness :
  exists t' returned,
    upsertWhaleWallet 300 3 (whale binance14 4000 (-1000) 2)
      [whale_values 100 1 (whale binance14 5000 10 1)]
    = Done (t', returned)
    /\ map (fun r => (Schema.ww_id r, Schema.first_seen r,
                      Schema.last_updated r, Schema.current_balance_eeth r,
                      Schema.balance_24h_ago r)) t'
       = [(1, 100, 300, JNum 4000, JNum 4990)].
Proof.
  eexists _, _. split; [reflexivity |].
  pose proof (upsertWhaleWallet_keeps_history 300 3
                (whale binance14 4000 (-1000) 2)
                [whale_values 100 1 (whale binance14 5000 10 1)] _ _
                (ex_intro _ _ (conj (or_introl eq_refl) eq_refl)) eq_refl)
    as H.
  inversion H as [| r r' rest rest' [Hrow _] Hrest]; subst.
  reflexivity.
Defined.

(** *** Time series *)

Lemma find_of_single {R : Type} (f : R -> bool) (l : list R) (x : R) :
  filter f l = [x] -> find f l = Some x.
Proof.
  induction l as [| y rest IH]; cbn [filter find]; [discriminate |].
  destruct (f y); [intros [= ->]; reflexivity | exact IH].
Qed.

(** [insertTimeSeriesData] keeps the timestamps of the table distinct.
    When the server completes it, it returns the id and the timestamp of
    the one row that then holds the timestamp it bound, the Date given or
    else the clock of the process, and every row of another timestamp is
    still in the table. *)
Theorem insertTimeSeriesData_keeps_timestamps_unique
    (now nextval : Z) (data : MetricSnapshot)
    (t t' : list Schema.time_series_row)
    (returned : option (Z * Schema.instant)) :
  NoDup (map Schema.ts_timestamp t) ->
  insertTimeSeriesData now nextval data t = Done (t', returned) ->
  let bound := match timestamp data with Some at_time => at_time | None => now end in
  NoDup (map Schema.ts_timestamp t')
  /\ (exists r', filter (fun r => Schema.ts_timestamp r =? bound) t' = [r']
                 /\ returned = Some (Schema.ts_id r', bound))
  /\ forall r, In r t -> Schema.ts_timestamp r <> bound -> In r t'.
Proof.
  intros Hnd Hi. cbv zeta.
  apply QueriesProps.insertTimeSeriesData_done in Hi. cbv zeta in Hi.
  destruct Hi as (-> & -> & _).
  set (ex := time_series_values now nextval data).
  split; [| split].
  - apply (QueriesProps.insert_on_conflict_unique Schema.ts_timestamp
             same_timestamp time_series_do_update
             QueriesProps.same_timestamp_key (fun r e => eq_refl) ex t Hnd).
  - destruct (QueriesProps.insert_on_conflict_one Schema.ts_timestamp
                same_timestamp time_series_do_update
                QueriesProps.same_timestamp_key (fun r e => eq_refl) ex t Hnd)
      as (r' & Hf & Hr').
    exists r'. split; [exact Hf |].
    rewrite (find_of_single _ _ _ Hf). cbn [option_map]. f_equal. f_equal.
    assert (Hin : In r' (filter (same_timestamp ex)
                           (insert_on_conflict same_timestamp
                              time_series_do_update ex t)))
      by (rewrite Hf; left; reflexivity).
    apply filter_In in Hin. destruct Hin as [_ Hs].
    apply QueriesProps.same_timestamp_key in Hs. exact Hs.
  - intros r Hin Hne. unfold insert_on_conflict.
    assert (Hs : same_timestamp ex r = false).
    { apply not_true_iff_false. rewrite QueriesProps.same_timestamp_key.
      exact Hne. }
    destruct (existsb (same_timestamp ex) t).
    + apply in_map_iff. exists r. rewrite Hs. auto.
    + apply in_or_app. left. exact Hin.
Qed.

(** The cycle ingested again on top of the placeholder and its first
    pass: still one row for it, and the id returned is the first one. *)
Lemma insertTimeSeriesData_keeps_timestamps_unique_witness :
  exists t' returned,
    insertTimeSeriesData 6 11 second_pass
      [placeholder; time_series_values 5 10 first_pass]
    = Done (t', returned)
    /\ NoDup (map Schema.ts_timestamp t')
    /\ (exists r', filter (fun r => Schema.ts_timestamp r =? cycle) t' = [r']
                   /\ returned = Some (Schema.ts_id r', cycle))
    /\ forall r, In r [placeholder; time_series_values 5 10 first_pass] ->
         Schema.ts_timestamp r <> cycle ->
         In r t'.
Proof.
  eexists _, _. split; [reflexivity |].
  apply (insertTimeSeriesData_keeps_timestamps_unique 6 11 second_pass
           [placeholder; time_series_values 5 10 first_pass]).
  - repeat constructor; cbn; intuition discriminate.
  - reflexivity.
Defined.

(** *** The baseline over nothing *)



End UpsertFrameProps.

(** ** The transaction runner: the edges *)

Module TransactionEdgeProps.
Import Eff DbConnection.

Section Runner.
Context {W client rows T : Type}.
Variable pool_connect : W -> outcome client * W.
Variable client_query : client -> string -> W -> outcome rows * W.
Variable client_release : client -> W -> W.
Variable callback : client -> Eff.M W (event client) T.

Local Abbreviation run :=
  (transaction pool_connect client_query client_release callback).

(** When the pool has no client to give, the runner throws the pool's
    error and does nothing else: no statement is sent, the callback is not
    run, nothing is released and the console stays silent. *)
Theorem transaction_without_client (w : W) (e : Js.thrown) (w0 : W) :
  pool_connect w = (Threw e, w0) ->
  run w = (Threw e, w0, []).
Proof.
  intros Hc. unfold transaction, bind, getClient. rewrite Hc. reflexivity.
Qed.

(** A run that returns has committed: the value is the one the callback
    returned on the client the pool handed out, BEGIN and COMMIT both
    completed around it, no ROLLBACK was sent by the runner, and the
    client went back to the pool last. *)
Theorem transaction_returns_only_after_commit
    (w : W) (v : T) (w' : W) (log : list (event client)) :
  run w = (Returned v, w', log) ->
  exists c w0 r0 w1 w2 lb r1 w3,
    pool_connect w = (Returned c, w0)
    /\ client_query c "BEGIN" w0 = (Returned r0, w1)
    /\ callback c w1 = (Returned v, w2, lb)
    /\ client_query c "COMMIT" w2 = (Returned r1, w3)
    /\ w' = client_release c w3
    /\ log = [Connect c; Query c "BEGIN"] ++ lb
               ++ [Query c "COMMIT"; Release c].
Proof.
  intros Hrun.
  destruct (pool_connect w) as [[c | e] w0] eqn:Hc.
  2:{ rewrite (TransactionProps.no_client_path pool_connect client_query
                 client_release callback w e w0 Hc) in Hrun.
      discriminate. }
  pose proof (TransactionProps.transaction_paths pool_connect client_query
                client_release callback w c w0 Hc) as Hp.
  assert (Hno : forall e wr done,
            ~ rolls_back pool_connect client_query client_release callback
                w c e wr done).
  { intros e wr done Hr. unfold rolls_back in Hr.
    destruct (client_query c "ROLLBACK" wr) as [[r | e'] w''];
      [destruct (Js.message e) |]; rewrite Hr in Hrun; discriminate. }
  destruct (client_query c "BEGIN" w0) as [[r0 | e] w1] eqn:Hb;
    [| exfalso; exact (Hno _ _ _ Hp)].
  destruct (callback c w1) as [[[v0 | e] w2] lb] eqn:Hk;
    [| exfalso; exact (Hno _ _ _ Hp)].
  destruct (client_query c "COMMIT" w2) as [[r1 | e] w3] eqn:Hm;
    [| exfalso; exact (Hno _ _ _ Hp)].
  rewrite Hp in Hrun. injection Hrun as Hv Hw Hl. subst v0.
  exists c, w0, r0, w1, w2, lb, r1, w3.
  repeat split; try reflexivity; try assumption; symmetry; assumption.
Qed.

End Runner.

Import DbConnection.Scenario.

(** A pool that times out: the body is never reached. *)
Lemma transaction_without_client_witness :
  transaction DbQuery.Scenario.pool_exhausted (client_query []) client_release
    (body_ok []) 0%nat
  = (Threw DbQuery.Scenario.pool_timeout, 0%nat, []).
Proof.
  apply (transaction_without_client DbQuery.Scenario.pool_exhausted
           (client_query []) client_release (body_ok []) 0%nat
           DbQuery.Scenario.pool_timeout 0%nat).
  reflexivity.
Defined.

Lemma transaction_returns_only_after_commit_witness :
  exists c w0 r0 w1 w2 lb r1 w3,
    pool_connect 0%nat = (Returned c, w0)
    /\ client_query [] c "BEGIN" w0 = (Returned r0, w1)
    /\ body_ok [] c w1 = (Returned 42, w2, lb)
    /\ client_query [] c "COMMIT" w2 = (Returned r1, w3)
    /\ 0%nat = client_release c w3
    /\ [Connect 0%nat; Query 0%nat "BEGIN";
        Query 0%nat "INSERT INTO anomalies DEFAULT VALUES";
        Query 0%nat "COMMIT"; Release 0%nat]
       = [Connect c; Query c "BEGIN"] ++ lb ++ [Query c "COMMIT"; Release c].
Proof.
  apply (transaction_returns_only_after_commit pool_connect (client_query [])
           client_release (body_ok []) 0%nat 42 0%nat).
  reflexivity.
Defined.

End TransactionEdgeProps.
